(** * worktree-cli: the worktree lifecycle manager and its text parsers

  A shallow embedding of [src/WorktreeManager.ts] (both revisions of the
  manager that the repository carries), [src/RepositoryConfig.ts] and the
  [parseRepoUrl] helper of [src/cli.ts] / [src/wizard.ts].

  Conventions.
  - A JavaScript string is a [string]: a sequence of code units, here the
    code units below 256.  Whitespace and line terminators are the ones of
    ECMAScript that fall in that range.
  - A thrown value is always an [Error] object in this code base; it is
    represented by its [message].
  - The external program and the JSON functions of the runtime are
    operations of a [Host]; every command run is recorded, with its
    outcome, in the trace of the state.
  - Console output is not part of the model. *)

From Stdlib Require Import Ascii String List Arith Lia Bool.
From stdpp Require Import base option list strings gmap sorting.


(** ** JavaScript string primitives used by the sources *)

Module JS.

(** Characters that cannot be written inside a literal here. *)
Definition LF : ascii := ascii_of_nat 10.
Definition CR : ascii := ascii_of_nat 13.
Definition nl : string := String LF EmptyString.
Definition dq : string := String (ascii_of_nat 34) EmptyString.

(** [s.startsWith(p)] *)
Fixpoint startsWith (p s : string) : bool :=
  match p, s with
  | EmptyString, _ => true
  | String _ _, EmptyString => false
  | String a p', String b s' => if Ascii.eqb a b then startsWith p' s' else false
  end.

(** [s.substring(n)]: the code units from index [n] on. *)
Fixpoint substring_from (n : nat) (s : string) : string :=
  match n, s with
  | O, _ => s
  | S _, EmptyString => EmptyString
  | S n', String _ s' => substring_from n' s'
  end.

(** [s.indexOf(p)], with [None] for -1. *)
Fixpoint indexOf (p s : string) : option nat :=
  if startsWith p s then Some 0
  else match s with
       | EmptyString => None
       | String _ s' => option_map S (indexOf p s')
       end.

(** [s.includes(p)] *)
Definition includes (p s : string) : bool :=
  match indexOf p s with Some _ => true | None => false end.

(** [s.replace(pat, rep)] for a string pattern: the first occurrence only.
    The replacement texts used by the sources contain no dollar sign. *)
Fixpoint replace (pat rep s : string) : string :=
  if startsWith pat s then rep +:+ substring_from (String.length pat) s
  else match s with
       | EmptyString => EmptyString
       | String c s' => String c (replace pat rep s')
       end.

(** [s.split(sep)] for a one-character separator. *)
Fixpoint split (sep : ascii) (s : string) : list string :=
  match s with
  | EmptyString => [EmptyString]
  | String c s' =>
      if Ascii.eqb c sep then EmptyString :: split sep s'
      else match split sep s' with
           | l :: ls => String c l :: ls
           | [] => [String c EmptyString]
           end
  end.

(** ECMAScript WhiteSpace and LineTerminator code units below 256. *)
Definition isWhiteSpace (c : ascii) : bool :=
  match nat_of_ascii c with
  | 9 | 10 | 11 | 12 | 13 | 32 | 160 => true
  | _ => false
  end.

Fixpoint trimStart (s : string) : string :=
  match s with
  | EmptyString => EmptyString
  | String c s' => if isWhiteSpace c then trimStart s' else s
  end.

Fixpoint trimEnd (s : string) : string :=
  match s with
  | EmptyString => EmptyString
  | String c s' =>
      match trimEnd s' with
      | EmptyString => if isWhiteSpace c then EmptyString else String c EmptyString
      | r => String c r
      end
  end.

(** [s.trim()] *)
Definition trim (s : string) : string := trimEnd (trimStart s).

(** Truthiness of a string: the empty string is falsy. *)
Definition truthy (s : string) : bool :=
  match s with EmptyString => false | String _ _ => true end.

(** [a || b] on values that are a string or undefined/null. *)
Definition or_else (a b : option string) : option string :=
  match a with
  | Some s => if truthy s then a else b
  | None => b
  end.

(** [a || d] where [d] is a string. *)
Definition or_default (a : option string) (d : string) : string :=
  match a with
  | Some s => if truthy s then s else d
  | None => d
  end.

(** The regular-expression atom [.]: any code unit but a line terminator. *)
Definition isDot (c : ascii) : bool :=
  negb (Ascii.eqb c LF || Ascii.eqb c CR).

Fixpoint allDot (s : string) : bool :=
  match s with
  | EmptyString => true
  | String c s' => isDot c && allDot s'
  end.

(** [Error.prototype.toString()] of [new Error(message)], which is also
    what a template literal interpolates. *)
Definition Error_toString (message : string) : string :=
  match message with
  | EmptyString => "Error"
  | _ => "Error: " +:+ message
  end.

End JS.

(** A computation either returns or throws an [Error] with a message. *)
Inductive result (A : Type) : Type :=
| Ok (value : A)
| Throw (message : string).
Arguments Ok {A} value.
Arguments Throw {A} message.

(** ** [parseRepoUrl] (cli.ts and wizard.ts carry the same function) *)

Module Url.

Definition slash : ascii := "/"%char.

(** The tail of the pattern once group 1 holds at least one code unit:
    the lazy [[^\/]+?] grows one code unit at a time, and before each
    growth the rest of the pattern, [(\.git)?$], is tried on what remains.
    The result is what group 1 takes from [s]. *)
Fixpoint lazy_tail (s : string) : option string :=
  if String.eqb s ".git" then Some EmptyString
  else match s with
       | EmptyString => Some EmptyString
       | String c s' =>
           if Ascii.eqb c slash then None
           else option_map (String c) (lazy_tail s')
       end.

(** The pattern tried right after a slash: group 1 of a match, if any. *)
Definition match_after_slash (rest : string) : option string :=
  match rest with
  | EmptyString => None
  | String c s' =>
      if Ascii.eqb c slash then None
      else option_map (String c) (lazy_tail s')
  end.

(** [url.match(/\/([^\/]+?)(\.git)?$/)]: the leftmost start position at
    which the pattern matches; the value is [match[1]]. *)
Fixpoint regex_match (url : string) : option string :=
  match url with
  | EmptyString => None
  | String c rest =>
      match (if Ascii.eqb c slash then match_after_slash rest else None) with
      | Some name => Some name
      | None => regex_match rest
      end
  end.

Definition parseRepoUrl (url : string) : result string :=
  match regex_match url with
  | None => Throw "Invalid repository URL"
  | Some name => Ok name
  end.

(** No slash occurs in the string. *)
Fixpoint noSlash (s : string) : bool :=
  match s with
  | EmptyString => true
  | String c s' => negb (Ascii.eqb c slash) && noSlash s'
  end.

End Url.


(** ** Porcelain worktree listing: the parser inside [listWorktrees] *)

Module Porcelain.

(** The body of the loop for a line that starts a record: lines 143-146. *)
Definition worktreeEntry (lines : list string) (i : nat) (line : string) : string :=
  let path := JS.substring_from 9 line in
  let branchLine := lines !! (i + 2) in
  let branch :=
    match branchLine with
    | Some l => if JS.truthy l then JS.replace "branch refs/heads/" "" l else "detached"
    | None => "detached"
    end in
  path +:+ " (" +:+ branch +:+ ")".

(** [for (let i = 0; i < lines.length; i++)]: [n] iterations are left. *)
Fixpoint parseLoop (lines : list string) (n i : nat) (worktrees : list string) : list string :=
  match n with
  | O => worktrees
  | S n' =>
      match lines !! i with
      | None => worktrees
      | Some line =>
          parseLoop lines n' (S i)
            (if JS.startsWith "worktree " line
             then worktrees ++ [worktreeEntry lines i line]
             else worktrees)
      end
  end.

(** Lines 138-150, from the standard output of the listing command. *)
Definition parseWorktreeList (stdout : string) : list string :=
  let lines := JS.split JS.LF stdout in
  parseLoop lines (length lines) 0 [].

(** The entries that the lines of index [i] on contribute, [i] ranging over
    [n] consecutive indices: the loop read as a comprehension. *)
Definition entriesFrom (lines : list string) (i n : nat) : list string :=
  flat_map
    (fun j =>
       match lines !! j with
       | Some line =>
           if JS.startsWith "worktree " line then [worktreeEntry lines j line] else []
       | None => []
       end)
    (seq i n).

(** The same entries by recursion on the lines still to read; the branch
    line of a record is the second of the lines that follow its first. *)
Fixpoint scan (rest : list string) : list string :=
  match rest with
  | [] => []
  | line :: tl =>
      (if JS.startsWith "worktree " line
       then [worktreeEntry rest 0 line]
       else []) ++ scan tl
  end.

(** What the listing command prints: one record per worktree, each a block
    of lines closed by an empty line. *)
Inductive record : Type :=
| Bare (path : string)
| Attached (path head branch : string)
| Detached (path head : string).

Definition recordLines (r : record) : list string :=
  match r with
  | Bare p => ["worktree " +:+ p; "bare"; ""]
  | Attached p h b => ["worktree " +:+ p; "HEAD " +:+ h; "branch refs/heads/" +:+ b; ""]
  | Detached p h => ["worktree " +:+ p; "HEAD " +:+ h; "detached"; ""]
  end.

(** Each line is followed by a line feed. *)
Fixpoint unlines (ls : list string) : string :=
  match ls with
  | [] => ""
  | l :: ls' => l +:+ JS.nl +:+ unlines ls'
  end.

Definition porcelain (rs : list record) : string :=
  unlines (concat (map recordLines rs)).

(** The text fields of a record hold no line feed. *)
Fixpoint noLF (s : string) : bool :=
  match s with
  | EmptyString => true
  | String c s' => negb (Ascii.eqb c JS.LF) && noLF s'
  end.

Definition recordOk (r : record) : bool :=
  match r with
  | Bare p => noLF p
  | Attached p h b => noLF p && noLF h && noLF b
  | Detached p h => noLF p && noLF h
  end.

(** The entry that the listing shows for a record. *)
Definition shown (r : record) : string :=
  match r with
  | Bare p => p +:+ " (detached)"
  | Attached p _ b => p +:+ " (" +:+ b +:+ ")"
  | Detached p _ => p +:+ " (detached)"
  end.

End Porcelain.

(** ** Remote head listing: the parser inside [listRemoteBranches] *)

Module RemoteHeads.

(** [line.match(/refs\/heads\/(.+)$/)], the value being [match[1]]: the
    leftmost position where the literal is followed, up to the end of the
    line, by one or more code units that are not line terminators. *)
Fixpoint matchHead (line : string) : option string :=
  let here :=
    if JS.startsWith "refs/heads/" line
    then let name := JS.substring_from 11 line in
         if JS.truthy name && JS.allDot name then Some name else None
    else None in
  match here with
  | Some name => Some name
  | None => match line with
            | EmptyString => None
            | String _ rest => matchHead rest
            end
  end.

(** A line of the listing: an object name, a tab, the full name of the ref. *)
Definition TAB : string := String (ascii_of_nat 9) EmptyString.

Definition isHexDigit (c : ascii) : bool :=
  let n := nat_of_ascii c in
  ((48 <=? n) && (n <=? 57)) || ((97 <=? n) && (n <=? 102)).

Fixpoint allHex (s : string) : bool :=
  match s with
  | EmptyString => true
  | String c s' => isHexDigit c && allHex s'
  end.

Definition headLine (sha name : string) : string :=
  sha +:+ TAB +:+ "refs/heads/" +:+ name.

(** [[...new Set(branches)]]: first occurrences, in insertion order. *)
Fixpoint uniqueInto (seen : list string) (branches : list string) : list string :=
  match branches with
  | [] => seen
  | b :: rest =>
      uniqueInto (if bool_decide (b ∈ seen) then seen else seen ++ [b]) rest
  end.

Definition unique (branches : list string) : list string := uniqueInto [] branches.

(** [Array.prototype.sort()] without a comparator orders strings by their
    code units. *)
Definition sort (l : list string) : list string := merge_sort String.le l.

(** Lines 193-203, from the standard output of [git ls-remote --heads]. *)
Definition parseRemoteHeads (stdout : string) : list string :=
  let branches :=
    omap matchHead
      (filter (fun line => JS.truthy (JS.trim line)) (JS.split JS.LF stdout)) in
  sort (unique branches).

End RemoteHeads.

(** ** The host: paths, the file system, the external tool, JSON *)

(** An absolute, normalised path: its segments from the root. *)
Abbreviation Path := (list string).

Inductive Node : Type :=
| Dir
| File (data : string).

Abbreviation FS := (gmap (list string) Node).

(** The outcome of [execAsync(command)]: the standard output, or the
    message of the [Error] the promise is rejected with. *)
Inductive ExecResult : Type :=
| ExecOk (stdout : string)
| ExecFail (message : string).

Module Path.

(** One segment of the second argument of [path.join], applied to a
    normalised absolute path. *)
Definition joinStep (acc : Path) (seg : string) : Path :=
  if bool_decide (seg = "") then acc
  else if bool_decide (seg = ".") then acc
  else if bool_decide (seg = "..") then removelast acc
  else acc ++ [seg].

(** [path.join(base, s)] for a normalised absolute [base] (POSIX).  The
    slash that node keeps at the end of the text when [s] ends in one is not
    represented: the path is the same directory. *)
Definition join (base : Path) (s : string) : Path :=
  fold_left joinStep (JS.split "/"%char s) base.

(** The text of a path, as it appears in commands and messages. *)
Definition render (p : Path) : string :=
  match p with
  | [] => "/"
  | _ => fold_right (fun seg acc => "/" +:+ seg +:+ acc) "" p
  end.

(** The path and all its ancestors, the root first. *)
Fixpoint prefixes (p : Path) : list Path :=
  [] :: match p with
        | [] => []
        | seg :: p' => map (cons seg) (prefixes p')
        end.

End Path.

Module Fs.

Definition existsSync (p : Path) (fs : FS) : bool :=
  match fs !! p with Some _ => true | None => false end.

(** One level of [mkdirSync(target, { recursive: true })]. *)
Definition mkdirStep (target : Path) (acc : result FS) (q : Path) : result FS :=
  match acc with
  | Throw e => Throw e
  | Ok fs =>
      match fs !! q with
      | Some Dir => Ok fs
      | None => Ok (<[q := Dir]> fs)
      | Some (File _) =>
          Throw ((if bool_decide (q = target)
                  then "EEXIST: file already exists, mkdir '"
                  else "ENOTDIR: not a directory, mkdir '")
                 +:+ Path.render target +:+ "'")
      end
  end.

Definition mkdirSync_recursive (target : Path) (fs : FS) : result FS :=
  fold_left (mkdirStep target) (Path.prefixes target) (Ok fs).

Definition writeFileSync (p : Path) (data : string) (fs : FS) : result FS :=
  match fs !! p with
  | Some Dir =>
      Throw ("EISDIR: illegal operation on a directory, open '" +:+ Path.render p +:+ "'")
  | _ =>
      match fs !! removelast p with
      | Some Dir => Ok (<[p := File data]> fs)
      | Some (File _) =>
          Throw ("ENOTDIR: not a directory, open '" +:+ Path.render p +:+ "'")
      | None =>
          Throw ("ENOENT: no such file or directory, open '" +:+ Path.render p +:+ "'")
      end
  end.

Definition readFileSync (p : Path) (fs : FS) : result string :=
  match fs !! p with
  | Some (File data) => Ok data
  | Some Dir => Throw "EISDIR: illegal operation on a directory, read"
  | None =>
      Throw ("ENOENT: no such file or directory, open '" +:+ Path.render p +:+ "'")
  end.

(** A file system is a tree: what lies above an entry is a directory. *)
Definition wellFormed (fs : FS) : Prop :=
  forall (p : Path) (seg : string),
    is_Some (fs !! (p ++ [seg])) -> fs !! p = Some Dir.

End Fs.

(** [RepositoryConfig] of RepositoryConfig.ts.  A parsed value without a
    [defaultBranch] string is represented with the empty string, which is
    falsy all the same. *)
Module RepositoryConfig.
Record t : Type := make { defaultBranch : string; repositoryUrl : string }.
End RepositoryConfig.

(** What the code takes from its environment: the program run by
    [execAsync], which answers a command from the file system and from
    whatever else it depends on (the remote repository, the network) and
    may change both, and the JSON functions of the runtime. *)
Class Host : Type := {
  Remote : Type;
  run : string -> FS -> Remote -> ExecResult * FS * Remote;
  JSON_stringify : RepositoryConfig.t -> string;
  JSON_parse : string -> option RepositoryConfig.t;
}.

(** ** The manager *)

(** The fields of a [WorktreeManager]; [defaultBranch] is assigned by
    [clone].  The [configManager] field is represented by its [configPath]. *)
Record WorktreeManager : Type := {
  baseDir : Path;
  repositoryName : string;
  repositoryPath : Path;
  barePath : Path;
  defaultBranch : string;
  configPath : Path;
}.

(** The constructors of [WorktreeManager] and [RepositoryConfigManager]. *)
Definition new_WorktreeManager
    (baseDir : Path) (repositoryName : string) (defaultBranch : option string)
  : WorktreeManager :=
  let repositoryPath := Path.join baseDir repositoryName in
  {| baseDir := baseDir;
     repositoryName := repositoryName;
     repositoryPath := repositoryPath;
     barePath := Path.join repositoryPath ".bare";
     defaultBranch := JS.or_default defaultBranch "main";
     configPath := Path.join repositoryPath ".worktree.json" |}.

Section Manager.
Context `{host : Host}.

(** The state a method runs in: the manager object, the file system, the
    rest of the world, and the commands run so far with their outcomes. *)
Record World : Type := {
  this : WorktreeManager;
  fs : FS;
  remote : Remote;
  trace : list (string * ExecResult);
}.

Definition M (A : Type) : Type := World -> result A * World.

#[export] Instance M_ret : MRet M := fun A a w => (Ok a, w).

#[export] Instance M_bind : MBind M := fun A B k m w =>
  match m w with
  | (Ok a, w') => k a w'
  | (Throw e, w') => (Throw e, w')
  end.

(** [throw new Error(message)] *)
Definition throw {A : Type} (message : string) : M A := fun w => (Throw message, w).

(** [try { body } catch (error) { handler }] *)
Definition try_catch {A : Type} (body : M A) (handler : string -> M A) : M A :=
  fun w =>
    match body w with
    | (Ok a, w') => (Ok a, w')
    | (Throw e, w') => handler e w'
    end.

(** [await execAsync(command)]: the command is run and recorded. *)
Definition execAsync (command : string) : M string := fun w =>
  let '(r, fs', remote') := run command (fs w) (remote w) in
  let w' := {| this := this w; fs := fs'; remote := remote';
               trace := trace w ++ [(command, r)] |} in
  match r with
  | ExecOk stdout => (Ok stdout, w')
  | ExecFail message => (Throw message, w')
  end.

Definition getThis : M WorktreeManager := fun w => (Ok (this w), w).

Definition set_defaultBranch (b : string) : M unit := fun w =>
  (Ok tt,
   {| this := {| baseDir := baseDir (this w);
                 repositoryName := repositoryName (this w);
                 repositoryPath := repositoryPath (this w);
                 barePath := barePath (this w);
                 defaultBranch := b;
                 configPath := configPath (this w) |};
      fs := fs w; remote := remote w; trace := trace w |}).

Definition existsSync (p : Path) : M bool := fun w => (Ok (Fs.existsSync p (fs w)), w).

Definition liftFs (op : FS -> result FS) : M unit := fun w =>
  match op (fs w) with
  | Ok fs' => (Ok tt, {| this := this w; fs := fs'; remote := remote w; trace := trace w |})
  | Throw e => (Throw e, w)
  end.

Definition mkdirSync_recursive (p : Path) : M unit := liftFs (Fs.mkdirSync_recursive p).

Definition writeFileSync (p : Path) (data : string) : M unit := liftFs (Fs.writeFileSync p data).

Definition readFileSync (p : Path) : M string := fun w =>
  (Fs.readFileSync p (fs w), w).

(** *** RepositoryConfigManager *)

Definition save (config : RepositoryConfig.t) : M unit :=
  m ← getThis;
  writeFileSync (configPath m) (JSON_stringify config).

Definition load : M (option RepositoryConfig.t) :=
  m ← getThis;
  present ← existsSync (configPath m);
  if negb present then mret None
  else
    try_catch
      (data ← readFileSync (configPath m);
       match JSON_parse data with
       | Some config => mret (Some config)
       | None => throw "Unexpected token in JSON"
       end)
      (fun _ => mret None).

(** [config?.defaultBranch || null] *)
Definition getDefaultBranch : M (option string) :=
  config ← load;
  mret (JS.or_else (RepositoryConfig.defaultBranch <$> config) None).

(** What [load] and [getDefaultBranch] find in a given state. *)
Definition storedConfig (w : World) : option RepositoryConfig.t :=
  match fs w !! configPath (this w) with
  | Some (File data) => JSON_parse data
  | _ => None
  end.

Definition storedDefaultBranch (w : World) : option string :=
  match storedConfig w with
  | Some config =>
      if JS.truthy (RepositoryConfig.defaultBranch config)
      then Some (RepositoryConfig.defaultBranch config)
      else None
  | None => None
  end.

(** *** WorktreeManager *)

(** [cd "<barePath>" && ], the head of most commands. *)
Definition inBare (m : WorktreeManager) : string :=
  "cd " +:+ JS.dq +:+ Path.render (barePath m) +:+ JS.dq +:+ " && ".

Definition quoted (p : Path) : string := JS.dq +:+ Path.render p +:+ JS.dq.

(** The commands of [clone]. *)
Definition cloneBare (m : WorktreeManager) (repositoryUrl : string) : string :=
  "git clone --bare " +:+ repositoryUrl +:+ " " +:+ Path.render (barePath m).

Definition setHead (m : WorktreeManager) : string :=
  inBare m +:+ "git remote set-head origin -a".

Definition symbolicRef (m : WorktreeManager) : string :=
  inBare m +:+
  "git symbolic-ref refs/remotes/origin/HEAD | sed 's@^refs/remotes/origin/@@'".

Definition branchRemotes (m : WorktreeManager) : string :=
  inBare m +:+ "git branch -r".

Definition addDefault (m : WorktreeManager) (actualDefaultBranch : string) : string :=
  let worktreePath := Path.join (repositoryPath m) actualDefaultBranch in
  inBare m +:+ "git worktree add " +:+ quoted worktreePath +:+ " " +:+ actualDefaultBranch.

(** Lines 47-69 of [clone]: the default branch of the remote. *)
Definition detectDefaultBranch : M string :=
  m ← getThis;
  try_catch
    (execAsync (setHead m);;
     defaultBranchCmd ← execAsync (symbolicRef m);
     mret (JS.trim defaultBranchCmd))
    (fun _ =>
       try_catch
         (branches ← execAsync (branchRemotes m);
          if JS.includes "origin/main" branches then mret "main"
          else if JS.includes "origin/master" branches then mret "master"
          else mret (defaultBranch m))
         (fun _ => mret (defaultBranch m))).

Definition clone (repositoryUrl : string) : M unit :=
  try_catch (A := unit)
    (m ← getThis;
     baseExists ← existsSync (baseDir m);
     (if negb baseExists then mkdirSync_recursive (baseDir m) else mret tt);;
     repoExists ← existsSync (repositoryPath m);
     if (repoExists : bool)
     then throw ("Repository directory already exists: " +:+ Path.render (repositoryPath m))
     else
       mkdirSync_recursive (repositoryPath m);;
       execAsync (cloneBare m repositoryUrl);;
       actualDefaultBranch ← detectDefaultBranch;
       set_defaultBranch actualDefaultBranch;;
       save (RepositoryConfig.make actualDefaultBranch repositoryUrl);;
       execAsync (addDefault m actualDefaultBranch);;
       mret tt)
    (fun error => throw ("Failed to clone repository: " +:+ JS.Error_toString error)).

(** The three tiers of the specification, read off the commands that
    [clone] runs to settle the default branch and off their outcomes:
    tier (a) is the symbolic HEAD of the remote, set and then read. *)
Inductive TierAFails (m : WorktreeManager) : list (string * ExecResult) -> Prop :=
| setHead_fails (e : string) :
    TierAFails m [(setHead m, ExecFail e)]
| symbolicRef_fails (out e : string) :
    TierAFails m [(setHead m, ExecOk out); (symbolicRef m, ExecFail e)].

Inductive Resolved (m : WorktreeManager) : list (string * ExecResult) -> string -> Prop :=
| tier_a (out head : string) :
    Resolved m [(setHead m, ExecOk out); (symbolicRef m, ExecOk head)] (JS.trim head)
| tier_b_main (evs : list (string * ExecResult)) (branches : string) :
    TierAFails m evs ->
    JS.includes "origin/main" branches = true ->
    Resolved m (evs ++ [(branchRemotes m, ExecOk branches)]) "main"
| tier_b_master (evs : list (string * ExecResult)) (branches : string) :
    TierAFails m evs ->
    JS.includes "origin/main" branches = false ->
    JS.includes "origin/master" branches = true ->
    Resolved m (evs ++ [(branchRemotes m, ExecOk branches)]) "master"
| tier_c_neither (evs : list (string * ExecResult)) (branches : string) :
    TierAFails m evs ->
    JS.includes "origin/main" branches = false ->
    JS.includes "origin/master" branches = false ->
    Resolved m (evs ++ [(branchRemotes m, ExecOk branches)]) (defaultBranch m)
| tier_c_fails (evs : list (string * ExecResult)) (e : string) :
    TierAFails m evs ->
    Resolved m (evs ++ [(branchRemotes m, ExecFail e)]) (defaultBranch m).

(** The commands of [createBranch]. *)
Definition fetchAll (m : WorktreeManager) : string :=
  inBare m +:+ "git fetch origin".

Definition fetchBase (m : WorktreeManager) (base : string) : string :=
  inBare m +:+ "git fetch origin " +:+ base +:+ ":refs/remotes/origin/" +:+ base.

Definition addBranch (m : WorktreeManager) (branchName base : string) : string :=
  let worktreePath := Path.join (repositoryPath m) branchName in
  inBare m +:+ "git worktree add -b " +:+ branchName +:+ " "
  +:+ quoted worktreePath +:+ " origin/" +:+ base.

Definition createBranch
    (branchName : string) (baseBranch : option string) (pullLatest : bool) : M unit :=
  try_catch (A := unit)
    (m ← getThis;
     bareExists ← existsSync (barePath m);
     if negb bareExists then throw "Repository not found. Please clone first."
     else
       let worktreePath := Path.join (repositoryPath m) branchName in
       worktreeExists ← existsSync worktreePath;
       if (worktreeExists : bool)
       then throw ("Worktree for branch " +:+ branchName +:+ " already exists")
       else
         savedDefaultBranch ← getDefaultBranch;
         let base :=
           JS.or_default (JS.or_else baseBranch savedDefaultBranch) (defaultBranch m) in
         (if pullLatest
          then try_catch (execAsync (fetchAll m);; mret tt) (fun _ => mret tt)
          else mret tt);;
         execAsync (fetchBase m base);;
         execAsync (addBranch m branchName base);;
         mret tt)
    (fun error => throw ("Failed to create branch: " +:+ JS.Error_toString error)).

Definition listCommand (m : WorktreeManager) : string :=
  inBare m +:+ "git worktree list --porcelain".

Definition listWorktrees : M (list string) :=
  try_catch (A := list string)
    (m ← getThis;
     bareExists ← existsSync (barePath m);
     if negb bareExists then throw "Repository not found. Please clone first."
     else
       result ← execAsync (listCommand m);
       mret (Porcelain.parseWorktreeList result))
    (fun error => throw ("Failed to list worktrees: " +:+ JS.Error_toString error)).

Definition dirtyMarker : string := "contains modified or untracked files".

(** The [command] of [removeWorktree]. *)
Definition removeCommand (m : WorktreeManager) (branchName : string) (force : bool) : string :=
  let worktreePath := Path.join (repositoryPath m) branchName in
  let forceFlag := if force then "--force" else "" in
  inBare m +:+ "git worktree remove " +:+ forceFlag +:+ " " +:+ quoted worktreePath.

(** The body of the [try] block of [removeWorktree], the same in both
    revisions of the manager. *)
Definition removeWorktree_try (branchName : string) (force : bool) : M unit :=
  m ← getThis;
  bareExists ← existsSync (barePath m);
  if negb bareExists then throw "Repository not found."
  else
    execAsync (removeCommand m branchName force);;
    mret tt.

(** The outcome of that command in a given state. *)
Definition removeAnswer (w : World) (branchName : string) (force : bool) : ExecResult :=
  fst (fst (run (removeCommand (this w) branchName force) (fs w) (remote w))).

Definition dirtyMessage (m : WorktreeManager) (branchName : string) : string :=
  "Worktree contains modified or untracked files. Use 'npm run remove:force "
  +:+ repositoryName m +:+ " " +:+ branchName +:+ "' to force removal.".

(** [removeWorktree] of src/WorktreeManager.ts: the test reads
    [error.toString()]. *)
Definition removeWorktree (branchName : string) (force : bool) : M unit :=
  try_catch (removeWorktree_try branchName force)
    (fun error =>
       m ← getThis;
       if negb force && JS.includes dirtyMarker (JS.Error_toString error)
       then throw (dirtyMessage m branchName)
       else throw ("Failed to remove worktree: " +:+ JS.Error_toString error)).

(** [removeWorktree] of the longer revision of the manager: the test reads
    [error.message], every thrown value being an [Error]. *)
Definition removeWorktree_message (branchName : string) (force : bool) : M unit :=
  try_catch (removeWorktree_try branchName force)
    (fun error =>
       m ← getThis;
       let errorMessage := error in
       if negb force && JS.includes dirtyMarker errorMessage
       then throw (dirtyMessage m branchName)
       else throw ("Failed to remove worktree: " +:+ JS.Error_toString error)).

(** The commands of [listRemoteBranches] and [openRemoteBranch]. *)
Definition allHeadsRefspec : string :=
  JS.dq +:+ "+refs/heads/*:refs/remotes/origin/*" +:+ JS.dq.

Definition fetchPrune (m : WorktreeManager) : string :=
  inBare m +:+ "git fetch --prune origin " +:+ allHeadsRefspec.

Definition lsRemote (m : WorktreeManager) : string :=
  inBare m +:+ "git ls-remote --heads origin".

Definition fetchHeads (m : WorktreeManager) : string :=
  inBare m +:+ "git fetch origin " +:+ allHeadsRefspec.

Definition listRemoteBranches : M (list string) :=
  try_catch (A := list string)
    (m ← getThis;
     bareExists ← existsSync (barePath m);
     if negb bareExists then throw "Repository not found. Please clone first."
     else
       execAsync (fetchPrune m);;
       result ← execAsync (lsRemote m);
       mret (RemoteHeads.parseRemoteHeads result))
    (fun error => throw ("Failed to list remote branches: " +:+ JS.Error_toString error)).

(** The two worktree-creation commands of [openRemoteBranch]. *)
Definition addTracking (m : WorktreeManager) (branchName : string) : string :=
  inBare m +:+ "git worktree add "
  +:+ quoted (Path.join (repositoryPath m) branchName)
  +:+ " -b " +:+ branchName +:+ " origin/" +:+ branchName.

Definition addExisting (m : WorktreeManager) (branchName : string) : string :=
  inBare m +:+ "git worktree add "
  +:+ quoted (Path.join (repositoryPath m) branchName)
  +:+ " " +:+ branchName.

Definition openRemoteBranch (branchName : string) : M unit :=
  try_catch (A := unit)
    (m ← getThis;
     bareExists ← existsSync (barePath m);
     if negb bareExists then throw "Repository not found. Please clone first."
     else
       let worktreePath := Path.join (repositoryPath m) branchName in
       worktreeExists ← existsSync worktreePath;
       if (worktreeExists : bool) then mret tt
       else
         execAsync (fetchHeads m);;
         remoteBranches ← listRemoteBranches;
         if negb (bool_decide (branchName ∈ (remoteBranches : list string)))
         then throw ("Remote branch '" +:+ branchName
                     +:+ "' not found. Please check the branch name.")
         else
           try_catch
             (execAsync (addTracking m branchName);; mret tt)
             (fun _ => execAsync (addExisting m branchName);; mret tt);;
           mret tt)
    (fun error => throw ("Failed to open remote branch: " +:+ JS.Error_toString error)).

End Manager.


(** ** A scripted host

    A host on which the model runs: the answers of the external tool are
    read from a script, each with the directories the command creates, and a
    configuration is written in a length-prefixed form, which reads back as
    JSON text does. *)

Module Scripted.

Fixpoint ones (n : nat) : string :=
  match n with
  | O => ""
  | S n' => String "1" (ones n')
  end.

Definition stringify (config : RepositoryConfig.t) : string :=
  ones (String.length (RepositoryConfig.defaultBranch config)) +:+ ":"
  +:+ RepositoryConfig.defaultBranch config +:+ RepositoryConfig.repositoryUrl config.

Fixpoint readLength (s : string) (n : nat) : option (nat * string) :=
  match s with
  | EmptyString => None
  | String c s' =>
      if Ascii.eqb c "1" then readLength s' (S n)
      else if Ascii.eqb c ":" then Some (n, s')
      else None
  end.

Fixpoint takeString (n : nat) (s : string) : string :=
  match n, s with
  | S n', String c s' => String c (takeString n' s')
  | _, _ => EmptyString
  end.

Definition parse (s : string) : option RepositoryConfig.t :=
  match readLength s 0 with
  | Some (n, rest) =>
      if n <=? String.length rest
      then Some (RepositoryConfig.make (takeString n rest) (JS.substring_from n rest))
      else None
  | None => None
  end.

Definition Answer : Type := ExecResult * list Path.

(** The directories a command creates; what is there already stays. *)
Definition mkdirs (dirs : list Path) (fs : FS) : FS :=
  fold_left
    (fun acc p => match acc !! p with Some _ => acc | None => <[p := Dir]> acc end)
    dirs fs.

Definition runScript (command : string) (fs : FS) (script : list Answer)
  : ExecResult * FS * list Answer :=
  match script with
  | [] => (ExecFail "unexpected command", fs, [])
  | (r, dirs) :: rest => (r, mkdirs dirs fs, rest)
  end.

#[export] Instance host : Host := {|
  Remote := list Answer;
  run := runScript;
  JSON_stringify := stringify;
  JSON_parse := parse;
|}.

(** The directories of a list of paths, as a file system. *)
Definition dirsOf (dirs : list Path) : FS := mkdirs dirs ∅.

(** Every listed path has its parent listed. *)
Definition parentsListed (dirs : list Path) : bool :=
  forallb
    (fun d => match d with
              | [] => true
              | _ => bool_decide (removelast d ∈ dirs)
              end)
    dirs.

(** *** Sample states *)

Definition base : Path := ["home"; "dev"; "repositories"].

Definition manager : WorktreeManager := new_WorktreeManager base "app" None.

Definition url : string := "https://example.com/group/app.git".

(** Nothing cloned yet. *)
Definition emptyHome : list Path := [[]; ["home"]; ["home"; "dev"]].

(** A cloned workspace with the worktree of [main]. *)
Definition cloned : list Path :=
  emptyHome ++
  [base; base ++ ["app"]; base ++ ["app"; ".bare"]; base ++ ["app"; "main"]].

Definition world (f : FS) (script : list Answer) : World :=
  {| this := manager; fs := f; remote := script; trace := [] |}.

(** The tool during a clone of a remote whose HEAD is [develop]. *)
Definition cloneScript : list Answer :=
  [(ExecOk "", [base ++ ["app"; ".bare"]]);
   (ExecOk "", []);
   (ExecOk ("develop" +:+ JS.nl), []);
   (ExecOk "", [base ++ ["app"; "develop"]])].

(** The tool when a new branch is fetched and its worktree created. *)
Definition branchScript : list Answer :=
  [(ExecOk "", []); (ExecOk "", [base ++ ["app"; "feature"]])].

(** The tool refusing to remove a worktree with local changes. *)
Definition dirtyScript : list Answer :=
  [(ExecFail
      ("Command failed: git worktree remove" +:+ JS.nl +:+
       "fatal: 'main' contains modified or untracked files, use --force to delete it"),
    [])].

(** The tool when a remote branch is opened and the first creation of the
    worktree fails for a reason that has nothing to do with a local branch. *)
Definition invalidReference : string := "fatal: invalid reference: origin/feature".

Definition openScript : list Answer :=
  [(ExecOk "", []);
   (ExecOk "", []);
   (ExecOk (RemoteHeads.headLine "1a2b3c" "feature" +:+ JS.nl), []);
   (ExecFail invalidReference, []);
   (ExecOk "", [base ++ ["app"; "feature"]])].

(** A cloned workspace whose configuration stores [develop]. *)
Definition developStored : FS :=
  <[configPath manager := File (stringify (RepositoryConfig.make "develop" url))]>
    (dirsOf cloned).

End Scripted.

(** ** The fallback of [openRemoteBranch], as the claim words it

    The fallback runs only when the first attempt failed because a local
    branch of that name exists already; the cause of a failure is known by
    its text, which for that cause says that the branch already exists. *)
Definition FallbackOnlyForExistingBranch `{host : Host} : Prop :=
  forall (w : World) (branchName message : string),
    In (addTracking (this w) branchName, ExecFail message)
       (trace (snd (openRemoteBranch branchName w))) ->
    In (addExisting (this w) branchName)
       (map fst (trace (snd (openRemoteBranch branchName w)))) ->
    JS.includes "already exists" message = true.


(** ** The command line and the interactive mode

    The rest of the sources: [getManager] of [src/cli.ts] and
    [src/wizard.ts], the prompts of [src/MenuHelper.ts], the editor
    launcher of [src/VscodeHelper.ts] and the operations of the wizard
    that list and remove worktrees, with the loop that repeats them.

    Conventions.
    - The standard input is the list of the lines typed; every
      [rl.question] reads the next one.  When there is none the promise of
      the question is never settled.
    - [process.cwd()], [process.platform] and the environment variable are
      parameters.
    - As before, console output is not part of the model. *)

(** *** More of the runtime *)

Module JSLib.

(** A carriage return, as a string. *)
Definition CRs : string := String JS.CR EmptyString.

(** [toLowerCase] on a code unit below 256: the letters of ASCII and of
    Latin-1 that have a lower-case form in that range. *)
Definition lowerUnit (c : ascii) : ascii :=
  let n := nat_of_ascii c in
  if ((65 <=? n) && (n <=? 90)) || ((192 <=? n) && (n <=? 214))
     || ((216 <=? n) && (n <=? 222))
  then ascii_of_nat (n + 32)
  else c.

Fixpoint toLowerCase (s : string) : string :=
  match s with
  | EmptyString => EmptyString
  | String c s' => String (lowerUnit c) (toLowerCase s')
  end.

(** The numbers that [parseInt] returns: [NaN], or an integer with its
    sign, [-0] being an integer of its own.  The magnitude is exact; the
    sources compare the number with array lengths only, which rounding to
    a double does not change. *)
Inductive Number : Type :=
| NaN
| Int (negative : bool) (magnitude : nat).

(** The value of a code unit as a digit, in a radix up to 36. *)
Definition digitValue (c : ascii) : option nat :=
  let n := nat_of_ascii c in
  if (48 <=? n) && (n <=? 57) then Some (n - 48)
  else if (97 <=? n) && (n <=? 122) then Some (n - 87)
  else if (65 <=? n) && (n <=? 90) then Some (n - 55)
  else None.

(** The value of the longest prefix of [s] made of digits of the radix,
    after the digits already read; nothing when no digit was read. *)
Fixpoint digits (radix : nat) (s : string) (acc : option nat) : option nat :=
  match s with
  | EmptyString => acc
  | String c s' =>
      match digitValue c with
      | Some d =>
          if d <? radix
          then digits radix s' (Some (radix * default 0 acc + d))
          else acc
      | None => acc
      end
  end.

(** [parseInt(s)], without a radix: white space is skipped, then a sign is
    read, then the prefix [0x] or [0X], which makes the radix 16, then
    digits as long as there are some. *)
Definition parseInt (s : string) : Number :=
  let s1 := JS.trimStart s in
  let negative := JS.startsWith "-" s1 in
  let s2 := if JS.startsWith "-" s1 || JS.startsWith "+" s1
            then JS.substring_from 1 s1 else s1 in
  let hex := JS.startsWith "0x" s2 || JS.startsWith "0X" s2 in
  let s3 := if hex then JS.substring_from 2 s2 else s2 in
  match digits (if hex then 16 else 10) s3 None with
  | None => NaN
  | Some n => Int negative n
  end.

(** [n === 0], true of [-0] too. *)
Definition isZero (n : Number) : bool :=
  match n with
  | Int _ O => true
  | _ => false
  end.

(** [n >= 1] *)
Definition geOne (n : Number) : bool :=
  match n with
  | Int false (S _) => true
  | _ => false
  end.

(** [n <= k] for an array length [k] *)
Definition leLength (n : Number) (k : nat) : bool :=
  match n with
  | NaN => false
  | Int true _ => true
  | Int false m => m <=? k
  end.

(** [array[n - 1]]; there is no element at an index that is not a
    natural number. *)
Definition atPrevious {A : Type} (array : list A) (n : Number) : option A :=
  match n with
  | Int false (S k) => array !! k
  | _ => None
  end.

End JSLib.

(** *** [getManager] (cli.ts and wizard.ts carry the same function) *)

Module Cli.

Definition getManager (cwd : Path) (repositoryName : string) : WorktreeManager :=
  let projectRoot := cwd in
  let baseDir := Path.join projectRoot "repositories" in
  new_WorktreeManager baseDir repositoryName None.

End Cli.

(** *** MenuHelper *)

Module Menu.

Record MenuOption : Type := { label : string; value : string }.

(** A promise of the helper, seen from the input: fulfilled or rejected
    with the lines still to read, or never settled. *)
Inductive Promise (A : Type) : Type :=
| Fulfilled (a : A) (rest : list string)
| Rejected (message : string) (rest : list string)
| Pending.
Arguments Fulfilled {A} a rest.
Arguments Rejected {A} message rest.
Arguments Pending {A}.

(** [showMenu]: an answer that is not a choice is asked again.  Inside the
    second test the index is within the array. *)
Fixpoint showMenu (title : string) (options : list MenuOption) (input : list string)
  : Promise string :=
  match input with
  | [] => Pending
  | answer :: rest =>
      let choice := JSLib.parseInt (JS.trim answer) in
      if JSLib.isZero choice then Fulfilled "CANCEL" rest
      else if JSLib.geOne choice && JSLib.leLength choice (length options)
      then match JSLib.atPrevious options choice with
           | Some option => Fulfilled (value option) rest
           | None => Pending
           end
      else showMenu title options rest
  end.

(** An answer that [showMenu] asks again for. *)
Definition notAChoice (options : list MenuOption) (answer : string) : Prop :=
  JSLib.isZero (JSLib.parseInt (JS.trim answer)) = false /\
  JSLib.geOne (JSLib.parseInt (JS.trim answer))
  && JSLib.leLength (JSLib.parseInt (JS.trim answer)) (length options) = false.

Definition prompt (question : string) (input : list string) : Promise string :=
  match input with
  | [] => Pending
  | answer :: rest => Fulfilled (JS.trim answer) rest
  end.

Fixpoint confirm (question : string) (input : list string) : Promise bool :=
  match input with
  | [] => Pending
  | answer :: rest =>
      let response := JSLib.toLowerCase (JS.trim answer) in
      if String.eqb response "y" || String.eqb response "yes" then Fulfilled true rest
      else if String.eqb response "n" || String.eqb response "no" then Fulfilled false rest
      else confirm question rest
  end.

(** The name under which [q] is an entry of the directory [p]. *)
Definition childName (p q : Path) : option string :=
  match last q with
  | Some name => if bool_decide (removelast q = p) then Some name else None
  | None => None
  end.

(** [readdirSync(p, { withFileTypes: true })]: the entries of the
    directory, each with its node, in the order the system gives them. *)
Definition readdirSync (p : Path) (fs : FS) : result (list (string * Node)) :=
  match fs !! p with
  | Some Dir =>
      Ok (omap (fun entry : Path * Node =>
                  (fun name => (name, snd entry)) <$> childName p (fst entry))
               (map_to_list fs))
  | Some (File _) =>
      Throw ("ENOTDIR: not a directory, scandir '" +:+ Path.render p +:+ "'")
  | None =>
      Throw ("ENOENT: no such file or directory, scandir '" +:+ Path.render p +:+ "'")
  end.

Definition isDirectory (dirent : string * Node) : bool :=
  match snd dirent with
  | Dir => true
  | File _ => false
  end.

Definition asOption (name : string) : MenuOption := {| label := name; value := name |}.

Definition selectRepository (cwd : Path) (fs : FS) (input : list string)
  : Promise string :=
  let repositoriesDir := Path.join cwd "repositories" in
  if negb (Fs.existsSync repositoriesDir fs)
  then Rejected "No repositories found. Please clone a repository first." input
  else
    match readdirSync repositoriesDir fs with
    | Throw e => Rejected e input
    | Ok dirents =>
        let repos := map fst (filter (fun dirent => isDirectory dirent) dirents) in
        if length repos =? 0
        then Rejected "No repositories found. Please clone a repository first." input
        else
          let options := map asOption repos in
          match showMenu "Select Repository" options input with
          | Fulfilled result rest =>
              if String.eqb result "CANCEL"
              then Rejected "Operation cancelled" rest
              else Fulfilled result rest
          | Rejected e rest => Rejected e rest
          | Pending => Pending
          end
    end.

Definition selectWorktree (cwd : Path) (repositoryName : string)
    (fs : FS) (input : list string) : Promise string :=
  let repoPath := Path.join (Path.join cwd "repositories") repositoryName in
  if negb (Fs.existsSync repoPath fs)
  then Rejected ("Repository " +:+ repositoryName +:+ " not found") input
  else
    match readdirSync repoPath fs with
    | Throw e => Rejected e input
    | Ok dirents =>
        let branches :=
          map fst
            (filter (fun dirent => isDirectory dirent
                                   && negb (String.eqb (fst dirent) ".bare"))
                    dirents) in
        if length branches =? 0
        then Rejected ("No worktrees found in " +:+ repositoryName) input
        else
          let options := map asOption branches in
          match showMenu ("Select Worktree from " +:+ repositoryName) options input with
          | Fulfilled result rest =>
              if String.eqb result "CANCEL"
              then Rejected "Operation cancelled" rest
              else Fulfilled result rest
          | Rejected e rest => Rejected e rest
          | Pending => Pending
          end
    end.

End Menu.

(** *** VscodeHelper *)

Record Process : Type := {
  platform : string;
  WSL_DISTRO_NAME : option string;
}.

Section Vscode.
Context `{host : Host}.

Definition procVersion : Path := ["proc"; "version"].

Definition isWSL (process : Process) : M bool :=
  try_catch
    (present ← existsSync procVersion;
     if (present : bool)
     then
       stdout ← execAsync "cat /proc/version";
       mret (JS.includes "microsoft" (JSLib.toLowerCase stdout)
             || JS.includes "wsl" (JSLib.toLowerCase stdout))
     else mret (bool_decide (is_Some (WSL_DISTRO_NAME process))))
    (fun _ => mret false).

(** The two commands that open the editor. *)
Definition codeRemote (process : Process) (workspacePath : string) : string :=
  let distroName := JS.or_default (WSL_DISTRO_NAME process) "Ubuntu" in
  "code --remote wsl+" +:+ distroName +:+ " " +:+ JS.dq +:+ workspacePath +:+ JS.dq.

Definition codeLocal (workspacePath : string) : string :=
  "code " +:+ JS.dq +:+ workspacePath +:+ JS.dq.

Definition openInVscode (process : Process) (workspacePath : string) : M bool :=
  try_catch
    (wsl ← isWSL process;
     if (wsl : bool)
     then execAsync (codeRemote process workspacePath);; mret true
     else if String.eqb (platform process) "darwin"
     then execAsync (codeLocal workspacePath);; mret true
     else if String.eqb (platform process) "linux"
     then execAsync (codeLocal workspacePath);; mret true
     else mret false)
    (fun _ => mret false).

Definition isVscodeAvailable : M bool :=
  try_catch (execAsync "code --version";; mret true) (fun _ => mret false).

Definition promptToOpen (process : Process) (workspacePath : string) : M unit :=
  isAvailable ← isVscodeAvailable;
  if negb isAvailable then mret tt
  else
    opened ← openInVscode process workspacePath;
    mret tt.

End Vscode.

(** *** The wizard *)

Section Wizard.
Context `{host : Host}.

(** An operation of the wizard runs in a state and reads the input: it
    returns or throws, with the state reached and the lines still to read,
    or it waits for ever for a line that does not come, in the state
    reached.  The manager of the state is the one made last by
    [getManager]. *)
Inductive Run (A : Type) : Type :=
| Returned (r : result A) (w : World) (rest : list string)
| Stalled (w : World).
Arguments Returned {A} r w rest.
Arguments Stalled {A} w.

Definition W (A : Type) : Type := World -> list string -> Run A.

Definition W_return {A : Type} (a : A) : W A := fun w input => Returned (Ok a) w input.

Definition W_then {A B : Type} (m : W A) (k : A -> W B) : W B := fun w input =>
  match m w input with
  | Returned (Ok a) w' rest => k a w' rest
  | Returned (Throw e) w' rest => Returned (Throw e) w' rest
  | Stalled w' => Stalled w'
  end.

Definition W_throw {A : Type} (message : string) : W A :=
  fun w input => Returned (Throw message) w input.

Definition W_try_catch {A : Type} (body : W A) (handler : string -> W A) : W A :=
  fun w input =>
    match body w input with
    | Returned (Ok a) w' rest => Returned (Ok a) w' rest
    | Returned (Throw e) w' rest => handler e w' rest
    | Stalled w' => Stalled w'
    end.

(** A question of the menu helper, which reads the file system. *)
Definition ask {A : Type} (question : FS -> list string -> Menu.Promise A) : W A :=
  fun w input =>
    match question (fs w) input with
    | Menu.Fulfilled a rest => Returned (Ok a) w rest
    | Menu.Rejected e rest => Returned (Throw e) w rest
    | Menu.Pending => Stalled w
    end.

(** A method called on a manager. *)
Definition call {A : Type} (manager : WorktreeManager) (method : M A) : W A :=
  fun w input =>
    let '(r, w') := method {| this := manager; fs := fs w; remote := remote w;
                              trace := trace w |} in
    Returned r w' input.

Definition isOperationCancelled (error : string) : bool :=
  JS.includes "Operation cancelled" (JS.Error_toString error).

Definition withErrorHandling {A : Type} (operation : W A) : W bool :=
  W_try_catch
    (W_then operation (fun _ => W_return true))
    (fun error =>
       if isOperationCancelled error then W_return false else W_return true).

(** The function that [listWorktreesWizard] hands to [withErrorHandling]. *)
Definition listWorktreesOperation (cwd : Path) : W unit :=
  W_then (ask (Menu.selectRepository cwd)) (fun repositoryName =>
  let manager := Cli.getManager cwd repositoryName in
  W_then (call manager listWorktrees) (fun worktrees =>
  W_return tt)).

Definition listWorktreesWizard (cwd : Path) : W bool :=
  withErrorHandling (listWorktreesOperation cwd).

(** The function that [removeWorktreeWizard] hands to [withErrorHandling]. *)
Definition removeWorktreeOperation (cwd : Path) : W unit :=
  W_then (ask (Menu.selectRepository cwd)) (fun repositoryName =>
  W_then (ask (Menu.selectWorktree cwd repositoryName)) (fun branchName =>
  W_then (ask (fun _ => Menu.confirm "Are you sure?")) (fun confirmed =>
  if negb confirmed then W_throw "Operation cancelled"
  else
    let manager := Cli.getManager cwd repositoryName in
    W_try_catch
      (call manager (removeWorktree branchName false))
      (fun error =>
         if JS.includes "contains modified or untracked files"
              (JS.Error_toString error)
         then
           W_then (ask (fun _ => Menu.confirm "Force remove (discard changes)?"))
             (fun forceRemove =>
                if (forceRemove : bool)
                then call manager (removeWorktree branchName true)
                else W_throw "Operation cancelled")
         else W_throw error)))).

Definition removeWorktreeWizard (cwd : Path) : W bool :=
  withErrorHandling (removeWorktreeOperation cwd).

(** [runWizardLoop]: the operation is repeated as long as it returns
    true.  [fuel] bounds the number of iterations; there is no result when
    the loop is still running after that many. *)
Fixpoint runWizardLoop (fuel : nat) (operation : W bool)
    (w : World) (input : list string) : option (Run unit) :=
  match fuel with
  | O => None
  | S fuel' =>
      match operation w input with
      | Returned (Ok shouldContinue) w' rest =>
          if (shouldContinue : bool)
          then runWizardLoop fuel' operation w' rest
          else Some (Returned (Ok tt) w' rest)
      | Returned (Throw e) w' rest => Some (Returned (Throw e) w' rest)
      | Stalled w' => Some (Stalled w')
      end
  end.

End Wizard.

Arguments Returned {host A} r w rest.
Arguments Stalled {host A} w.

(** *** More sample states for the scripted host *)

Module Samples.
Import Scripted.

(** The directory the command line is started in. *)
Definition cwd : Path := ["home"; "dev"].

(** The tool failing to reach the remote when everything is fetched, and
    working afterwards. *)
Definition fetchFailsScript : list Answer :=
  [(ExecFail "fatal: unable to access the remote", []);
   (ExecOk "", []);
   (ExecOk "", [base ++ ["app"; "feature"]])].

(** The tool failing to clone. *)
Definition cloneFailsScript : list Answer :=
  [(ExecFail "fatal: repository not found", [])].

(** The tool when a remote branch is opened and both creations of the
    worktree fail. *)
Definition bothFailScript : list Answer :=
  [(ExecOk "", []);
   (ExecOk "", []);
   (ExecOk (RemoteHeads.headLine "1a2b3c" "feature" +:+ JS.nl), []);
   (ExecFail "fatal: a branch named 'feature' already exists", []);
   (ExecFail "fatal: 'feature' is already checked out", [])].

(** A listing of two heads with CR LF line ends. *)
Definition crlfListing : string :=
  (RemoteHeads.headLine "1a2b" "main" +:+ JSLib.CRs) +:+ JS.nl +:+
  (RemoteHeads.headLine "3c4d" "develop" +:+ JSLib.CRs) +:+ JS.nl +:+ "".

End Samples.


(** * Facts about the string primitives *)

Section StringFacts.

Lemma app_cons_s (c : ascii) (s t : string) : String c s +:+ t = String c (s +:+ t).
Proof. reflexivity. Qed.

Lemma length_app_s (a b : string) :
  String.length (a +:+ b) = String.length a + String.length b.
Proof.
  induction a as [|x a IH]; [reflexivity|].
  rewrite app_cons_s. simpl. rewrite IH. reflexivity.
Qed.

Lemma startsWith_app (p s : string) : JS.startsWith p (p +:+ s) = true.
Proof.
  induction p as [|c p IH]; [reflexivity|].
  rewrite app_cons_s. simpl. rewrite Ascii.eqb_refl. exact IH.
Qed.

Lemma substring_from_app (p s : string) :
  JS.substring_from (String.length p) (p +:+ s) = s.
Proof.
  induction p as [|c p IH]; [reflexivity|].
  rewrite app_cons_s. simpl. exact IH.
Qed.

(** Replacing a pattern that the string starts with removes that prefix. *)
Lemma replace_prefix (pat rest : string) :
  JS.replace pat "" (pat +:+ rest) = rest.
Proof.
  destruct pat as [|c pat].
  - destruct rest; reflexivity.
  - rewrite app_cons_s. unfold JS.replace; fold JS.replace.
    rewrite <- app_cons_s, startsWith_app, substring_from_app. reflexivity.
Qed.

End StringFacts.


(** * The repository-name parser *)

Section UrlFacts.
Import Url.

Lemma noSlash_app (a b : string) :
  noSlash (a +:+ b) = noSlash a && noSlash b.
Proof.
  induction a as [|c a IH]; [reflexivity|].
  rewrite app_cons_s. simpl. rewrite IH. apply andb_assoc.
Qed.

Lemma noSlash_with_slash (a b : string) : noSlash (a +:+ "/" +:+ b) = false.
Proof.
  rewrite noSlash_app. change ("/" +:+ b) with (String slash b).
  change (noSlash (String slash b)) with false. apply andb_false_r.
Qed.

(** Every string either has no slash or splits at its last slash. *)
Lemma last_slash_split (url : string) :
  noSlash url = true \/
  exists pre seg, url = pre +:+ "/" +:+ seg /\ noSlash seg = true.
Proof.
  induction url as [|c url IH]; [left; reflexivity|].
  destruct IH as [Hn | (pre & seg & -> & Hseg)].
  - destruct (Ascii.eqb_spec c slash) as [->|Hc].
    + right. exists "", url. split; [reflexivity | exact Hn].
    + left. simpl. rewrite Hn. apply Ascii.eqb_neq in Hc. rewrite Hc. reflexivity.
  - right. exists (String c pre), seg. split; [reflexivity | exact Hseg].
Qed.

(** The lazy group, on a slash-free text that ends in [.git], stops right
    before that suffix. *)
Lemma lazy_tail_git (base : string) :
  noSlash base = true -> lazy_tail (base +:+ ".git") = Some base.
Proof.
  induction base as [|c base IH]; intros Hn; [reflexivity|].
  simpl in Hn. apply andb_prop in Hn as [Hc Hb].
  rewrite app_cons_s. unfold lazy_tail; fold lazy_tail.
  destruct (String.eqb_spec (String c (base +:+ ".git")) ".git") as [E|_].
  - apply (f_equal String.length) in E. simpl in E.
    rewrite length_app_s in E. simpl in E. lia.
  - apply negb_true_iff in Hc. rewrite Hc, (IH Hb). reflexivity.
Qed.

(** On a slash-free text that does not end in [.git] it takes everything. *)
Lemma lazy_tail_plain (s : string) :
  noSlash s = true -> (forall b, s <> b +:+ ".git") -> lazy_tail s = Some s.
Proof.
  induction s as [|c s IH]; intros Hn Hg; [reflexivity|].
  simpl in Hn. apply andb_prop in Hn as [Hc Hs].
  unfold lazy_tail; fold lazy_tail.
  destruct (String.eqb_spec (String c s) ".git") as [E|_].
  - exfalso. apply (Hg ""). exact E.
  - apply negb_true_iff in Hc. rewrite Hc, IH; [reflexivity | exact Hs |].
    intros b ->. apply (Hg (String c b)). reflexivity.
Qed.

(** A text with a slash in it cannot be the end of a match. *)
Lemma lazy_tail_slash (a b : string) : lazy_tail (a +:+ "/" +:+ b) = None.
Proof.
  induction a as [|c a IH].
  - reflexivity.
  - rewrite app_cons_s. unfold lazy_tail; fold lazy_tail.
    destruct (String.eqb_spec (String c (a +:+ "/" +:+ b)) ".git") as [E|_].
    + apply (f_equal noSlash) in E.
      rewrite <- app_cons_s, noSlash_with_slash in E. discriminate.
    + rewrite IH. destruct (Ascii.eqb c slash); reflexivity.
Qed.

Lemma match_after_slash_slash (a b : string) :
  match_after_slash (a +:+ "/" +:+ b) = None.
Proof.
  destruct a as [|c a]; [reflexivity|].
  rewrite app_cons_s. simpl. rewrite lazy_tail_slash.
  destruct (Ascii.eqb c slash); reflexivity.
Qed.

Lemma regex_match_noSlash (url : string) :
  noSlash url = true -> regex_match url = None.
Proof.
  induction url as [|c url IH]; intros Hn; [reflexivity|].
  simpl in Hn. apply andb_prop in Hn as [Hc Hu].
  simpl. apply negb_true_iff in Hc. rewrite Hc. exact (IH Hu).
Qed.

(** The search skips every slash that is not the last one. *)
Lemma regex_match_last_slash (pre seg : string) :
  noSlash seg = true ->
  regex_match (pre +:+ "/" +:+ seg) =
  match match_after_slash seg with Some name => Some name | None => None end.
Proof.
  intros Hseg. induction pre as [|c pre IH].
  - change ("" +:+ "/" +:+ seg) with (String slash seg).
    unfold regex_match; fold regex_match.
    change (Ascii.eqb slash slash) with true. cbv iota.
    rewrite (regex_match_noSlash seg Hseg). reflexivity.
  - rewrite app_cons_s. unfold regex_match; fold regex_match.
    rewrite match_after_slash_slash, IH.
    destruct (Ascii.eqb c slash); reflexivity.
Qed.

Lemma match_after_slash_some (seg : string) :
  noSlash seg = true -> seg <> "" -> exists name, match_after_slash seg = Some name.
Proof.
  intros Hn Hne. destruct seg as [|c seg]; [contradiction|].
  simpl in Hn. apply andb_prop in Hn as [Hc Hs].
  simpl. apply negb_true_iff in Hc. rewrite Hc.
  assert (exists t, lazy_tail seg = Some t) as [t ->]; [|eexists; reflexivity].
  clear Hc Hne c. induction seg as [|d seg IH]; [eexists; reflexivity|].
  simpl in Hs. apply andb_prop in Hs as [Hd Hs].
  unfold lazy_tail; fold lazy_tail.
  destruct (String.eqb (String d seg) ".git"); [eexists; reflexivity|].
  apply negb_true_iff in Hd. rewrite Hd.
  destruct (IH Hs) as [t ->]. eexists; reflexivity.
Qed.

(** The name found after the last slash, for a segment that is not empty. *)
Lemma parseRepoUrl_at_last_slash (pre seg : string) :
  noSlash seg = true ->
  parseRepoUrl (pre +:+ "/" +:+ seg) =
  match match_after_slash seg with
  | Some name => Ok name
  | None => Throw "Invalid repository URL"
  end.
Proof.
  intros Hseg. unfold parseRepoUrl. rewrite (regex_match_last_slash pre seg Hseg).
  destruct (match_after_slash seg); reflexivity.
Qed.



(** The parser knows nothing of hosts and paths: what follows the last
    slash is the name, be it the authority of the URL; and a segment that is
    nothing but [.git] is kept as it is. *)
Example parseRepoUrl_host_only :
  parseRepoUrl "https://example.com" = Ok "example.com".
Proof. reflexivity. Qed.

Example parseRepoUrl_only_suffix :
  parseRepoUrl "https://example.com/.git" = Ok ".git".
Proof. reflexivity. Qed.

Example parseRepoUrl_scp_like :
  parseRepoUrl "git@github.com:mk3008/rawsql-ts.git" = Ok "rawsql-ts".
Proof. reflexivity. Qed.

End UrlFacts.


(** * The parser of the porcelain worktree listing *)

Section PorcelainFacts.
Import Porcelain.

Lemma worktreeEntry_drop (lines : list string) (i : nat) (line : string) :
  worktreeEntry (drop i lines) 0 line = worktreeEntry lines i line.
Proof.
  unfold worktreeEntry. rewrite lookup_drop.
  replace (i + (0 + 2)) with (i + 2) by lia. reflexivity.
Qed.

(** The loop, started at index [i] with [n] lines left, appends the entries
    of those lines to what it has collected. *)
Lemma parseLoop_scan (lines : list string) (n i : nat) (acc : list string) :
  i + n = length lines ->
  parseLoop lines n i acc = acc ++ scan (drop i lines).
Proof.
  revert i acc. induction n as [|n IH]; intros i acc Hlen.
  - rewrite drop_ge by lia. simpl. rewrite app_nil_r. reflexivity.
  - destruct (lines !! i) as [line|] eqn:Hi.
    2:{ apply lookup_ge_None in Hi. lia. }
    cbn [parseLoop]. rewrite Hi. rewrite IH by lia.
    rewrite (drop_S lines line i Hi). cbn [scan].
    rewrite <- (drop_S lines line i Hi), worktreeEntry_drop.
    destruct (JS.startsWith "worktree " line).
    + rewrite <- app_assoc. reflexivity.
    + reflexivity.
Qed.

Lemma parseLoop_entriesFrom (lines : list string) (n i : nat) (acc : list string) :
  i + n = length lines ->
  parseLoop lines n i acc = acc ++ entriesFrom lines i n.
Proof.
  revert i acc. induction n as [|n IH]; intros i acc Hlen.
  - unfold entriesFrom. simpl. rewrite app_nil_r. reflexivity.
  - destruct (lines !! i) as [line|] eqn:Hi.
    2:{ apply lookup_ge_None in Hi. lia. }
    cbn [parseLoop]. rewrite Hi. rewrite IH by lia.
    unfold entriesFrom. cbn [seq flat_map]. rewrite Hi.
    destruct (JS.startsWith "worktree " line).
    + rewrite <- app_assoc. reflexivity.
    + reflexivity.
Qed.

Lemma parseWorktreeList_scan (stdout : string) :
  parseWorktreeList stdout = scan (JS.split JS.LF stdout).
Proof.
  unfold parseWorktreeList. rewrite parseLoop_scan by reflexivity.
  reflexivity.
Qed.

(** Splitting at line feeds undoes [unlines]. *)
Lemma split_line (l rest : string) :
  noLF l = true ->
  JS.split JS.LF (l +:+ JS.nl +:+ rest) = l :: JS.split JS.LF rest.
Proof.
  induction l as [|c l IH]; intros Hl.
  - reflexivity.
  - simpl in Hl. apply andb_prop in Hl as [Hc Hl].
    rewrite app_cons_s. simpl. apply negb_true_iff in Hc. rewrite Hc.
    rewrite (IH Hl). reflexivity.
Qed.

Lemma split_unlines (ls : list string) :
  forallb noLF ls = true ->
  JS.split JS.LF (unlines ls) = ls ++ [""].
Proof.
  induction ls as [|l ls IH]; intros H; [reflexivity|].
  simpl in H. apply andb_prop in H as [Hl Hls].
  simpl. rewrite (split_line l _ Hl), (IH Hls). reflexivity.
Qed.

Lemma noLF_app (a b : string) : noLF (a +:+ b) = noLF a && noLF b.
Proof.
  induction a as [|c a IH]; [reflexivity|].
  rewrite app_cons_s. simpl. rewrite IH. apply andb_assoc.
Qed.

Lemma recordLines_noLF (r : record) :
  recordOk r = true -> forallb noLF (recordLines r) = true.
Proof.
  destruct r as [p|p h b|p h]; simpl; rewrite ?noLF_app; simpl; intros H.
  - rewrite H. reflexivity.
  - apply andb_prop in H as [H Hb]. apply andb_prop in H as [Hp Hh].
    rewrite Hp, Hh, Hb. reflexivity.
  - apply andb_prop in H as [Hp Hh]. rewrite Hp, Hh. reflexivity.
Qed.

Lemma porcelain_lines (rs : list record) :
  forallb recordOk rs = true ->
  JS.split JS.LF (porcelain rs) = concat (map recordLines rs) ++ [""].
Proof.
  intros H. unfold porcelain. apply split_unlines.
  induction rs as [|r rs IH]; [reflexivity|].
  simpl in H. apply andb_prop in H as [Hr Hrs].
  simpl. rewrite forallb_app, (recordLines_noLF r Hr), (IH Hrs). reflexivity.
Qed.

(** A record contributes its one entry, whatever follows it. *)
Lemma scan_record (r : record) (rest : list string) :
  scan (recordLines r ++ rest) = shown r :: scan rest.
Proof.
  destruct r as [p|p h b|p h]; cbn [recordLines app scan shown].
  - rewrite (startsWith_app "worktree " p).
    unfold worktreeEntry. cbn [lookup list_lookup Nat.add].
    change (JS.substring_from 9 ("worktree " +:+ p))
      with (JS.substring_from (String.length "worktree ") ("worktree " +:+ p)).
    rewrite (substring_from_app "worktree " p). reflexivity.
  - rewrite (startsWith_app "worktree " p).
    unfold worktreeEntry. cbn [lookup list_lookup Nat.add].
    change (JS.substring_from 9 ("worktree " +:+ p))
      with (JS.substring_from (String.length "worktree ") ("worktree " +:+ p)).
    rewrite (substring_from_app "worktree " p).
    rewrite (replace_prefix "branch refs/heads/" b). reflexivity.
  - rewrite (startsWith_app "worktree " p).
    unfold worktreeEntry. cbn [lookup list_lookup Nat.add].
    change (JS.substring_from 9 ("worktree " +:+ p))
      with (JS.substring_from (String.length "worktree ") ("worktree " +:+ p)).
    rewrite (substring_from_app "worktree " p). reflexivity.
Qed.

(** The listing of any sequence of records is read back entry by entry. *)
Lemma parse_porcelain (rs : list record) :
  forallb recordOk rs = true ->
  parseWorktreeList (porcelain rs) = map shown rs.
Proof.
  intros H. rewrite parseWorktreeList_scan, (porcelain_lines rs H).
  clear H. induction rs as [|r rs IH]; [reflexivity|].
  simpl concat. rewrite <- app_assoc, scan_record, IH. reflexivity.
Qed.

Lemma parseWorktreeList_entries (stdout : string) :
  parseWorktreeList stdout =
  entriesFrom (JS.split JS.LF stdout) 0 (length (JS.split JS.LF stdout)).
Proof.
  unfold parseWorktreeList. rewrite parseLoop_entriesFrom by reflexivity.
  reflexivity.
Qed.

Lemma worktreeEntry_path (lines : list string) (i : nat) (p : string) :
  worktreeEntry lines i ("worktree " +:+ p) =
  p +:+ " (" +:+
    match lines !! (i + 2) with
    | Some l => if JS.truthy l then JS.replace "branch refs/heads/" "" l else "detached"
    | None => "detached"
    end +:+ ")".
Proof.
  unfold worktreeEntry.
  change (JS.substring_from 9 ("worktree " +:+ p))
    with (JS.substring_from (String.length "worktree ") ("worktree " +:+ p)).
  rewrite (substring_from_app "worktree " p). reflexivity.
Qed.

End PorcelainFacts.


(** * The parser of the remote head listing *)

Section RemoteHeadsFacts.
Import RemoteHeads.

(** ** The set built from an array *)

Lemma uniqueInto_elem (seen branches : list string) (x : string) :
  x ∈ uniqueInto seen branches <-> x ∈ seen \/ x ∈ branches.
Proof.
  revert seen. induction branches as [|b rest IH]; intros seen; simpl.
  - rewrite elem_of_nil. tauto.
  - rewrite IH, elem_of_cons. case_bool_decide as Hb.
    + split; [tauto|]. intros [H|[->|H]]; tauto.
    + rewrite elem_of_app, list_elem_of_singleton. tauto.
Qed.

Lemma uniqueInto_NoDup (seen branches : list string) :
  NoDup seen -> NoDup (uniqueInto seen branches).
Proof.
  revert seen. induction branches as [|b rest IH]; intros seen Hs; simpl.
  - exact Hs.
  - apply IH. case_bool_decide as Hb; [exact Hs|].
    apply NoDup_app. split; [exact Hs|]. split.
    + intros x Hx Hx'. apply list_elem_of_singleton in Hx'. subst. contradiction.
    + apply NoDup_singleton.
Qed.

Lemma unique_elem (branches : list string) (x : string) :
  x ∈ unique branches <-> x ∈ branches.
Proof. unfold unique. rewrite uniqueInto_elem, elem_of_nil. tauto. Qed.

Lemma unique_NoDup (branches : list string) : NoDup (unique branches).
Proof. apply uniqueInto_NoDup, NoDup_nil_2. Qed.

(** Arrays with the same elements give the same set, up to order. *)
Lemma unique_Permutation (l1 l2 : list string) :
  l1 ≡ₚ l2 -> unique l1 ≡ₚ unique l2.
Proof.
  intros H. apply NoDup_Permutation; [apply unique_NoDup .. |].
  intros x. rewrite !unique_elem. rewrite H. reflexivity.
Qed.

(** ** Sorting *)

Lemma sort_Sorted (l : list string) : Sorted String.le (sort l).
Proof. apply Sorted_merge_sort. apply _. Qed.

Lemma sort_Permutation (l : list string) : sort l ≡ₚ l.
Proof. apply merge_sort_Permutation. Qed.

(** The sorted array depends on the elements only, not on their order. *)
Lemma sort_order_independent (l1 l2 : list string) :
  l1 ≡ₚ l2 -> sort l1 = sort l2.
Proof.
  intros H. apply (Sorted_unique String.le); [apply sort_Sorted ..|].
  rewrite !sort_Permutation. exact H.
Qed.

(** ** The pattern on a line of the listing *)

Lemma isHexDigit_not_r (c : ascii) :
  isHexDigit c = true -> Ascii.eqb "r" c = false.
Proof.
  destruct c as [[] [] [] [] [] [] [] []]; intros H;
    first [reflexivity | discriminate H].
Qed.

Lemma matchHead_here (name : string) :
  name <> "" -> JS.allDot name = true ->
  matchHead ("refs/heads/" +:+ name) = Some name.
Proof.
  intros Hne Hdot.
  change ("refs/heads/" +:+ name)
    with (String "r" ("efs/heads/" +:+ name)).
  unfold matchHead; fold matchHead.
  change (String "r" ("efs/heads/" +:+ name)) with ("refs/heads/" +:+ name).
  rewrite (startsWith_app "refs/heads/" name).
  change (JS.substring_from 11 ("refs/heads/" +:+ name))
    with (JS.substring_from (String.length "refs/heads/") ("refs/heads/" +:+ name)).
  rewrite (substring_from_app "refs/heads/" name), Hdot.
  destruct name; [contradiction | reflexivity].
Qed.

(** The object name and the tab are skipped: no match starts in them. *)
Lemma matchHead_headLine (sha name : string) :
  allHex sha = true -> name <> "" -> JS.allDot name = true ->
  matchHead (headLine sha name) = Some name.
Proof.
  intros Hhex Hne Hdot. unfold headLine.
  induction sha as [|c sha IH].
  - change ("" +:+ TAB +:+ "refs/heads/" +:+ name)
      with (String (ascii_of_nat 9) ("refs/heads/" +:+ name)).
    unfold matchHead; fold matchHead.
    change (JS.startsWith "refs/heads/" (String (ascii_of_nat 9) ("refs/heads/" +:+ name)))
      with false. cbv iota.
    apply matchHead_here; assumption.
  - simpl in Hhex. apply andb_prop in Hhex as [Hc Hs].
    rewrite app_cons_s. unfold matchHead; fold matchHead.
    assert (E : JS.startsWith "refs/heads/" (String c (sha +:+ TAB +:+ "refs/heads/" +:+ name)) = false).
    { change (JS.startsWith "refs/heads/" (String c (sha +:+ TAB +:+ "refs/heads/" +:+ name)))
        with (if Ascii.eqb "r" c
              then JS.startsWith "efs/heads/" (sha +:+ TAB +:+ "refs/heads/" +:+ name)
              else false).
      rewrite (isHexDigit_not_r c Hc). reflexivity. }
    rewrite E. exact (IH Hs).
Qed.

(** ** The whole parser *)

Lemma parseRemoteHeads_elem (stdout x : string) :
  x ∈ parseRemoteHeads stdout <->
  exists line, line ∈ JS.split JS.LF stdout /\
               JS.truthy (JS.trim line) = true /\
               matchHead line = Some x.
Proof.
  unfold parseRemoteHeads. rewrite sort_Permutation, unique_elem, list_elem_of_omap.
  split.
  - intros (line & Hin & Hm). apply list_elem_of_filter in Hin as [Ht Hin].
    exists line. split; [exact Hin|]. split; [|exact Hm].
    apply Is_true_true_1, Ht.
  - intros (line & Hin & Ht & Hm). exists line. split; [|exact Hm].
    apply list_elem_of_filter. split; [|exact Hin].
    apply Is_true_true_2, Ht.
Qed.

End RemoteHeadsFacts.


(** * The lifecycle operations *)

(** ** The file system *)

Lemma wellFormed_ancestor (fs : FS) (p k : Path) :
  Fs.wellFormed fs -> is_Some (fs !! (p ++ k)) -> Fs.existsSync p fs = true.
Proof.
  intros Hwf. induction k as [|seg k IH] using rev_ind; intros Hq.
  - rewrite app_nil_r in Hq. unfold Fs.existsSync.
    destruct Hq as [n ->]. reflexivity.
  - rewrite app_assoc in Hq. apply Hwf in Hq. apply IH. eauto.
Qed.

Lemma existsSync_true (fs : FS) (p : Path) :
  Fs.existsSync p fs = true <-> is_Some (fs !! p).
Proof.
  unfold Fs.existsSync. destruct (fs !! p); split; intros H;
    try reflexivity; try discriminate; eauto.
  destruct H as [? H]. discriminate H.
Qed.

(** ** Paths *)

Lemma split_noSlash (s : string) :
  Url.noSlash s = true -> JS.split "/" s = [s].
Proof.
  induction s as [|c s IH]; intros H; [reflexivity|].
  simpl in H. apply andb_prop in H as [Hc Hs]. apply negb_true_iff in Hc.
  cbn [JS.split]. unfold Url.slash in Hc. rewrite Hc, (IH Hs). reflexivity.
Qed.

(** Joining an ordinary name, one segment that is neither empty nor a dot
    name, goes one level down. *)
Lemma join_plain (base : Path) (name : string) :
  Url.noSlash name = true -> name <> "" -> name <> "." -> name <> ".." ->
  Path.join base name = base ++ [name].
Proof.
  intros Hs H0 H1 H2. unfold Path.join. rewrite (split_noSlash name Hs).
  cbn [fold_left]. unfold Path.joinStep.
  rewrite !bool_decide_eq_false_2 by assumption. reflexivity.
Qed.

(** The workspace of a manager made for such a name lies in its base directory. *)
Lemma new_WorktreeManager_inside (base : Path) (name : string) (d : option string) :
  Url.noSlash name = true -> name <> "" -> name <> "." -> name <> ".." ->
  baseDir (new_WorktreeManager base name d)
    `prefix_of` repositoryPath (new_WorktreeManager base name d).
Proof.
  intros Hs H0 H1 H2. cbn [new_WorktreeManager baseDir repositoryPath].
  rewrite (join_plain base name Hs H0 H1 H2). apply prefix_app_r. reflexivity.
Qed.

(** ** Error texts *)

Lemma Throw_inj {A : Type} (a b : string) : @Throw A a = Throw b -> a = b.
Proof. intros H. congruence. Qed.

Lemma Error_toString_cons (c : ascii) (s : string) :
  JS.Error_toString (String c s) = "Error: " +:+ String c s.
Proof. reflexivity. Qed.

(** A pattern is not found earlier by putting in front of the text a
    code unit that the pattern does not start with. *)
Lemma includes_skip (a c : ascii) (p s : string) :
  Ascii.eqb a c = false ->
  JS.includes (String a p) (String c s) = JS.includes (String a p) s.
Proof.
  intros Hac. unfold JS.includes.
  change (JS.indexOf (String a p) (String c s))
    with (if (if Ascii.eqb a c then JS.startsWith p s else false)
          then Some 0
          else option_map S (JS.indexOf (String a p) s)).
  rewrite Hac. destruct (JS.indexOf (String a p) s); reflexivity.
Qed.

(** Reading the text of the error or its message gives the same answer to
    the test for the marker of a dirty worktree. *)
Lemma includes_dirtyMarker_toString (message : string) :
  JS.includes dirtyMarker (JS.Error_toString message) =
  JS.includes dirtyMarker message.
Proof.
  destruct message as [|c s]; [reflexivity|].
  rewrite Error_toString_cons. unfold dirtyMarker.
  change ("Error: " +:+ String c s)
    with (String "E" (String "r" (String "r" (String "o" (String "r"
           (String ":" (String " " (String c s)))))))).
  rewrite !includes_skip by reflexivity. reflexivity.
Qed.

Section ManagerFacts.
Context `{host : Host}.

(** One step of a computation: the control structure, not the strings. *)
Ltac mstep :=
  unfold try_catch, mbind, M_bind, mret, M_ret, getThis, existsSync, throw;
  cbn beta iota zeta delta [fst snd negb].

(** Unfolds the control structure of a method, not the strings. *)
Ltac unfold_method :=
  unfold clone, createBranch, listWorktrees, removeWorktree,
    removeWorktree_message, removeWorktree_try, listRemoteBranches,
    openRemoteBranch, try_catch, mbind, M_bind, mret, M_ret, getThis,
    existsSync, throw.

(** C4. When the directory of the worktree already exists, [createBranch]
    throws and leaves the whole state as it was: the file system is
    untouched and no command is run, neither a fetch nor a worktree
    creation.  The error is the worktree-already-exists one, wrapped as
    every failure of the operation is, once the repository itself is there. *)
Theorem createBranch_existing_worktree
    (w : World) (branchName : string) (baseBranch : option string) (pullLatest : bool) :
  Fs.existsSync (Path.join (repositoryPath (this w)) branchName) (fs w) = true ->
  snd (createBranch branchName baseBranch pullLatest w) = w /\
  trace (snd (createBranch branchName baseBranch pullLatest w)) = trace w /\
  (exists message,
      fst (createBranch branchName baseBranch pullLatest w) = Throw message) /\
  (Fs.existsSync (barePath (this w)) (fs w) = true ->
   createBranch branchName baseBranch pullLatest w =
   (Throw ("Failed to create branch: Error: Worktree for branch "
           +:+ branchName +:+ " already exists"), w)).
Proof.
  intros Hwt. unfold_method.
  destruct (Fs.existsSync (barePath (this w)) (fs w)) eqn:Hbare; cbn [negb].
  - rewrite Hwt. cbn. repeat split; eauto.
  - cbn. repeat split; eauto. discriminate.
Qed.

(** Creating directories changes no entry that exists. *)
Lemma mkdirStep_Throw (target : Path) (qs : list Path) (e : string) :
  fold_left (Fs.mkdirStep target) qs (Throw e) = Throw e.
Proof. induction qs as [|q qs IH]; [reflexivity | exact IH]. Qed.

Lemma mkdir_fold_keeps (target : Path) (qs : list Path) (f f' : FS) :
  fold_left (Fs.mkdirStep target) qs (Ok f) = Ok f' ->
  forall p x, f !! p = Some x -> f' !! p = Some x.
Proof.
  revert f. induction qs as [|q qs IH]; intros f H p x Hp.
  - injection H as <-. exact Hp.
  - cbn [fold_left] in H. unfold Fs.mkdirStep at 2 in H.
    destruct (f !! q) as [[|d]|] eqn:Hq.
    + exact (IH _ H p x Hp).
    + rewrite mkdirStep_Throw in H. discriminate H.
    + apply (IH _ H p x). rewrite lookup_insert_ne; [exact Hp|]. intros ->. congruence.
Qed.

Lemma mkdirSync_recursive_keeps (target : Path) (f f' : FS) :
  Fs.mkdirSync_recursive target f = Ok f' ->
  forall p x, f !! p = Some x -> f' !! p = Some x.
Proof. apply mkdir_fold_keeps. Qed.


Lemma dirtyMessage_not_generic (m : WorktreeManager) (branchName e : string) :
  dirtyMessage m branchName <> "Failed to remove worktree: " +:+ e.
Proof. unfold dirtyMessage. intros H. discriminate H. Qed.

(** What [removeWorktree] returns, case by case. *)
Lemma removeWorktree_cases (w : World) (branchName : string) (force : bool) :
  fst (removeWorktree branchName force w) =
  if negb (Fs.existsSync (barePath (this w)) (fs w))
  then Throw "Failed to remove worktree: Error: Repository not found."
  else match removeAnswer w branchName force with
       | ExecOk _ => Ok tt
       | ExecFail message =>
           if negb force && JS.includes dirtyMarker message
           then Throw (dirtyMessage (this w) branchName)
           else Throw ("Failed to remove worktree: " +:+ JS.Error_toString message)
       end.
Proof.
  unfold removeAnswer. unfold_method.
  destruct (Fs.existsSync (barePath (this w)) (fs w)); cbn [negb];
    [|destruct force; reflexivity].
  unfold execAsync.
  destruct (run _ (fs w) (remote w)) as [[[out|message] fs'] remote']; cbn [fst snd];
    [reflexivity|].
  rewrite includes_dirtyMarker_toString.
  destruct (negb force && JS.includes dirtyMarker message); reflexivity.
Qed.

(** The two revisions of the manager classify failures alike. *)
Lemma removeWorktree_revisions_agree (w : World) (branchName : string) (force : bool) :
  removeWorktree_message branchName force w = removeWorktree branchName force w.
Proof.
  unfold_method.
  destruct (Fs.existsSync (barePath (this w)) (fs w)); cbn [negb].
  - unfold execAsync.
    destruct (run _ (fs w) (remote w)) as [[[out|message] fs'] remote'];
      [reflexivity|].
    rewrite includes_dirtyMarker_toString. reflexivity.
  - destruct force; reflexivity.
Qed.

(** C5. [removeWorktree] throws the dirty-worktree error exactly when
    [force] is false and the removal command fails with a text that
    contains the marker of modified or untracked files.  Every other
    failure is wrapped in the generic removal-failure error, and so is a
    failure with that very text when [force] is true.  Both revisions of
    the manager behave the same. *)
Theorem removeWorktree_dirty_iff (w : World) (branchName : string) (force : bool) :
  removeWorktree_message branchName force w = removeWorktree branchName force w /\
  (fst (removeWorktree branchName force w) = Throw (dirtyMessage (this w) branchName) <->
   Fs.existsSync (barePath (this w)) (fs w) = true /\
   force = false /\
   exists message,
     removeAnswer w branchName force = ExecFail message /\
     JS.includes dirtyMarker message = true) /\
  (forall message,
      fst (removeWorktree branchName force w) = Throw message ->
      message = dirtyMessage (this w) branchName \/
      exists cause, message = "Failed to remove worktree: " +:+ JS.Error_toString cause) /\
  (forall message,
      force = true ->
      Fs.existsSync (barePath (this w)) (fs w) = true ->
      removeAnswer w branchName force = ExecFail message ->
      fst (removeWorktree branchName force w) =
      Throw ("Failed to remove worktree: " +:+ JS.Error_toString message)).
Proof.
  split; [apply removeWorktree_revisions_agree|].
  rewrite removeWorktree_cases.
  destruct (Fs.existsSync (barePath (this w)) (fs w)) eqn:Hbare; cbn [negb].
  - destruct (removeAnswer w branchName force) as [out|message] eqn:Hans.
    + split; [split; [discriminate | intros (_ & _ & m' & Hm & _); discriminate]|].
      split; [discriminate | discriminate].
    + destruct force; cbn [negb andb].
      * split; [split|split].
        -- intros H. apply Throw_inj in H. symmetry in H.
           exfalso. exact (dirtyMessage_not_generic _ _ _ H).
        -- intros (_ & Hf & _). discriminate.
        -- intros m' H. apply Throw_inj in H as <-. right. eauto.
        -- intros m' _ _ H. injection H as <-. reflexivity.
      * destruct (JS.includes dirtyMarker message) eqn:Hinc.
        -- split; [split|split].
           ++ intros _. repeat split. eauto.
           ++ reflexivity.
           ++ intros m' H. apply Throw_inj in H as <-. left. reflexivity.
           ++ discriminate.
        -- split; [split|split].
           ++ intros H. apply Throw_inj in H. symmetry in H.
              exfalso. exact (dirtyMessage_not_generic _ _ _ H).
           ++ intros (_ & _ & m' & Hm & Hi). assert (m' = message) as -> by congruence. congruence.
           ++ intros m' H. apply Throw_inj in H as <-. right. eauto.
           ++ discriminate.
  - split; [split|split].
    + intros H. apply Throw_inj in H. symmetry in H.
      exfalso. exact (dirtyMessage_not_generic _ _ "Error: Repository not found." H).
    + intros (H & _). discriminate.
    + intros m' H. apply Throw_inj in H as <-. right. exists "Repository not found.". reflexivity.
    + discriminate.
Qed.

(** ** Reading the stored configuration *)

Lemma load_reads (w : World) : load w = (Ok (storedConfig w), w).
Proof.
  unfold load, storedConfig. unfold_method.
  unfold Fs.existsSync, readFileSync, Fs.readFileSync.
  destruct (fs w !! configPath (this w)) as [[|data]|] eqn:E;
    cbn beta iota delta [negb]; rewrite ?E; cbn beta iota; try reflexivity.
  destruct (JSON_parse data); reflexivity.
Qed.

Lemma getDefaultBranch_reads (w : World) :
  getDefaultBranch w = (Ok (storedDefaultBranch w), w).
Proof.
  unfold getDefaultBranch, storedDefaultBranch. unfold mbind, M_bind.
  rewrite load_reads. destruct (storedConfig w) as [config|]; reflexivity.
Qed.

(** ** Running a command *)

(** The state after a command, and its outcome. *)
Lemma execAsync_run (command : string) (w : World) :
  exists r fs' remote',
    run command (fs w) (remote w) = (r, fs', remote') /\
    execAsync command w =
    (match r with ExecOk stdout => Ok stdout | ExecFail message => Throw message end,
     {| this := this w; fs := fs'; remote := remote';
        trace := trace w ++ [(command, r)] |}).
Proof.
  unfold execAsync.
  destruct (run command (fs w) (remote w)) as [[r fs'] remote'].
  exists r, fs', remote'. split; [reflexivity|]. destruct r; reflexivity.
Qed.

(** Runs the next command of the computation in the goal. *)
Ltac run_next r :=
  match goal with
  | |- context [execAsync ?c ?w0] =>
      let E := fresh "E" in
      destruct (execAsync_run c w0) as (r & ? & ? & _ & E);
      rewrite E; clear E
  end.

(** The trace of the final state, as the trace of the first one extended. *)
Ltac trace_eq :=
  cbn [trace fst snd]; rewrite <- ?app_assoc; reflexivity.


(** ** The listings *)

(** [listWorktrees] returns what the parser reads in the output of the
    listing command. *)
Lemma listWorktrees_returns (w : World) (stdout : string) (f : FS) (r : Remote) :
  Fs.existsSync (barePath (this w)) (fs w) = true ->
  run (listCommand (this w)) (fs w) (remote w) = (ExecOk stdout, f, r) ->
  fst (listWorktrees w) = Ok (Porcelain.parseWorktreeList stdout).
Proof.
  intros Hbare Hrun. unfold listWorktrees. mstep. rewrite Hbare. mstep.
  unfold execAsync. rewrite Hrun. reflexivity.
Qed.

(** [listRemoteBranches] returns what the parser reads in the output of
    the command that lists the heads of the remote. *)
Lemma listRemoteBranches_returns
    (w : World) (out stdout : string) (f1 f2 : FS) (r1 r2 : Remote) :
  Fs.existsSync (barePath (this w)) (fs w) = true ->
  run (fetchPrune (this w)) (fs w) (remote w) = (ExecOk out, f1, r1) ->
  run (lsRemote (this w)) f1 r1 = (ExecOk stdout, f2, r2) ->
  fst (listRemoteBranches w) = Ok (RemoteHeads.parseRemoteHeads stdout).
Proof.
  intros Hbare Hrun1 Hrun2. unfold listRemoteBranches. mstep. rewrite Hbare. mstep.
  unfold execAsync at 1. rewrite Hrun1. mstep.
  unfold execAsync. cbn [this fs remote]. rewrite Hrun2. reflexivity.
Qed.

(** ** The commands of [openRemoteBranch] are pairwise different *)

Lemma app_longer (a s t : string) : a <> "" -> a +:+ s +:+ t <> s.
Proof.
  intros Ha H. apply (f_equal String.length) in H.
  rewrite !length_app_s in H. destruct a; [contradiction|]. simpl in H. lia.
Qed.

Lemma addTracking_not_addExisting (m : WorktreeManager) (b : string) :
  addTracking m b <> addExisting m b.
Proof.
  unfold addTracking, addExisting. intros H.
  apply (inj (String.app (inBare m))) in H.
  apply (inj (String.app "git worktree add ")) in H.
  apply (inj (String.app (quoted _))) in H.
  change (" -b " +:+ b +:+ " origin/" +:+ b) with (" " +:+ "-b " +:+ b +:+ " origin/" +:+ b) in H.
  apply (inj (String.app " ")) in H.
  revert H. apply app_longer. discriminate.
Qed.

Lemma addTracking_not_listing (m : WorktreeManager) (b : string) :
  addTracking m b <> fetchHeads m /\
  addTracking m b <> fetchPrune m /\
  addTracking m b <> lsRemote m.
Proof.
  unfold addTracking, fetchHeads, fetchPrune, lsRemote.
  repeat split; intros H; apply (inj (String.app (inBare m))) in H; discriminate H.
Qed.

Lemma addExisting_not_listing (m : WorktreeManager) (b : string) :
  addExisting m b <> fetchHeads m /\
  addExisting m b <> fetchPrune m /\
  addExisting m b <> lsRemote m.
Proof.
  unfold addExisting, fetchHeads, fetchPrune, lsRemote.
  repeat split; intros H; apply (inj (String.app (inBare m))) in H; discriminate H.
Qed.


(** ** The default branch of the remote *)

(** The detection never throws: it runs the commands of one of the tiers
    and returns the branch which that tier gives. *)
Lemma detectDefaultBranch_resolved (w : World) :
  exists (b : string) (evs : list (string * ExecResult)) (fs' : FS) (remote' : Remote),
    detectDefaultBranch w =
    (Ok b, {| this := this w; fs := fs'; remote := remote'; trace := trace w ++ evs |}) /\
    Resolved (this w) evs b.
Proof.
  unfold detectDefaultBranch. mstep.
  run_next r0. destruct r0 as [out0|e0]; mstep.
  - run_next r1. destruct r1 as [head|e1]; mstep.
    + do 4 eexists. split; [cbn [this trace fs remote]; rewrite <- ?app_assoc; reflexivity|].
      apply tier_a.
    + run_next r2. destruct r2 as [branches|e2]; mstep.
      * destruct (JS.includes "origin/main" branches) eqn:Hmain;
          [|destruct (JS.includes "origin/master" branches) eqn:Hmaster]; mstep;
          do 4 eexists;
          (split; [cbn [this trace fs remote]; rewrite <- ?app_assoc; reflexivity|]).
        -- apply (tier_b_main _ [_; _]); [apply symbolicRef_fails | exact Hmain].
        -- apply (tier_b_master _ [_; _]); [apply symbolicRef_fails | exact Hmain | exact Hmaster].
        -- apply (tier_c_neither _ [_; _]); [apply symbolicRef_fails | exact Hmain | exact Hmaster].
      * do 4 eexists. split; [cbn [this trace fs remote]; rewrite <- ?app_assoc; reflexivity|].
        apply (tier_c_fails _ [_; _]). apply symbolicRef_fails.
  - run_next r2. destruct r2 as [branches|e2]; mstep.
    + destruct (JS.includes "origin/main" branches) eqn:Hmain;
        [|destruct (JS.includes "origin/master" branches) eqn:Hmaster]; mstep;
        do 4 eexists;
        (split; [cbn [this trace fs remote]; rewrite <- ?app_assoc; reflexivity|]).
      * apply (tier_b_main _ [_]); [apply setHead_fails | exact Hmain].
      * apply (tier_b_master _ [_]); [apply setHead_fails | exact Hmain | exact Hmaster].
      * apply (tier_c_neither _ [_]); [apply setHead_fails | exact Hmain | exact Hmaster].
    + do 4 eexists. split; [cbn [this trace fs remote]; rewrite <- ?app_assoc; reflexivity|].
      apply (tier_c_fails _ [_]). apply setHead_fails.
Qed.

(** Tier (a), when it succeeds, is the only tier there is. *)
Lemma Resolved_tier_a (m : WorktreeManager) (out head b : string) :
  Resolved m [(setHead m, ExecOk out); (symbolicRef m, ExecOk head)] b ->
  b = JS.trim head.
Proof.
  intros H. inversion H as [o h E | evs br Ha _ E | evs br Ha _ _ E
                           | evs br Ha _ _ E | evs e Ha E]; subst.
  - reflexivity.
  - destruct Ha; discriminate E.
  - destruct Ha; discriminate E.
  - destruct Ha; discriminate E.
  - destruct Ha; discriminate E.
Qed.

Lemma writeFileSync_written (p : Path) (data : string) (f f' : FS) :
  Fs.writeFileSync p data f = Ok f' -> f' !! p = Some (File data).
Proof.
  unfold Fs.writeFileSync. intros H.
  destruct (f !! p) as [[|d]|]; [discriminate| |];
    (destruct (f !! removelast p) as [[|d']|]; [|discriminate|discriminate]);
    injection H as <-; apply lookup_insert_eq.
Qed.


End ManagerFacts.


(** * The two listings *)

Section ListingClaims.
Context `{host : Host}.
Import Porcelain RemoteHeads.

(** C6. [listWorktrees] returns what its parser reads in the output of the
    listing command, and the parser reads it line by line: the result holds,
    in the order of the lines, one entry for every line that begins with
    the path marker; the branch of the entry is read from the line two
    positions further with its [branch refs/heads/] prefix removed, and it
    is the label [detached] when there is no such line.  So the listing of
    any sequence of attached and detached records gives exactly one entry
    per record, in the order printed, a detached record being labelled
    [detached]; the last part spells this out for three records. *)
Theorem listWorktrees_reads_records :
  (forall (w : World) (stdout : string) (f : FS) (r : Remote),
      Fs.existsSync (barePath (this w)) (fs w) = true ->
      run (listCommand (this w)) (fs w) (remote w) = (ExecOk stdout, f, r) ->
      fst (listWorktrees w) = Ok (parseWorktreeList stdout)) /\
  (forall stdout : string,
      parseWorktreeList stdout =
      entriesFrom (JS.split JS.LF stdout) 0 (length (JS.split JS.LF stdout))) /\
  (forall (lines : list string) (i : nat) (p b : string),
      lines !! (i + 2) = Some ("branch refs/heads/" +:+ b) ->
      worktreeEntry lines i ("worktree " +:+ p) = p +:+ " (" +:+ b +:+ ")") /\
  (forall (lines : list string) (i : nat) (p : string),
      lines !! (i + 2) = None ->
      worktreeEntry lines i ("worktree " +:+ p) = p +:+ " (detached)") /\
  (forall rs : list record,
      forallb recordOk rs = true ->
      parseWorktreeList (porcelain rs) = map shown rs /\
      length (parseWorktreeList (porcelain rs)) = length rs) /\
  (forall p1 h1 b1 p2 h2 p3 h3 b3 : string,
      forallb recordOk [Attached p1 h1 b1; Detached p2 h2; Attached p3 h3 b3] = true ->
      parseWorktreeList
        (porcelain [Attached p1 h1 b1; Detached p2 h2; Attached p3 h3 b3]) =
      [p1 +:+ " (" +:+ b1 +:+ ")"; p2 +:+ " (detached)"; p3 +:+ " (" +:+ b3 +:+ ")"]).
Proof.
  split; [exact listWorktrees_returns|].
  split; [exact parseWorktreeList_entries|].
  split.
  { intros lines i p b Hb. rewrite worktreeEntry_path, Hb.
    rewrite (replace_prefix "branch refs/heads/" b). reflexivity. }
  split.
  { intros lines i p Hb. rewrite worktreeEntry_path, Hb. reflexivity. }
  split.
  { intros rs Hrs. rewrite (parse_porcelain rs Hrs).
    split; [reflexivity | apply length_map]. }
  intros p1 h1 b1 p2 h2 p3 h3 b3 Hrs.
  rewrite (parse_porcelain _ Hrs). reflexivity.
Qed.

(** C10. In what [listWorktrees] returns, the label is [detached] whenever the line two positions after a
    path line is missing or empty, whatever the record is: such a path line
    always contributes the entry made of its path and [(detached)].  The
    record of the bare storage, a path line followed by [bare] and an empty
    line, is of that kind: it is listed, at its place, as the bare path
    labelled [(detached)]. *)
Theorem listWorktrees_labels_bare_detached :
  (forall (w : World) (stdout : string) (f : FS) (r : Remote),
      Fs.existsSync (barePath (this w)) (fs w) = true ->
      run (listCommand (this w)) (fs w) (remote w) = (ExecOk stdout, f, r) ->
      fst (listWorktrees w) = Ok (parseWorktreeList stdout)) /\
  (forall (stdout : string) (i : nat) (p : string),
      JS.split JS.LF stdout !! i = Some ("worktree " +:+ p) ->
      JS.split JS.LF stdout !! (i + 2) = None \/
      JS.split JS.LF stdout !! (i + 2) = Some "" ->
      worktreeEntry (JS.split JS.LF stdout) i ("worktree " +:+ p) = p +:+ " (detached)" /\
      In (p +:+ " (detached)") (parseWorktreeList stdout)) /\
  (forall (rs1 rs2 : list record) (p : string),
      forallb recordOk (rs1 ++ Bare p :: rs2) = true ->
      recordLines (Bare p) = ["worktree " +:+ p; "bare"; ""] /\
      parseWorktreeList (porcelain (rs1 ++ Bare p :: rs2)) =
      map shown rs1 ++ (p +:+ " (detached)") :: map shown rs2).
Proof.
  split; [exact listWorktrees_returns|].
  split.
  - intros stdout i p Hi Hb.
    assert (E : worktreeEntry (JS.split JS.LF stdout) i ("worktree " +:+ p)
                = p +:+ " (detached)").
    { rewrite worktreeEntry_path. destruct Hb as [-> | ->]; reflexivity. }
    split; [exact E|].
    rewrite parseWorktreeList_entries. unfold entriesFrom.
    apply in_flat_map. exists i. split.
    + apply in_seq. apply lookup_lt_Some in Hi. lia.
    + rewrite Hi, (startsWith_app "worktree " p), E. left. reflexivity.
  - intros rs1 rs2 p Hrs. split; [reflexivity|].
    rewrite (parse_porcelain _ Hrs), map_app. reflexivity.
Qed.

(** C8. [listRemoteBranches] returns what its parser reads in the output
    of the command that lists the heads of the remote: the names matched by the pattern
    [refs/heads/<name>] on the lines of the listing that are not blank, each
    name once, in the lexicographic order of their code units.  Whatever the
    listing, the result has no duplicate and is sorted, and two listings
    whose lines are permutations of each other give the same result.  On a
    line made of an object name, a tab and [refs/heads/<name>] the pattern
    yields [<name>]. *)
Theorem listRemoteBranches_sorted_unique :
  (forall (w : World) (out stdout : string) (f1 f2 : FS) (r1 r2 : Remote),
      Fs.existsSync (barePath (this w)) (fs w) = true ->
      run (fetchPrune (this w)) (fs w) (remote w) = (ExecOk out, f1, r1) ->
      run (lsRemote (this w)) f1 r1 = (ExecOk stdout, f2, r2) ->
      fst (listRemoteBranches w) = Ok (parseRemoteHeads stdout)) /\
  (forall stdout : string,
      NoDup (parseRemoteHeads stdout) /\
      Sorted String.le (parseRemoteHeads stdout)) /\
  (forall stdout x : string,
      x ∈ parseRemoteHeads stdout <->
      exists line, line ∈ JS.split JS.LF stdout /\
                   JS.truthy (JS.trim line) = true /\
                   matchHead line = Some x) /\
  (forall out1 out2 : string,
      JS.split JS.LF out1 ≡ₚ JS.split JS.LF out2 ->
      parseRemoteHeads out1 = parseRemoteHeads out2) /\
  (forall sha name : string,
      allHex sha = true -> name <> "" -> JS.allDot name = true ->
      matchHead (headLine sha name) = Some name).
Proof.
  split; [exact listRemoteBranches_returns|].
  split; [|split; [exact parseRemoteHeads_elem | split; [|exact matchHead_headLine]]].
  - intros stdout. unfold parseRemoteHeads. split.
    + rewrite sort_Permutation. apply unique_NoDup.
    + apply sort_Sorted.
  - intros out1 out2 Hperm. unfold parseRemoteHeads.
    apply sort_order_independent, unique_Permutation.
    rewrite Hperm. reflexivity.
Qed.

End ListingClaims.

Section ListingRuns.
Import Porcelain RemoteHeads.

(** C6 on a listing of three worktrees, the second one detached. *)
Lemma listWorktrees_reads_records_witness :
  parseWorktreeList
    (porcelain [Attached "/repos/app/main" "1a2b3c" "main";
                Detached "/repos/app/review" "4d5e6f";
                Attached "/repos/app/feature/login" "7a8b9c" "feature/login"]) =
  ["/repos/app/main (main)"; "/repos/app/review (detached)";
   "/repos/app/feature/login (feature/login)"].
Proof.
  apply (proj2 (proj2 (proj2 (proj2 (proj2
           (@listWorktrees_reads_records Scripted.host)))))).
  reflexivity.
Defined.

(** C10 on the listing of a fresh clone: the bare storage and one worktree. *)
Lemma listWorktrees_labels_bare_detached_witness :
  parseWorktreeList
    (porcelain ([] ++ Bare "/repos/app/.bare" :: [Attached "/repos/app/main" "1a2b3c" "main"])) =
  ["/repos/app/.bare (detached)"; "/repos/app/main (main)"].
Proof.
  apply (proj2 (proj2 (@listWorktrees_labels_bare_detached Scripted.host))
           [] [Attached "/repos/app/main" "1a2b3c" "main"] "/repos/app/.bare").
  reflexivity.
Defined.

(** C8 on a listing and the same listing with its first two lines swapped. *)
Lemma listRemoteBranches_sorted_unique_witness :
  parseRemoteHeads
    (headLine "1a2b" "main" +:+ JS.nl +:+ headLine "3c4d" "develop" +:+ JS.nl) =
  parseRemoteHeads
    (headLine "3c4d" "develop" +:+ JS.nl +:+ headLine "1a2b" "main" +:+ JS.nl).
Proof.
  apply (proj1 (proj2 (proj2 (proj2 (@listRemoteBranches_sorted_unique Scripted.host))))).
  apply perm_swap.
Defined.

End ListingRuns.


(** * The scripted host *)

Section ScriptedFacts.
Import Scripted.

Lemma readLength_ones (n k : nat) (rest : string) :
  readLength (ones n +:+ ":" +:+ rest) k = Some (k + n, rest).
Proof.
  revert k. induction n as [|n IH]; intros k.
  - rewrite Nat.add_0_r. reflexivity.
  - cbn [ones]. rewrite app_cons_s. cbn [readLength].
    change (Ascii.eqb "1" "1") with true. cbv iota.
    rewrite IH, Nat.add_succ_r. reflexivity.
Qed.

Lemma takeString_app (a b : string) : takeString (String.length a) (a +:+ b) = a.
Proof.
  induction a as [|c a IH]; [destruct b; reflexivity|].
  rewrite app_cons_s. cbn. rewrite IH. reflexivity.
Qed.

(** The scripted serialisation reads back what it writes. *)
Lemma parse_stringify (config : RepositoryConfig.t) :
  parse (stringify config) = Some config.
Proof.
  destruct config as [b u]. unfold parse, stringify. cbn [RepositoryConfig.defaultBranch
    RepositoryConfig.repositoryUrl].
  rewrite readLength_ones. cbn [Nat.add].
  rewrite length_app_s.
  replace (String.length b <=? String.length b + String.length u) with true
    by (symmetry; apply Nat.leb_le; lia).
  rewrite takeString_app, substring_from_app. reflexivity.
Qed.

Lemma mkdirs_keeps (dirs : list Path) (f : FS) (p : Path) (x : Node) :
  f !! p = Some x -> mkdirs dirs f !! p = Some x.
Proof.
  revert f. induction dirs as [|d dirs IH]; intros f Hp; [exact Hp|].
  cbn [mkdirs fold_left]. apply IH.
  destruct (f !! d) eqn:Hd; [exact Hp|].
  rewrite lookup_insert_ne; [exact Hp|]. intros ->. congruence.
Qed.

(** The scripted tool changes no entry that exists. *)
Lemma runScript_keeps (command : string) (f : FS) (script : list Answer)
    (p : Path) (x : Node) :
  f !! p = Some x -> snd (fst (runScript command f script)) !! p = Some x.
Proof.
  intros Hp. unfold runScript. destruct script as [|[r dirs] rest]; cbn [fst snd].
  - exact Hp.
  - apply mkdirs_keeps, Hp.
Qed.

Lemma mkdirs_lookup (dirs : list Path) (f : FS) (p : Path) :
  mkdirs dirs f !! p =
  match f !! p with
  | Some x => Some x
  | None => if bool_decide (p ∈ dirs) then Some Dir else None
  end.
Proof.
  revert f. induction dirs as [|d dirs IH]; intros f.
  - cbn. destruct (f !! p); reflexivity.
  - cbn [mkdirs fold_left]. fold (mkdirs dirs). rewrite IH.
    destruct (f !! d) eqn:Hd.
    + destruct (f !! p) eqn:Hp; [reflexivity|].
      assert (p <> d) by congruence.
      destruct (bool_decide_reflect (p ∈ dirs)) as [Hin|Hin].
      * rewrite bool_decide_eq_true_2; [reflexivity | right; exact Hin].
      * rewrite bool_decide_eq_false_2; [reflexivity|].
        intros Hin'. apply elem_of_cons in Hin' as [->|]; congruence.
    + destruct (decide (p = d)) as [->|Hne].
      * rewrite lookup_insert_eq, Hd.
        rewrite bool_decide_eq_true_2; [reflexivity | left].
      * rewrite lookup_insert_ne by congruence.
        destruct (f !! p); [reflexivity|].
        destruct (bool_decide_reflect (p ∈ dirs)) as [Hin|Hin].
        -- rewrite bool_decide_eq_true_2; [reflexivity | right; exact Hin].
        -- rewrite bool_decide_eq_false_2; [reflexivity|].
           intros Hin'. apply elem_of_cons in Hin' as [->|]; congruence.
Qed.

(** A list of directories that holds the parent of each is a tree. *)
Lemma dirsOf_wellFormed (dirs : list Path) :
  parentsListed dirs = true -> Fs.wellFormed (dirsOf dirs).
Proof.
  intros Hall p seg [x Hx]. unfold dirsOf in *.
  rewrite mkdirs_lookup, lookup_empty in Hx |- *.
  destruct (bool_decide_reflect (p ++ [seg] ∈ dirs)) as [Hin|]; [|discriminate].
  unfold parentsListed in Hall. rewrite forallb_forall in Hall.
  apply list_elem_of_In in Hin. specialize (Hall _ Hin).
  rewrite removelast_last in Hall.
  destruct (p ++ [seg]) eqn:E; [destruct p; discriminate E|].
  rewrite Hall. reflexivity.
Qed.

End ScriptedFacts.


(** * The operations on the scripted host *)

Section Runs.
Import Scripted.


(** What that clone leaves behind. *)
Example clone_develop_stored :
  fst (getDefaultBranch (snd (clone url (world (dirsOf emptyHome) cloneScript))))
  = Ok (Some "develop").
Proof. vm_compute. reflexivity. Qed.

(** The manager of the command line is made without a default branch: its
    static default is [main]. *)
Example manager_static_default : defaultBranch manager = "main".
Proof. reflexivity. Qed.

(** Tier (b) reads the listing as text: a branch whose name begins with
    [main] answers for [main]. *)
Example tier_b_reads_text :
  Resolved manager
    ([(setHead manager, ExecFail "error: Not a valid ref")] ++
     [(branchRemotes manager,
       ExecOk ("  origin/mainline" +:+ JS.nl +:+ "  origin/master" +:+ JS.nl))])
    "main".
Proof. apply tier_b_main; [apply setHead_fails | reflexivity]. Qed.



(** The commands of that run: the branch starts from [origin/develop]. *)
Example createBranch_from_develop :
  map fst (trace (snd (createBranch "feature" None false (world developStored branchScript))))
  = [fetchBase manager "develop"; addBranch manager "feature" "develop"]
  /\ fst (createBranch "feature" None false (world developStored branchScript)) = Ok tt.
Proof. vm_compute. split; reflexivity. Qed.

(** C4 on the worktree of [main], which exists. *)
Lemma createBranch_existing_worktree_witness :
  let w := world (dirsOf cloned) branchScript in
  snd (createBranch "main" None true w) = w /\
  trace (snd (createBranch "main" None true w)) = trace w /\
  (exists message, fst (createBranch "main" None true w) = Throw message) /\
  (Fs.existsSync (barePath (this w)) (fs w) = true ->
   createBranch "main" None true w =
   (Throw ("Failed to create branch: Error: Worktree for branch "
           +:+ "main" +:+ " already exists"), w)).
Proof.
  intros w. apply (createBranch_existing_worktree w "main" None true).
  vm_compute. reflexivity.
Defined.

(** C5 on a worktree with local changes, removed without force. *)
Lemma removeWorktree_dirty_iff_witness :
  fst (removeWorktree "main" false (world (dirsOf cloned) dirtyScript))
  = Throw (dirtyMessage manager "main").
Proof.
  apply (proj2 (proj1 (proj2
           (removeWorktree_dirty_iff (world (dirsOf cloned) dirtyScript) "main" false)))).
  split; [vm_compute; reflexivity|]. split; [reflexivity|].
  eexists. split; vm_compute; reflexivity.
Defined.

(** The same worktree removed with force, the tool failing with the same
    text: the failure is the generic one. *)
Example removeWorktree_forced_generic :
  exists cause,
    fst (removeWorktree "main" true (world (dirsOf cloned) dirtyScript))
    = Throw ("Failed to remove worktree: Error: " +:+ cause)
    /\ JS.includes dirtyMarker cause = true.
Proof. eexists. split; vm_compute; reflexivity. Qed.

(** The run in which the first creation of the worktree fails on an
    invalid reference. *)
Lemma openRemoteBranch_invalid_reference_trace :
  trace (snd (openRemoteBranch "feature" (world (dirsOf cloned) openScript))) =
  [(fetchHeads manager, ExecOk "");
   (fetchPrune manager, ExecOk "");
   (lsRemote manager, ExecOk (RemoteHeads.headLine "1a2b3c" "feature" +:+ JS.nl));
   (addTracking manager "feature", ExecFail invalidReference);
   (addExisting manager "feature", ExecOk "")].
Proof. vm_compute. reflexivity. Qed.


End Runs.


(** * Further properties of the operations *)

(** ** Files *)

Lemma writeFileSync_others (p : Path) (data : string) (f f' : FS) :
  Fs.writeFileSync p data f = Ok f' -> forall q, q <> p -> f' !! q = f !! q.
Proof.
  unfold Fs.writeFileSync. intros H q Hq.
  destruct (f !! p) as [[|d]|]; [discriminate| |];
    (destruct (f !! removelast p) as [[|d']|]; [|discriminate|discriminate]);
    injection H as <-; apply lookup_insert_ne; congruence.
Qed.

Lemma writeFileSync_keeps_some (p : Path) (data : string) (f f' : FS) (q : Path) :
  Fs.writeFileSync p data f = Ok f' -> is_Some (f !! q) -> is_Some (f' !! q).
Proof.
  intros H Hq. destruct (decide (q = p)) as [->|Hne].
  - rewrite (writeFileSync_written _ _ _ _ H). eauto.
  - rewrite (writeFileSync_others _ _ _ _ H q Hne). exact Hq.
Qed.

(** The target of a recursive [mkdir] that succeeds is there afterwards. *)
Lemma prefixes_self (p : Path) : In p (Path.prefixes p).
Proof.
  induction p as [|seg p IH]; [left; reflexivity|].
  cbn [Path.prefixes]. right. apply in_map. exact IH.
Qed.

Lemma mkdir_fold_creates (target : Path) (qs : list Path) (f f' : FS) (q : Path) :
  fold_left (Fs.mkdirStep target) qs (Ok f) = Ok f' -> In q qs -> is_Some (f' !! q).
Proof.
  revert f. induction qs as [|q0 qs IH]; intros f H Hin; [destruct Hin|].
  cbn [fold_left] in H. unfold Fs.mkdirStep at 2 in H.
  destruct Hin as [->|Hin].
  - destruct (f !! q) as [[|d]|] eqn:Hq.
    + exists Dir. exact (mkdir_fold_keeps _ _ _ _ H q Dir Hq).
    + rewrite mkdirStep_Throw in H. discriminate H.
    + exists Dir. apply (mkdir_fold_keeps _ _ _ _ H q Dir). apply lookup_insert_eq.
  - destruct (f !! q0) as [[|d]|] eqn:Hq.
    + exact (IH _ H Hin).
    + rewrite mkdirStep_Throw in H. discriminate H.
    + exact (IH _ H Hin).
Qed.

Lemma mkdirSync_recursive_creates (target : Path) (f f' : FS) :
  Fs.mkdirSync_recursive target f = Ok f' -> is_Some (f' !! target).
Proof. intros H. exact (mkdir_fold_creates _ _ _ _ _ H (prefixes_self target)). Qed.

Lemma mkdirSync_recursive_keeps_some (target : Path) (f f' : FS) (q : Path) :
  Fs.mkdirSync_recursive target f = Ok f' -> is_Some (f !! q) -> is_Some (f' !! q).
Proof.
  intros H [x Hx]. exists x. exact (mkdirSync_recursive_keeps _ _ _ H _ _ Hx).
Qed.

Section Operations.
Context `{host : Host}.

Ltac mstep :=
  unfold try_catch, mbind, M_bind, mret, M_ret, getThis, existsSync, throw;
  cbn beta iota zeta delta [fst snd negb].

Ltac unfold_method :=
  unfold clone, createBranch, listWorktrees, removeWorktree,
    removeWorktree_message, removeWorktree_try, listRemoteBranches,
    openRemoteBranch, try_catch, mbind, M_bind, mret, M_ret, getThis,
    existsSync, throw.

Ltac run_next r :=
  match goal with
  | |- context [execAsync ?c ?w0] =>
      let E := fresh "E" in
      destruct (execAsync_run c w0) as (r & ? & ? & _ & E);
      rewrite E; clear E
  end.

Ltac trace_eq :=
  cbn [trace fst snd]; rewrite <- ?app_assoc; reflexivity.

(** ** The configuration store *)

(** X1.  A configuration saved is the configuration loaded: [save] writes only
    the configuration file, over whatever file was there, and afterwards
    [load] returns the value saved and [getDefaultBranch] its default
    branch, or nothing when that is the empty string. *)
Theorem save_then_load (w w' : World) (config : RepositoryConfig.t) :
  JSON_parse (JSON_stringify config) = Some config ->
  save config w = (Ok tt, w') ->
  load w' = (Ok (Some config), w') /\
  getDefaultBranch w' =
    (Ok (if JS.truthy (RepositoryConfig.defaultBranch config)
         then Some (RepositoryConfig.defaultBranch config)
         else None), w') /\
  this w' = this w /\ remote w' = remote w /\ trace w' = trace w /\
  (forall p, p <> configPath (this w) -> fs w' !! p = fs w !! p).
Proof.
  intros Hjson Hsave. unfold save, writeFileSync, liftFs in Hsave.
  unfold mbind, M_bind, getThis in Hsave.
  destruct (Fs.writeFileSync (configPath (this w)) (JSON_stringify config) (fs w))
    as [f'|e] eqn:Ewrite; [|discriminate Hsave].
  injection Hsave as <-.
  assert (Hstored :
    storedConfig {| this := this w; fs := f'; remote := remote w; trace := trace w |}
    = Some config).
  { unfold storedConfig. cbn [this fs].
    rewrite (writeFileSync_written _ _ _ _ Ewrite). exact Hjson. }
  split; [rewrite load_reads, Hstored; reflexivity|].
  split; [rewrite getDefaultBranch_reads; unfold storedDefaultBranch;
          rewrite Hstored; reflexivity|].
  cbn [this fs remote trace]. repeat split.
  exact (writeFileSync_others _ _ _ _ Ewrite).
Qed.

(** X2.  [load] never throws and changes nothing.  It returns nothing when
    there is no configuration file, when the path is a directory, which
    cannot be read, and when the text of the file does not parse;
    otherwise the parsed value.  [getDefaultBranch] returns the default
    branch of that value, and nothing when there is no value or when its
    default branch is empty. *)
Theorem load_never_throws (w : World) :
  exists config : option RepositoryConfig.t,
    load w = (Ok config, w) /\
    (fs w !! configPath (this w) = None -> config = None) /\
    (fs w !! configPath (this w) = Some Dir -> config = None) /\
    (forall data, fs w !! configPath (this w) = Some (File data) ->
                  config = JSON_parse data) /\
    getDefaultBranch w =
      (Ok match config with
          | Some c => if JS.truthy (RepositoryConfig.defaultBranch c)
                      then Some (RepositoryConfig.defaultBranch c)
                      else None
          | None => None
          end, w).
Proof.
  exists (storedConfig w). split; [apply load_reads|].
  unfold storedConfig at 1 2 3.
  split; [intros ->; reflexivity|].
  split; [intros ->; reflexivity|].
  split; [intros data ->; reflexivity|].
  apply getDefaultBranch_reads.
Qed.

(** ** The repository must be there *)

(** X3.  Every operation but [clone] first looks for the bare repository.
    Without it the operation throws its own error and stops there: no
    command is run and the state is left as it was. *)
Theorem operations_need_repository (w : World) :
  Fs.existsSync (barePath (this w)) (fs w) = false ->
  (forall branchName baseBranch pullLatest,
      createBranch branchName baseBranch pullLatest w =
      (Throw "Failed to create branch: Error: Repository not found. Please clone first.", w)) /\
  listWorktrees w =
    (Throw "Failed to list worktrees: Error: Repository not found. Please clone first.", w) /\
  (forall branchName force,
      removeWorktree branchName force w =
      (Throw "Failed to remove worktree: Error: Repository not found.", w) /\
      removeWorktree_message branchName force w =
      (Throw "Failed to remove worktree: Error: Repository not found.", w)) /\
  listRemoteBranches w =
    (Throw "Failed to list remote branches: Error: Repository not found. Please clone first.", w) /\
  (forall branchName,
      openRemoteBranch branchName w =
      (Throw "Failed to open remote branch: Error: Repository not found. Please clone first.", w)).
Proof.
  intros Hbare. repeat split; intros; unfold_method; rewrite Hbare; cbn [negb];
    try reflexivity; destruct force; reflexivity.
Qed.

(** ** Creating a branch *)

(** The run of [createBranch] past its two checks. *)
Lemma createBranch_run
    (w : World) (branchName : string) (baseBranch : option string) (pullLatest : bool) :
  Fs.existsSync (barePath (this w)) (fs w) = true ->
  Fs.existsSync (Path.join (repositoryPath (this w)) branchName) (fs w) = false ->
  exists (pre : list (string * ExecResult)) (r1 : ExecResult)
         (rest : list (string * ExecResult)),
    (if pullLatest then exists r0, pre = [(fetchAll (this w), r0)] else pre = []) /\
    trace (snd (createBranch branchName baseBranch pullLatest w)) =
      trace w ++ pre ++
      (fetchBase (this w)
         (JS.or_default (JS.or_else baseBranch (storedDefaultBranch w))
            (defaultBranch (this w))), r1) :: rest /\
    ((exists cause,
         r1 = ExecFail cause /\ rest = [] /\
         fst (createBranch branchName baseBranch pullLatest w) =
         Throw ("Failed to create branch: " +:+ JS.Error_toString cause)) \/
     (exists out1 cause,
         r1 = ExecOk out1 /\
         rest = [(addBranch (this w) branchName
                    (JS.or_default (JS.or_else baseBranch (storedDefaultBranch w))
                       (defaultBranch (this w))), ExecFail cause)] /\
         fst (createBranch branchName baseBranch pullLatest w) =
         Throw ("Failed to create branch: " +:+ JS.Error_toString cause)) \/
     (exists out1 out2,
         r1 = ExecOk out1 /\
         rest = [(addBranch (this w) branchName
                    (JS.or_default (JS.or_else baseBranch (storedDefaultBranch w))
                       (defaultBranch (this w))), ExecOk out2)] /\
         fst (createBranch branchName baseBranch pullLatest w) = Ok tt)).
Proof.
  intros Hbare Hwt.
  set (base := JS.or_default _ _).
  unfold createBranch. mstep.
  rewrite Hbare. mstep. rewrite Hwt. mstep. rewrite getDefaultBranch_reads. mstep.
  fold base.
  destruct pullLatest; mstep.
  - run_next r0. destruct r0 as [out0|e0]; mstep.
    all: run_next r1; destruct r1 as [out1|e1]; mstep.
    all: try (run_next r2; destruct r2 as [out2|e2]; mstep).
    all: eexists [_], _, _; (split; [eexists; reflexivity|]); (split; [trace_eq|]).
    all: cbn [fst].
    all: first [ left; eexists; repeat split; reflexivity
               | right; left; do 2 eexists; repeat split; reflexivity
               | right; right; do 2 eexists; repeat split; reflexivity ].
  - run_next r1; destruct r1 as [out1|e1]; mstep.
    all: try (run_next r2; destruct r2 as [out2|e2]; mstep).
    all: exists []; eexists _, _; (split; [reflexivity|]); (split; [trace_eq|]).
    all: cbn [fst].
    all: first [ left; eexists; repeat split; reflexivity
               | right; left; do 2 eexists; repeat split; reflexivity
               | right; right; do 2 eexists; repeat split; reflexivity ].
Qed.

(** X4.  With [pullLatest] the fetch of all branches is the first command, and
    its outcome plays no part in what follows: whether it succeeds or
    fails, the base branch is fetched next, and the operation succeeds
    exactly when that fetch and the creation of the worktree both do.
    The error of a failure is the wrapped message of the command that
    failed, which is never the first fetch. *)
Theorem createBranch_fetch_failure_not_fatal
    (w : World) (branchName : string) (baseBranch : option string) :
  Fs.existsSync (barePath (this w)) (fs w) = true ->
  Fs.existsSync (Path.join (repositoryPath (this w)) branchName) (fs w) = false ->
  exists (base : string) (r0 r1 : ExecResult) (rest : list (string * ExecResult)),
    trace (snd (createBranch branchName baseBranch true w)) =
      trace w ++ (fetchAll (this w), r0) :: (fetchBase (this w) base, r1) :: rest /\
    (fst (createBranch branchName baseBranch true w) = Ok tt <->
     exists out1 out2,
       r1 = ExecOk out1 /\
       rest = [(addBranch (this w) branchName base, ExecOk out2)]) /\
    (forall message,
        fst (createBranch branchName baseBranch true w) = Throw message ->
        exists cause,
          message = "Failed to create branch: " +:+ JS.Error_toString cause /\
          (r1 = ExecFail cause /\ rest = [] \/
           exists out1,
             r1 = ExecOk out1 /\
             rest = [(addBranch (this w) branchName base, ExecFail cause)])).
Proof.
  intros Hbare Hwt.
  destruct (createBranch_run w branchName baseBranch true Hbare Hwt)
    as (pre & r1 & rest & [r0 ->] & Htrace & Hcases).
  eexists _, r0, r1, rest. split; [exact Htrace|].
  destruct Hcases as [(cause & -> & -> & Hres) | [(out1 & cause & -> & -> & Hres)
                     | (out1 & out2 & -> & -> & Hres)]]; rewrite Hres.
  - split.
    + split; [discriminate | intros (? & ? & ? & ?); discriminate].
    + intros message H. apply Throw_inj in H as <-. exists cause.
      split; [reflexivity | left; split; reflexivity].
  - split.
    + split; [discriminate | intros (? & ? & ? & ?); congruence].
    + intros message H. apply Throw_inj in H as <-. exists cause.
      split; [reflexivity | right; eexists; split; reflexivity].
  - split.
    + split; [intros _; eauto | reflexivity].
    + intros message H. discriminate H.
Qed.


(** ** A clone that fails *)

(** With both directories there, [clone] stops at its check. *)
Lemma clone_throws_when_present (w : World) (repositoryUrl : string) :
  Fs.existsSync (baseDir (this w)) (fs w) = true ->
  Fs.existsSync (repositoryPath (this w)) (fs w) = true ->
  clone repositoryUrl w =
  (Throw ("Failed to clone repository: Error: Repository directory already exists: "
          +:+ Path.render (repositoryPath (this w))), w).
Proof.
  intros Hbase Hrepo. unfold_method. rewrite Hbase. cbn [negb]. rewrite Hrepo. reflexivity.
Qed.

(** A command run by a tool that keeps a property of the file system. *)
Lemma execAsync_run_keeps (P : FS -> Prop) (command : string) (w : World) :
  (forall c f r, P f -> P (snd (fst (run c f r)))) ->
  P (fs w) ->
  exists r fs' remote',
    P fs' /\
    execAsync command w =
    (match r with ExecOk stdout => Ok stdout | ExecFail message => Throw message end,
     {| this := this w; fs := fs'; remote := remote';
        trace := trace w ++ [(command, r)] |}).
Proof.
  intros Hkeep HP. specialize (Hkeep command (fs w) (remote w) HP).
  unfold execAsync.
  destruct (run command (fs w) (remote w)) as [[r fs'] remote'].
  exists r, fs', remote'. split; [exact Hkeep|]. destruct r; reflexivity.
Qed.

Ltac run_keeping Hkeep HP r :=
  match goal with
  | |- context [execAsync ?c ?w0] =>
      let E := fresh "E" in
      let HP' := fresh "HP" in
      destruct (execAsync_run_keeps _ c w0 Hkeep HP) as (r & ? & ? & HP' & E);
      rewrite E; clear E
  end.

(** The detection of the default branch keeps what the tool keeps. *)
Lemma detectDefaultBranch_keeps (P : FS -> Prop) (w : World) :
  (forall c f r, P f -> P (snd (fst (run c f r)))) ->
  P (fs w) ->
  exists (b : string) (evs : list (string * ExecResult)) (fs' : FS) (remote' : Remote),
    detectDefaultBranch w =
    (Ok b, {| this := this w; fs := fs'; remote := remote'; trace := trace w ++ evs |}) /\
    P fs'.
Proof.
  intros Hkeep HP. unfold detectDefaultBranch. mstep.
  run_keeping Hkeep HP r0. destruct r0 as [out0|e0]; mstep.
  - run_keeping Hkeep HP0 r1. destruct r1 as [head|e1]; mstep.
    + do 4 eexists. split; [cbn [this trace fs remote]; rewrite <- ?app_assoc; reflexivity|].
      assumption.
    + run_keeping Hkeep HP1 r2. destruct r2 as [branches|e2]; mstep.
      * destruct (JS.includes "origin/main" branches);
          [|destruct (JS.includes "origin/master" branches)]; mstep;
          do 4 eexists;
          (split; [cbn [this trace fs remote]; rewrite <- ?app_assoc; reflexivity|]);
          assumption.
      * do 4 eexists. split; [cbn [this trace fs remote]; rewrite <- ?app_assoc; reflexivity|].
        assumption.
  - run_keeping Hkeep HP0 r2. destruct r2 as [branches|e2]; mstep.
    + destruct (JS.includes "origin/main" branches);
        [|destruct (JS.includes "origin/master" branches)]; mstep;
        do 4 eexists;
        (split; [cbn [this trace fs remote]; rewrite <- ?app_assoc; reflexivity|]);
        assumption.
    + do 4 eexists. split; [cbn [this trace fs remote]; rewrite <- ?app_assoc; reflexivity|].
      assumption.
Qed.

Lemma app_not_self {A : Type} (l k : list A) : k <> [] -> l ++ k <> l.
Proof.
  intros Hk H. apply (f_equal (@length A)) in H. rewrite length_app in H.
  destruct k; [contradiction | simpl in H; lia].
Qed.

(** X5.  Nothing is rolled back.  When [clone] fails after having run a
    command, the directory of the workspace that it created is still
    there, the external tool removing neither that directory nor the base
    directory; a second [clone], of whatever URL, then stops at the check
    for that directory, with the workspace-already-exists error and
    without running a command. *)
Theorem clone_failure_not_rolled_back
    (w w' : World) (repositoryUrl again : string) (message : string) :
  (forall command f r p,
      p = baseDir (this w) \/ p = repositoryPath (this w) ->
      is_Some (f !! p) -> is_Some (snd (fst (run command f r)) !! p)) ->
  clone repositoryUrl w = (Throw message, w') ->
  trace w' <> trace w ->
  Fs.existsSync (repositoryPath (this w)) (fs w') = true /\
  clone again w' =
  (Throw ("Failed to clone repository: Error: Repository directory already exists: "
          +:+ Path.render (repositoryPath (this w))), w').
Proof.
  intros Hrun Hclone Htrace.
  set (P := fun f : FS =>
              is_Some (f !! baseDir (this w)) /\ is_Some (f !! repositoryPath (this w))).
  assert (Hkeep : forall c f r, P f -> P (snd (fst (run c f r)))).
  { intros c f r [H1 H2]. split; apply Hrun; auto. }
  assert (Hdone : forall W : World,
             P (fs W) ->
             repositoryPath (this W) = repositoryPath (this w) ->
             baseDir (this W) = baseDir (this w) ->
             Fs.existsSync (repositoryPath (this w)) (fs W) = true /\
             clone again W =
             (Throw ("Failed to clone repository: Error: Repository directory already exists: "
                     +:+ Path.render (repositoryPath (this w))), W)).
  { intros W [H1 H2] Erepo Ebase. apply existsSync_true in H1, H2.
    split; [exact H2|]. rewrite <- Erepo.
    apply clone_throws_when_present; [rewrite Ebase | rewrite Erepo]; assumption. }
  revert Hclone. unfold clone. mstep.
  set (w1run := (if negb (Fs.existsSync (baseDir (this w)) (fs w))
                 then mkdirSync_recursive (baseDir (this w))
                 else fun w0 => (Ok tt, w0)) w).
  assert (H1 : (exists e, w1run = (Throw e, w)) \/
               (exists f1, w1run = (Ok tt, {| this := this w; fs := f1;
                                              remote := remote w; trace := trace w |}) /\
                           is_Some (f1 !! baseDir (this w)))).
  { subst w1run. destruct (Fs.existsSync (baseDir (this w)) (fs w)) eqn:Hb; cbn [negb].
    - right. exists (fs w). split; [destruct w; reflexivity|].
      apply existsSync_true, Hb.
    - unfold mkdirSync_recursive, liftFs.
      destruct (Fs.mkdirSync_recursive (baseDir (this w)) (fs w)) as [f1|e] eqn:Emk; eauto.
      right. exists f1. split; [reflexivity|].
      exact (mkdirSync_recursive_creates _ _ _ Emk). }
  fold w1run. clearbody w1run.
  destruct H1 as [[e ->] | (f1 & -> & Hbase1)].
  { intros H. injection H as _ <-. contradiction. }
  mstep. cbn [this fs].
  destruct (Fs.existsSync (repositoryPath (this w)) f1); mstep.
  { intros H. injection H as _ <-. contradiction. }
  unfold mkdirSync_recursive at 1. unfold liftFs at 1. cbn [this fs remote trace].
  destruct (Fs.mkdirSync_recursive (repositoryPath (this w)) f1) as [f2|e] eqn:Emk2; mstep.
  2:{ intros H. injection H as _ <-. contradiction. }
  assert (HP2 : P f2).
  { split; [exact (mkdirSync_recursive_keeps_some _ _ _ _ Emk2 Hbase1)
           | exact (mkdirSync_recursive_creates _ _ _ Emk2)]. }
  clear Htrace.
  match goal with
  | |- context [execAsync ?c ?w0] =>
      destruct (execAsync_run_keeps P c w0 Hkeep HP2) as (r0 & f3 & rem3 & HP3 & E);
      rewrite E; clear E
  end.
  cbn [this fs remote trace]. destruct r0 as [out|e]; mstep.
  2:{ intros H. injection H as _ <-. apply Hdone; [exact HP3 | reflexivity ..]. }
  match goal with
  | |- context [detectDefaultBranch ?w3] =>
      destruct (detectDefaultBranch_keeps P w3 Hkeep HP3)
        as (b & evs & f4 & rem4 & Edet & HP4);
      rewrite Edet; clear Edet
  end.
  cbn [this fs remote trace]. mstep.
  unfold set_defaultBranch, save, writeFileSync, liftFs. mstep.
  cbn [this fs remote trace configPath baseDir repositoryName repositoryPath barePath defaultBranch].
  destruct (Fs.writeFileSync (configPath (this w))
              (JSON_stringify (RepositoryConfig.make b repositoryUrl)) f4)
    as [f5|e] eqn:Ewrite; mstep.
  2:{ intros H. injection H as _ <-. apply Hdone; [exact HP4 | reflexivity ..]. }
  assert (HP5 : P f5).
  { destruct HP4 as [Ha Hb]. split; eapply writeFileSync_keeps_some; eauto. }
  match goal with
  | |- context [execAsync ?c ?w0] =>
      destruct (execAsync_run_keeps P c w0 Hkeep HP5) as (r6 & f6 & rem6 & HP6 & E);
      rewrite E; clear E
  end.
  cbn [this fs remote trace]. destruct r6 as [out'|e]; mstep; [discriminate|].
  intros H. injection H as _ <-. apply Hdone; [exact HP6 | reflexivity ..].
Qed.


(** ** A clone followed by a new branch *)

(** What a successful [clone] leaves: the manager holds the resolved
    branch, the worktree of that branch is the last command run, and the
    configuration file holds the branch with the URL. *)
Lemma clone_success_state (w w' : World) (repositoryUrl : string) :
  (forall command f r data,
      f !! configPath (this w) = Some (File data) ->
      snd (fst (run command f r)) !! configPath (this w) = Some (File data)) ->
  clone repositoryUrl w = (Ok tt, w') ->
  exists (b : string) (pre : list (string * ExecResult)) (out' : string),
    this w' = this (snd (set_defaultBranch b w)) /\
    trace w' = pre ++ [(addDefault (this w) b, ExecOk out')] /\
    fs w' !! configPath (this w) =
      Some (File (JSON_stringify (RepositoryConfig.make b repositoryUrl))).
Proof.
  intros Hrun. unfold clone. mstep.
  set (w1run := (if negb (Fs.existsSync (baseDir (this w)) (fs w))
                 then mkdirSync_recursive (baseDir (this w))
                 else fun w0 => (Ok tt, w0)) w).
  assert (H1 : (exists e, w1run = (Throw e, w)) \/
               (exists f1, w1run = (Ok tt, {| this := this w; fs := f1;
                                              remote := remote w; trace := trace w |}))).
  { subst w1run. destruct (Fs.existsSync (baseDir (this w)) (fs w)); cbn [negb].
    - right. exists (fs w). destruct w; reflexivity.
    - unfold mkdirSync_recursive, liftFs.
      destruct (Fs.mkdirSync_recursive (baseDir (this w)) (fs w)) as [f1|e]; eauto. }
  fold w1run. clearbody w1run.
  destruct H1 as [[e ->] | [f1 ->]]; [discriminate|]. mstep. cbn [this fs].
  destruct (Fs.existsSync (repositoryPath (this w)) f1); mstep; [discriminate|].
  unfold mkdirSync_recursive at 1. unfold liftFs at 1. cbn [this fs remote trace].
  destruct (Fs.mkdirSync_recursive (repositoryPath (this w)) f1) as [f2|e];
    mstep; [|discriminate].
  run_next r0. cbn [this fs remote trace]. destruct r0 as [out|e]; mstep; [|discriminate].
  match goal with
  | |- context [detectDefaultBranch ?w3] =>
      destruct (detectDefaultBranch_resolved w3) as (b & evs & f4 & rem4 & Edet & _);
      rewrite Edet; clear Edet
  end.
  cbn [this fs remote trace]. mstep.
  unfold set_defaultBranch, save, writeFileSync, liftFs. mstep.
  cbn [this fs remote trace configPath baseDir repositoryName repositoryPath barePath defaultBranch].
  destruct (Fs.writeFileSync (configPath (this w))
              (JSON_stringify (RepositoryConfig.make b repositoryUrl)) f4)
    as [f5|e] eqn:Ewrite; mstep; [|discriminate].
  apply writeFileSync_written in Ewrite.
  match goal with
  | |- context [execAsync ?c ?w0] =>
      destruct (execAsync_run_keeps
                  (fun f => f !! configPath (this w) =
                            Some (File (JSON_stringify
                                          (RepositoryConfig.make b repositoryUrl))))
                  c w0 (fun c' f r => Hrun c' f r _) Ewrite)
        as (r6 & f6 & rem6 & Hfile & E6);
      rewrite E6; clear E6
  end.
  cbn [this fs remote trace]. destruct r6 as [out'|e]; mstep; [|discriminate].
  intros Hw'. injection Hw' as <-.
  exists b. eexists. exists out'. cbn [this fs trace snd set_defaultBranch].
  split; [reflexivity|]. split; [reflexivity | exact Hfile].
Qed.

(** X6.  A branch created right after a clone, without an explicit base,
    starts from the branch that the clone resolved, the one whose
    worktree the clone created: that is the branch fetched and the branch
    the new worktree is made from.  The JSON functions read back what
    they write, and the external tool leaves the configuration file
    alone. *)
Theorem clone_then_createBranch
    (w w1 : World) (repositoryUrl branchName : string) (pullLatest : bool) :
  (forall config, JSON_parse (JSON_stringify config) = Some config) ->
  (forall command f r data,
      f !! configPath (this w) = Some (File data) ->
      snd (fst (run command f r)) !! configPath (this w) = Some (File data)) ->
  clone repositoryUrl w = (Ok tt, w1) ->
  Fs.existsSync (barePath (this w1)) (fs w1) = true ->
  Fs.existsSync (Path.join (repositoryPath (this w1)) branchName) (fs w1) = false ->
  exists (b out : string) (pre : list (string * ExecResult)) (r1 : ExecResult)
         (rest : list (string * ExecResult)),
    last (trace w1) = Some (addDefault (this w) b, ExecOk out) /\
    trace (snd (createBranch branchName None pullLatest w1)) =
      trace w1 ++ pre ++ (fetchBase (this w) b, r1) :: rest /\
    (if pullLatest then exists r0, pre = [(fetchAll (this w), r0)] else pre = []) /\
    (rest = [] \/ exists r2, rest = [(addBranch (this w) branchName b, r2)]) /\
    (fst (createBranch branchName None pullLatest w1) = Ok tt ->
     exists out2, rest = [(addBranch (this w) branchName b, ExecOk out2)]).
Proof.
  intros Hjson Hrun Hclone Hbare Hwt.
  destruct (clone_success_state w w1 repositoryUrl Hrun Hclone)
    as (b & tr & out & Hthis & Htrace & Hfile).
  destruct (createBranch_run w1 branchName None pullLatest Hbare Hwt)
    as (pre & r1 & rest & Hpre & Hrun1 & Hcases).
  assert (Hbase : JS.or_default (JS.or_else None (storedDefaultBranch w1))
                    (defaultBranch (this w1)) = b).
  { unfold storedDefaultBranch, storedConfig. rewrite Hthis.
    cbn [set_defaultBranch snd this configPath defaultBranch].
    rewrite Hfile, Hjson. cbn [RepositoryConfig.defaultBranch].
    destruct b; reflexivity. }
  rewrite Hbase in Hrun1, Hcases.
  assert (Hm : fetchAll (this w1) = fetchAll (this w) /\
               fetchBase (this w1) b = fetchBase (this w) b /\
               addBranch (this w1) branchName b = addBranch (this w) branchName b).
  { rewrite Hthis. repeat split. }
  destruct Hm as (Hm0 & Hm1 & Hm2). rewrite Hm0 in Hpre. rewrite Hm1 in Hrun1.
  rewrite Hm2 in Hcases.
  exists b, out, pre, r1, rest.
  split; [rewrite Htrace; apply last_snoc|].
  split; [exact Hrun1|]. split; [exact Hpre|].
  destruct Hcases as [(cause & -> & -> & Hres) | [(out1 & cause & -> & -> & Hres)
                     | (out1 & out2 & -> & -> & Hres)]]; rewrite Hres.
  - split; [left; reflexivity | discriminate].
  - split; [right; eexists; reflexivity | discriminate].
  - split; [right; eexists; reflexivity | intros _; eexists; reflexivity].
Qed.

(** ** Opening a remote branch *)

Lemma listing_commands_distinct (m : WorktreeManager) :
  lsRemote m <> fetchHeads m /\ lsRemote m <> fetchPrune m /\ fetchHeads m <> fetchPrune m.
Proof.
  unfold fetchHeads, fetchPrune, lsRemote.
  repeat split; intros H; apply (inj (String.app (inBare m))) in H; discriminate H.
Qed.

(** X7.  [openRemoteBranch] does nothing, and succeeds, when the directory of
    the worktree is there already.  Otherwise a worktree is created only
    for a branch that the remote lists: a creation command is run only
    after the heads of the remote have been listed and the branch is among
    the names read from that listing; when the branch is not among them the
    operation throws the remote-branch-not-found error and runs neither
    creation command. *)
Theorem openRemoteBranch_only_listed_branch (w : World) (branchName : string) :
  (Fs.existsSync (barePath (this w)) (fs w) = true ->
   Fs.existsSync (Path.join (repositoryPath (this w)) branchName) (fs w) = true ->
   openRemoteBranch branchName w = (Ok tt, w)) /\
  exists evs : list (string * ExecResult),
    trace (snd (openRemoteBranch branchName w)) = trace w ++ evs /\
    (In (addTracking (this w) branchName) (map fst evs) \/
     In (addExisting (this w) branchName) (map fst evs) ->
     exists out,
       In (lsRemote (this w), ExecOk out) evs /\
       branchName ∈ RemoteHeads.parseRemoteHeads out) /\
    (forall out,
        In (lsRemote (this w), ExecOk out) evs ->
        branchName ∉ RemoteHeads.parseRemoteHeads out ->
        fst (openRemoteBranch branchName w) =
        Throw ("Failed to open remote branch: Error: Remote branch '" +:+ branchName
               +:+ "' not found. Please check the branch name.") /\
        ~ In (addTracking (this w) branchName) (map fst evs) /\
        ~ In (addExisting (this w) branchName) (map fst evs)).
Proof.
  split.
  { intros Hbare Hwt. unfold_method. rewrite Hbare. cbn [negb]. rewrite Hwt. reflexivity. }
  pose proof (addTracking_not_listing (this w) branchName) as (D1 & D2 & D3).
  pose proof (addExisting_not_listing (this w) branchName) as (D4 & D5 & D6).
  pose proof (listing_commands_distinct (this w)) as (D7 & D8 & _).
  unfold openRemoteBranch. mstep.
  destruct (Fs.existsSync (barePath (this w)) (fs w)); mstep.
  2:{ exists []. split; [cbn [trace]; rewrite app_nil_r; reflexivity|].
      cbn [In map]. split; [intros [[]|[]] | intros ? []]. }
  destruct (Fs.existsSync (Path.join (repositoryPath (this w)) branchName) (fs w)); mstep.
  { exists []. split; [cbn [trace]; rewrite app_nil_r; reflexivity|].
    cbn [In map]. split; [intros [[]|[]] | intros ? []]. }
  run_next r0. destruct r0 as [out0|e0]; mstep.
  2:{ eexists. split; [trace_eq|]. cbn [In map fst app].
      split; [intuition congruence | intros; intuition congruence]. }
  unfold listRemoteBranches. mstep. cbn [this fs].
  match goal with
  | |- context [Fs.existsSync (barePath (this w)) ?f] =>
      destruct (Fs.existsSync (barePath (this w)) f)
  end; mstep.
  2:{ eexists. split; [trace_eq|]. cbn [In map fst app].
      split; [intuition congruence | intros; intuition congruence]. }
  run_next r1. destruct r1 as [out1|e1]; mstep.
  2:{ eexists. split; [trace_eq|]. cbn [In map fst app].
      split; [intuition congruence | intros; intuition congruence]. }
  run_next r2. destruct r2 as [out2|e2]; mstep.
  2:{ eexists. split; [trace_eq|]. cbn [In map fst app].
      split; [intuition congruence | intros; intuition congruence]. }
  destruct (bool_decide_reflect (branchName ∈ RemoteHeads.parseRemoteHeads out2))
    as [Hin|Hout]; mstep.
  2:{ eexists. split; [trace_eq|]. cbn [In map fst app].
      split; [intuition congruence|].
      intros out _ _. split; [reflexivity|]. intuition congruence. }
  assert (Hlisted : forall out,
             (lsRemote (this w), ExecOk out) = (lsRemote (this w), ExecOk out2) ->
             branchName ∈ RemoteHeads.parseRemoteHeads out).
  { intros out E. injection E as ->. exact Hin. }
  run_next r3. destruct r3 as [out3|e3]; mstep.
  { eexists. split; [trace_eq|]. cbn [In map fst app].
    split.
    - intros _. exists out2. split; [do 2 right; left; reflexivity | exact Hin].
    - intros out Hl Hn. exfalso.
      destruct Hl as [E|[E|[E|[E|[]]]]];
        first [exact (Hn (Hlisted out (eq_sym E))) | injection E; congruence]. }
  run_next r4. destruct r4 as [out4|e4]; mstep.
  all: eexists; (split; [trace_eq|]); cbn [In map fst app].
  all: split;
    [ intros _; exists out2; split; [do 2 right; left; reflexivity | exact Hin]
    | intros out Hl Hn; exfalso;
      destruct Hl as [E|[E|[E|[E|[E|[]]]]]];
      first [exact (Hn (Hlisted out (eq_sym E))) | injection E; congruence] ].
Qed.

(** X8.  The errors of [openRemoteBranch], with the commands run before each.
    A failure of the listing is wrapped twice, by the listing and by the
    operation.  When the first creation of the worktree fails, its message
    is dropped: the error, if there is one, is the failure of the second
    creation. *)
Theorem openRemoteBranch_errors (w : World) (branchName message : string) :
  fst (openRemoteBranch branchName w) = Throw message ->
  exists (cause : string) (evs : list (string * ExecResult)),
    trace (snd (openRemoteBranch branchName w)) = trace w ++ evs /\
    message = "Failed to open remote branch: " +:+ JS.Error_toString cause /\
    ((cause = "Repository not found. Please clone first." /\ evs = []) \/
     evs = [(fetchHeads (this w), ExecFail cause)] \/
     (exists c out0,
         cause = "Failed to list remote branches: " +:+ JS.Error_toString c /\
         ((c = "Repository not found. Please clone first." /\
           evs = [(fetchHeads (this w), ExecOk out0)]) \/
          evs = [(fetchHeads (this w), ExecOk out0); (fetchPrune (this w), ExecFail c)] \/
          exists out1,
            evs = [(fetchHeads (this w), ExecOk out0); (fetchPrune (this w), ExecOk out1);
                   (lsRemote (this w), ExecFail c)])) \/
     (exists out0 out1 out2,
         cause = "Remote branch '" +:+ branchName
                 +:+ "' not found. Please check the branch name." /\
         (branchName ∉ RemoteHeads.parseRemoteHeads out2) /\
         evs = [(fetchHeads (this w), ExecOk out0); (fetchPrune (this w), ExecOk out1);
                (lsRemote (this w), ExecOk out2)]) \/
     (exists out0 out1 out2 first,
         branchName ∈ RemoteHeads.parseRemoteHeads out2 /\
         evs = [(fetchHeads (this w), ExecOk out0); (fetchPrune (this w), ExecOk out1);
                (lsRemote (this w), ExecOk out2);
                (addTracking (this w) branchName, ExecFail first);
                (addExisting (this w) branchName, ExecFail cause)])).
Proof.
  unfold openRemoteBranch. mstep.
  destruct (Fs.existsSync (barePath (this w)) (fs w)); mstep.
  2:{ intros H. apply Throw_inj in H as <-. eexists _, [].
      split; [cbn [trace]; rewrite app_nil_r; reflexivity|].
      split; [reflexivity|]. left. split; reflexivity. }
  destruct (Fs.existsSync (Path.join (repositoryPath (this w)) branchName) (fs w)); mstep.
  { discriminate. }
  run_next r0. destruct r0 as [out0|e0]; mstep.
  2:{ intros H. apply Throw_inj in H as <-. eexists _, _. split; [trace_eq|].
      split; [reflexivity|]. right. left. reflexivity. }
  unfold listRemoteBranches. mstep. cbn [this fs].
  match goal with
  | |- context [Fs.existsSync (barePath (this w)) ?f] =>
      destruct (Fs.existsSync (barePath (this w)) f)
  end; mstep.
  2:{ intros H. apply Throw_inj in H as <-. eexists _, _. split; [trace_eq|].
      split; [reflexivity|]. do 2 right. left. eexists _, out0.
      split; [reflexivity|]. left. split; reflexivity. }
  run_next r1. destruct r1 as [out1|e1]; mstep.
  2:{ intros H. apply Throw_inj in H as <-. eexists _, _. split; [trace_eq|].
      split; [reflexivity|]. do 2 right. left. eexists _, out0.
      split; [reflexivity|]. right. left. reflexivity. }
  run_next r2. destruct r2 as [out2|e2]; mstep.
  2:{ intros H. apply Throw_inj in H as <-. eexists _, _. split; [trace_eq|].
      split; [reflexivity|]. do 2 right. left. eexists _, out0.
      split; [reflexivity|]. right. right. exists out1. reflexivity. }
  destruct (bool_decide_reflect (branchName ∈ RemoteHeads.parseRemoteHeads out2))
    as [Hin|Hout]; mstep.
  2:{ intros H. apply Throw_inj in H as <-. eexists _, _. split; [trace_eq|].
      split; [reflexivity|]. do 3 right. left. exists out0, out1, out2.
      split; [reflexivity|]. split; [exact Hout | reflexivity]. }
  run_next r3. destruct r3 as [out3|e3]; mstep; [discriminate|].
  run_next r4. destruct r4 as [out4|e4]; mstep; [discriminate|].
  intros H. apply Throw_inj in H as <-. eexists _, _. split; [trace_eq|].
  split; [reflexivity|]. do 4 right. exists out0, out1, out2, e3.
  split; [exact Hin | reflexivity].
Qed.

End Operations.


(** * Further properties of the parsers *)

Section UrlShape.
Import Url.

(** What the lazy group takes is the text, or the text without a final
    [.git]. *)
Lemma lazy_tail_shape (s t : string) :
  lazy_tail s = Some t -> s = t \/ s = t +:+ ".git".
Proof.
  revert t. induction s as [|c s IH]; intros t H.
  - injection H as <-. left. reflexivity.
  - unfold lazy_tail in H; fold lazy_tail in H.
    destruct (String.eqb_spec (String c s) ".git") as [E|_].
    + injection H as <-. right. exact E.
    + destruct (Ascii.eqb c slash); [discriminate|].
      destruct (lazy_tail s) as [t'|] eqn:Et; [|discriminate].
      injection H as <-.
      destruct (IH t' eq_refl) as [-> | ->]; [left | right]; reflexivity.
Qed.

Lemma match_after_slash_shape (seg name : string) :
  match_after_slash seg = Some name ->
  name <> "" /\ (seg = name \/ seg = name +:+ ".git").
Proof.
  destruct seg as [|c s]; [discriminate|]. cbn [match_after_slash].
  destruct (Ascii.eqb c slash); [discriminate|].
  destruct (lazy_tail s) as [t|] eqn:Et; [|discriminate].
  intros H. injection H as <-. split; [discriminate|].
  destruct (lazy_tail_shape s t Et) as [-> | ->]; [left | right]; reflexivity.
Qed.

(** X9.  The name that [parseRepoUrl] returns is never empty and holds no
    slash, and the URL ends with a slash followed by that name, or by that
    name and [.git].  Unless the name is one of the dot names, the manager
    that the command line and the wizard make for it keeps the workspace
    right under the [repositories] directory of the current directory,
    with the bare repository and the configuration file right under the
    workspace, and its static default branch is [main]. *)
Theorem parseRepoUrl_names_a_directory (url name : string) (cwd : Path) :
  parseRepoUrl url = Ok name ->
  name <> "" /\ noSlash name = true /\
  (exists pre, url = pre +:+ "/" +:+ name \/ url = pre +:+ "/" +:+ name +:+ ".git") /\
  (name <> "." -> name <> ".." ->
   repositoryPath (Cli.getManager cwd name) = cwd ++ ["repositories"; name] /\
   barePath (Cli.getManager cwd name) = cwd ++ ["repositories"; name; ".bare"] /\
   configPath (Cli.getManager cwd name) = cwd ++ ["repositories"; name; ".worktree.json"] /\
   defaultBranch (Cli.getManager cwd name) = "main").
Proof.
  intros H.
  assert (Hshape : name <> "" /\ noSlash name = true /\
            exists pre, url = pre +:+ "/" +:+ name \/ url = pre +:+ "/" +:+ name +:+ ".git").
  { destruct (last_slash_split url) as [Hn | (pre & seg & -> & Hseg)].
    - unfold parseRepoUrl in H. rewrite (regex_match_noSlash url Hn) in H. discriminate H.
    - rewrite (parseRepoUrl_at_last_slash pre seg Hseg) in H.
      destruct (match_after_slash seg) as [n|] eqn:Em; [|discriminate H].
      injection H as ->.
      destruct (match_after_slash_shape seg name Em) as [Hne Hs].
      split; [exact Hne|]. split.
      + destruct Hs as [-> | ->]; [exact Hseg|].
        rewrite noSlash_app in Hseg. apply andb_prop in Hseg as [Hseg _]. exact Hseg.
      + exists pre. destruct Hs as [-> | ->]; [left | right]; reflexivity. }
  destruct Hshape as (Hne & Hns & Hurl).
  split; [exact Hne|]. split; [exact Hns|]. split; [exact Hurl|].
  intros Hdot Hdots.
  unfold Cli.getManager, new_WorktreeManager.
  cbn [repositoryPath barePath configPath defaultBranch JS.or_default].
  rewrite (join_plain cwd "repositories") by (reflexivity || discriminate).
  rewrite (join_plain _ name Hns Hne Hdot Hdots).
  rewrite !join_plain by (reflexivity || discriminate).
  rewrite <- !app_assoc. repeat split.
Qed.

End UrlShape.

Section RemoteHeadsMore.
Import RemoteHeads JSLib.

(** ** Lines that end in a carriage return *)

Lemma allDot_CR (s : string) : JS.allDot (s +:+ CRs) = false.
Proof.
  induction s as [|c s IH]; [reflexivity|].
  rewrite app_cons_s. cbn [JS.allDot]. rewrite IH. apply andb_false_r.
Qed.

Lemma substring_from_nil (n : nat) : JS.substring_from n "" = "".
Proof. destruct n; reflexivity. Qed.

(** What is left of such a line from any index on is empty or ends in
    the carriage return as well. *)
Lemma substring_from_CR (n : nat) (s : string) :
  JS.truthy (JS.substring_from n (s +:+ CRs))
  && JS.allDot (JS.substring_from n (s +:+ CRs)) = false.
Proof.
  revert s. induction n as [|n IH]; intros s.
  - cbn [JS.substring_from]. rewrite allDot_CR. apply andb_false_r.
  - destruct s as [|c s].
    + change ("" +:+ CRs) with (String JS.CR ""). cbn [JS.substring_from].
      rewrite substring_from_nil. reflexivity.
    + rewrite app_cons_s. cbn [JS.substring_from]. apply IH.
Qed.

(** The pattern ends at the end of the line and its group takes no line
    terminator: on a line that ends in a carriage return nothing
    matches. *)
Lemma matchHead_CR (s : string) : matchHead (s +:+ CRs) = None.
Proof.
  induction s as [|c s IH].
  - reflexivity.
  - rewrite app_cons_s. unfold matchHead; fold matchHead.
    rewrite <- app_cons_s. rewrite substring_from_CR.
    destruct (JS.startsWith "refs/heads/" (String c s +:+ CRs)); exact IH.
Qed.

Lemma omap_all_None {A B : Type} (f : A -> option B) (l : list A) :
  Forall (fun x => f x = None) l -> omap f l = [].
Proof.
  induction 1 as [|x l Hx _ IH]; [reflexivity|].
  cbn [omap list_omap]. rewrite Hx. exact IH.
Qed.

(** X10.  A listing whose lines all end in a carriage return, as the lines of a
    text with CR LF line ends do, gives no branch at all. *)
Theorem parseRemoteHeads_CRLF_drops_all (stdout : string) :
  Forall (fun line => line = "" \/ exists s, line = s +:+ CRs)
         (JS.split JS.LF stdout) ->
  parseRemoteHeads stdout = [].
Proof.
  intros Hlines. unfold parseRemoteHeads.
  rewrite omap_all_None; [reflexivity|].
  apply Forall_forall. intros line Hin.
  apply list_elem_of_filter in Hin as [_ Hin].
  rewrite Forall_forall in Hlines.
  destruct (Hlines line Hin) as [-> | [s ->]]; [reflexivity | apply matchHead_CR].
Qed.

(** ** Listings put together *)

Lemma split_app_nl (a b : string) :
  JS.split JS.LF (a +:+ JS.nl +:+ b) = JS.split JS.LF a ++ JS.split JS.LF b.
Proof.
  induction a as [|c a IH].
  - reflexivity.
  - rewrite app_cons_s. cbn [JS.split]. rewrite IH.
    destruct (Ascii.eqb c JS.LF); [reflexivity|].
    destruct (JS.split JS.LF a) as [|l ls] eqn:E; [|reflexivity].
    destruct a as [|d a']; [discriminate E|].
    cbn [JS.split] in E. destruct (Ascii.eqb d JS.LF); [discriminate E|].
    destruct (JS.split JS.LF a'); discriminate E.
Qed.

(** A sorted list without duplicates is determined by its elements. *)
Lemma parseRemoteHeads_canonical (out1 out2 : string) :
  (forall x, x ∈ parseRemoteHeads out1 <-> x ∈ parseRemoteHeads out2) ->
  parseRemoteHeads out1 = parseRemoteHeads out2.
Proof.
  intros H. apply (Sorted_unique String.le).
  - apply sort_Sorted.
  - apply sort_Sorted.
  - apply NoDup_Permutation.
    + unfold parseRemoteHeads. rewrite sort_Permutation. apply unique_NoDup.
    + unfold parseRemoteHeads. rewrite sort_Permutation. apply unique_NoDup.
    + exact H.
Qed.

(** X11.  The names read from two listings put one after the other are the
    names read from either.  So the result does not depend on which comes
    first, and a listing repeated adds nothing: the result is that of the
    listing alone. *)
Theorem parseRemoteHeads_union :
  (forall a b x : string,
      x ∈ parseRemoteHeads (a +:+ JS.nl +:+ b) <->
      x ∈ parseRemoteHeads a \/ x ∈ parseRemoteHeads b) /\
  (forall a b : string,
      parseRemoteHeads (a +:+ JS.nl +:+ b) = parseRemoteHeads (b +:+ JS.nl +:+ a)) /\
  (forall a : string,
      parseRemoteHeads (a +:+ JS.nl +:+ a) = parseRemoteHeads a).
Proof.
  assert (Hunion : forall a b x : string,
      x ∈ parseRemoteHeads (a +:+ JS.nl +:+ b) <->
      x ∈ parseRemoteHeads a \/ x ∈ parseRemoteHeads b).
  { intros a b x. rewrite !parseRemoteHeads_elem, split_app_nl. split.
    - intros (line & Hin & Ht & Hm). apply elem_of_app in Hin as [Hin|Hin];
        [left | right]; exists line; auto.
    - intros [(line & Hin & Ht & Hm) | (line & Hin & Ht & Hm)]; exists line;
        (split; [apply elem_of_app; auto | auto]). }
  split; [exact Hunion|]. split.
  - intros a b. apply parseRemoteHeads_canonical. intros x.
    rewrite !Hunion. tauto.
  - intros a. apply parseRemoteHeads_canonical. intros x.
    rewrite Hunion. tauto.
Qed.

End RemoteHeadsMore.


(** * The prompts of the menu helper *)

Section MenuFacts.
Import Menu.

(** A number that passes the two tests of [showMenu] indexes an option. *)
Lemma atPrevious_in_range {A : Type} (array : list A) (n : JSLib.Number) :
  JSLib.geOne n && JSLib.leLength n (length array) = true ->
  exists x, JSLib.atPrevious array n = Some x /\ x ∈ array.
Proof.
  destruct n as [|[] [|k]]; cbn [JSLib.geOne JSLib.leLength andb]; try discriminate.
  intros H. apply Nat.leb_le in H.
  destruct (lookup_lt_is_Some_2 array k) as [x Hx]; [lia|].
  exists x. split; [exact Hx|]. exact (list_elem_of_lookup_2 _ _ _ Hx).
Qed.

(** What [showMenu] is fulfilled with. *)
Lemma showMenu_fulfilled (title : string) (options : list MenuOption)
    (input rest : list string) (v : string) :
  showMenu title options input = Fulfilled v rest ->
  (v = "CANCEL" \/ exists option, option ∈ options /\ v = value option) /\
  exists read, read <> [] /\ input = read ++ rest.
Proof.
  induction input as [|answer input IH]; [discriminate|].
  cbn [showMenu].
  destruct (JSLib.isZero (JSLib.parseInt (JS.trim answer))).
  { intros H. injection H as <- <-. split; [left; reflexivity|].
    exists [answer]. split; [discriminate | reflexivity]. }
  destruct (JSLib.geOne (JSLib.parseInt (JS.trim answer))
            && JSLib.leLength (JSLib.parseInt (JS.trim answer)) (length options)) eqn:Hr.
  { destruct (atPrevious_in_range options _ Hr) as (o & -> & Ho).
    intros H. injection H as <- <-.
    split; [right; exists o; split; [exact Ho | reflexivity]|].
    exists [answer]. split; [discriminate | reflexivity]. }
  intros H. destruct (IH H) as [Hv (read & _ & ->)]. split; [exact Hv|].
  exists (answer :: read). split; [discriminate | reflexivity].
Qed.

(** X12.  [showMenu] gives back the cancel value or the value of one of the
    options it was given, and nothing else, having read at least one line;
    it never rejects; and it stays unsettled only when the input ends
    after answers that were all asked again for. *)
Theorem showMenu_offers (title : string) (options : list MenuOption) (input : list string) :
  match showMenu title options input with
  | Fulfilled v rest =>
      (v = "CANCEL" \/ exists option, option ∈ options /\ v = value option) /\
      exists read, read <> [] /\ input = read ++ rest
  | Rejected _ _ => False
  | Pending => Forall (notAChoice options) input
  end.
Proof.
  induction input as [|answer rest IH]; [constructor|].
  cbn [showMenu].
  destruct (JSLib.isZero (JSLib.parseInt (JS.trim answer))) eqn:Hz.
  { split; [left; reflexivity|]. exists [answer]. split; [discriminate | reflexivity]. }
  destruct (JSLib.geOne (JSLib.parseInt (JS.trim answer))
            && JSLib.leLength (JSLib.parseInt (JS.trim answer)) (length options)) eqn:Hr.
  { destruct (atPrevious_in_range options _ Hr) as (o & -> & Ho).
    split; [right; exists o; split; [exact Ho | reflexivity]|].
    exists [answer]. split; [discriminate | reflexivity]. }
  destruct (showMenu title options rest) as [v rest'| |].
  - destruct IH as [Hv (read & Hread & ->)]. split; [exact Hv|].
    exists (answer :: read). split; [discriminate | reflexivity].
  - exact IH.
  - constructor; [split; assumption | exact IH].
Qed.

(** ** Directory listings *)

Lemma childName_spec (p q : Path) (name : string) :
  childName p q = Some name <-> q = p ++ [name].
Proof.
  unfold childName. split.
  - destruct (last q) as [x|] eqn:Hl; [|discriminate].
    apply last_Some in Hl as [l' ->]. rewrite removelast_last.
    case_bool_decide as Hp; [|discriminate]. intros H. injection H as <-.
    subst. reflexivity.
  - intros ->. rewrite last_snoc, removelast_last.
    rewrite bool_decide_eq_true_2 by reflexivity. reflexivity.
Qed.

(** The entries that [readdirSync] lists are the entries of the file
    system right under the directory. *)
Lemma readdirSync_elem (p : Path) (fs : FS) (dirents : list (string * Node))
    (name : string) (node : Node) :
  readdirSync p fs = Ok dirents ->
  (name, node) ∈ dirents <-> fs !! (p ++ [name]) = Some node.
Proof.
  unfold readdirSync. destruct (fs !! p) as [[|d]|]; try discriminate.
  intros H. injection H as <-. rewrite list_elem_of_omap. split.
  - intros ([q n] & Hin & Hf). cbn [fst snd] in Hf.
    destruct (childName p q) as [x|] eqn:Hc; [|discriminate].
    cbn in Hf. injection Hf as -> ->.
    apply childName_spec in Hc as ->.
    apply elem_of_map_to_list in Hin. exact Hin.
  - intros Hlookup. exists (p ++ [name], node). split.
    + apply elem_of_map_to_list. exact Hlookup.
    + cbn [fst snd]. rewrite (proj2 (childName_spec p _ name) eq_refl). reflexivity.
Qed.

(** The names offered by a selection, with the test they passed. *)
Lemma offered_elem (keep : string * Node -> bool) (dirents : list (string * Node))
    (option : MenuOption) :
  option ∈ map asOption (map fst (filter (fun dirent => keep dirent) dirents)) ->
  exists node, (value option, node) ∈ dirents /\ keep (value option, node) = true.
Proof.
  intros H. apply list_elem_of_fmap in H as (name & -> & H).
  apply list_elem_of_fmap in H as ([n node] & -> & H).
  apply list_elem_of_filter in H as [Hk H].
  exists node. split; [exact H|]. apply Is_true_true_1, Hk.
Qed.

Lemma selectRepository_fulfilled (cwd : Path) (f : FS) (input : list string)
    (v : string) (rest : list string) :
  selectRepository cwd f input = Fulfilled v rest ->
  f !! (Path.join cwd "repositories" ++ [v]) = Some Dir /\
  v <> "CANCEL" /\
  exists read, read <> [] /\ input = read ++ rest.
Proof.
  unfold selectRepository.
  destruct (Fs.existsSync (Path.join cwd "repositories") f); cbn [negb]; [|discriminate].
  destruct (readdirSync (Path.join cwd "repositories") f) as [dirents|e] eqn:Hdir;
    [|discriminate].
  destruct (length _ =? 0); [discriminate|].
  destruct (showMenu _ _ input) as [result rest'| |] eqn:Hshow; [|discriminate|discriminate].
  apply showMenu_fulfilled in Hshow as Hmenu.
  destruct (String.eqb_spec result "CANCEL") as [->|Hc]; [discriminate|].
  intros H. injection H as -> ->.
  destruct Hmenu as [[->|(o & Ho & ->)] Hread]; [contradiction|].
  apply offered_elem in Ho as (node & Hin & Hkeep).
  unfold isDirectory in Hkeep. cbn [snd] in Hkeep.
  destruct node; [|discriminate].
  apply (readdirSync_elem _ _ _ _ _ Hdir) in Hin.
  split; [exact Hin|]. split; [exact Hc | exact Hread].
Qed.

Lemma selectWorktree_fulfilled (cwd : Path) (repositoryName : string) (f : FS)
    (input : list string) (v : string) (rest : list string) :
  selectWorktree cwd repositoryName f input = Fulfilled v rest ->
  f !! (Path.join (Path.join cwd "repositories") repositoryName ++ [v]) = Some Dir /\
  v <> ".bare" /\ v <> "CANCEL" /\
  exists read, read <> [] /\ input = read ++ rest.
Proof.
  unfold selectWorktree.
  set (repoPath := Path.join (Path.join cwd "repositories") repositoryName).
  destruct (Fs.existsSync repoPath f); cbn [negb]; [|discriminate].
  destruct (readdirSync repoPath f) as [dirents|e] eqn:Hdir; [|discriminate].
  destruct (length _ =? 0); [discriminate|].
  destruct (showMenu _ _ input) as [result rest'| |] eqn:Hshow; [|discriminate|discriminate].
  apply showMenu_fulfilled in Hshow as Hmenu.
  destruct (String.eqb_spec result "CANCEL") as [->|Hc]; [discriminate|].
  intros H. injection H as -> ->.
  destruct Hmenu as [[->|(o & Ho & ->)] Hread]; [contradiction|].
  apply (offered_elem (fun dirent => isDirectory dirent
                                     && negb (String.eqb (fst dirent) ".bare")))
    in Ho as (node & Hin & Hkeep).
  apply andb_prop in Hkeep as [Hd Hb].
  unfold isDirectory in Hd. cbn [fst snd] in Hd, Hb.
  destruct node; [|discriminate].
  apply (readdirSync_elem _ _ _ _ _ Hdir) in Hin.
  split; [exact Hin|]. split; [|split; [exact Hc | exact Hread]].
  intros E. rewrite E in Hb. discriminate Hb.
Qed.

Lemma selectWorktree_only_bare (cwd : Path) (repositoryName : string) (f : FS)
    (input : list string) :
  f !! Path.join (Path.join cwd "repositories") repositoryName = Some Dir ->
  (forall name,
      f !! (Path.join (Path.join cwd "repositories") repositoryName ++ [name]) = Some Dir ->
      name = ".bare") ->
  selectWorktree cwd repositoryName f input =
  Rejected ("No worktrees found in " +:+ repositoryName) input.
Proof.
  intros Hrepo Honly. unfold selectWorktree.
  set (repoPath := Path.join (Path.join cwd "repositories") repositoryName) in *.
  unfold Fs.existsSync. rewrite Hrepo. cbn [negb].
  destruct (readdirSync repoPath f) as [dirents|e] eqn:Hdir.
  2:{ unfold readdirSync in Hdir. rewrite Hrepo in Hdir. discriminate Hdir. }
  destruct (filter (fun dirent => isDirectory dirent
                                  && negb (String.eqb (fst dirent) ".bare")) dirents)
    as [|[name node] l] eqn:Hf; [reflexivity|].
  exfalso.
  assert (Hin : (name, node) ∈ filter (fun dirent => isDirectory dirent
                                  && negb (String.eqb (fst dirent) ".bare")) dirents)
    by (rewrite Hf; left).
  apply list_elem_of_filter in Hin as [Hk Hin].
  apply Is_true_true_1, andb_prop in Hk as [Hd Hb].
  unfold isDirectory in Hd. cbn [fst snd] in Hd, Hb.
  destruct node; [|discriminate].
  apply (readdirSync_elem _ _ _ _ _ Hdir) in Hin.
  rewrite (Honly name Hin) in Hb. discriminate Hb.
Qed.

(** X13.  What the two selections give back is a directory that is there: a
    directory right under [repositories] for [selectRepository], a
    directory right under the workspace, other than the bare repository,
    for [selectWorktree].  It is never the cancel value, which is turned
    into the operation-cancelled error, and at least one line was read.
    A workspace in which the bare repository is the only directory has no
    worktree to select. *)
Theorem selection_is_a_directory (cwd : Path) (f : FS) (input : list string) :
  (forall v rest,
      selectRepository cwd f input = Fulfilled v rest ->
      f !! (Path.join cwd "repositories" ++ [v]) = Some Dir /\
      v <> "CANCEL" /\
      exists read, read <> [] /\ input = read ++ rest) /\
  (forall repositoryName v rest,
      selectWorktree cwd repositoryName f input = Fulfilled v rest ->
      f !! (Path.join (Path.join cwd "repositories") repositoryName ++ [v]) = Some Dir /\
      v <> ".bare" /\ v <> "CANCEL" /\
      exists read, read <> [] /\ input = read ++ rest) /\
  (forall repositoryName,
      f !! Path.join (Path.join cwd "repositories") repositoryName = Some Dir ->
      (forall name,
          f !! (Path.join (Path.join cwd "repositories") repositoryName ++ [name]) = Some Dir ->
          name = ".bare") ->
      selectWorktree cwd repositoryName f input =
      Rejected ("No worktrees found in " +:+ repositoryName) input).
Proof.
  split; [|split].
  - intros v rest. apply selectRepository_fulfilled.
  - intros repositoryName v rest. apply selectWorktree_fulfilled.
  - intros repositoryName. apply selectWorktree_only_bare.
Qed.

End MenuFacts.


(** * The editor launcher and the wizard *)

(** A pattern is not found earlier by putting in front of the text code
    units that the pattern does not start with. *)
Lemma includes_skip_prefix (a : ascii) (p pre s : string) :
  forallb (fun c => negb (Ascii.eqb a c)) (list_ascii_of_string pre) = true ->
  JS.includes (String a p) (pre +:+ s) = JS.includes (String a p) s.
Proof.
  induction pre as [|c pre IH]; intros H; [reflexivity|].
  cbn [list_ascii_of_string forallb] in H. apply andb_prop in H as [Hc Hpre].
  apply negb_true_iff in Hc.
  rewrite app_cons_s, (includes_skip a c p _ Hc). exact (IH Hpre).
Qed.

Section VscodeFacts.
Context `{host : Host}.

Ltac mstep :=
  unfold try_catch, mbind, M_bind, mret, M_ret, getThis, existsSync, throw;
  cbn beta iota zeta delta [fst snd negb].

Ltac run_next r :=
  match goal with
  | |- context [execAsync ?c ?w0] =>
      let E := fresh "E" in
      destruct (execAsync_run c w0) as (r & ? & ? & _ & E);
      rewrite E; clear E
  end.

Ltac trace_eq :=
  cbn [trace fst snd]; rewrite <- ?app_assoc; reflexivity.

(** X14.  [promptToOpen] never throws.  It first asks the editor for its
    version and, when that fails, runs nothing else.  Otherwise it may
    read [/proc/version], when that file is there, and then runs at most
    one command that opens the editor: the remote one when the text read
    mentions, in whatever case, [microsoft] or [wsl], or, the file not
    being there, when the environment names a distribution; else the
    local one, on the two platforms that are supported.  The outcome of
    that last command changes nothing. *)
Theorem promptToOpen_never_throws (process : Process) (workspacePath : string) (w : World) :
  exists (w' : World) (evs : list (string * ExecResult)),
    promptToOpen process workspacePath w = (Ok tt, w') /\
    this w' = this w /\
    trace w' = trace w ++ evs /\
    ((exists e, evs = [("code --version", ExecFail e)]) \/
     exists (out : string) (probe launch : list (string * ExecResult)),
       evs = ("code --version", ExecOk out) :: probe ++ launch /\
       (probe = [] \/ exists r, probe = [("cat /proc/version", r)]) /\
       (launch = [] \/
        (exists r,
            launch = [(codeRemote process workspacePath, r)] /\
            ((exists text,
                 probe = [("cat /proc/version", ExecOk text)] /\
                 JS.includes "microsoft" (JSLib.toLowerCase text)
                 || JS.includes "wsl" (JSLib.toLowerCase text) = true) \/
             (probe = [] /\ is_Some (WSL_DISTRO_NAME process)))) \/
        (exists r,
            launch = [(codeLocal workspacePath, r)] /\
            (platform process = "darwin" \/ platform process = "linux")))).
Proof.
  unfold promptToOpen, isVscodeAvailable. mstep.
  run_next r0. destruct r0 as [out0|e0]; mstep.
  2:{ eexists _, _. split; [reflexivity|]. split; [reflexivity|].
      split; [trace_eq|]. left. eexists. reflexivity. }
  unfold openInVscode, isWSL. mstep. cbn [fs].
  match goal with
  | |- context [Fs.existsSync procVersion ?f] => destruct (Fs.existsSync procVersion f)
  end; mstep.
  - run_next r1. destruct r1 as [text|e1]; mstep.
    + destruct (JS.includes "microsoft" (JSLib.toLowerCase text)
                || JS.includes "wsl" (JSLib.toLowerCase text)) eqn:Hwsl; mstep.
      * run_next r2.
        destruct r2 as [out2|e2]; mstep.
        all: eexists _, _; (split; [reflexivity|]); (split; [reflexivity|]);
          (split; [trace_eq|]); right;
          eexists out0, [_], [_]; (split; [reflexivity|]);
          (split; [right; eexists; reflexivity|]);
          right; left; eexists; (split; [reflexivity|]);
          left; exists text; (split; [reflexivity | exact Hwsl]).
      * destruct (String.eqb_spec (platform process) "darwin") as [Hd|Hd]; mstep.
        { run_next r2. destruct r2 as [out2|e2]; mstep.
          all: eexists _, _; (split; [reflexivity|]); (split; [reflexivity|]);
            (split; [trace_eq|]); right;
            eexists out0, [_], [_]; (split; [reflexivity|]);
            (split; [right; eexists; reflexivity|]);
            right; right; eexists; (split; [reflexivity|]); left; exact Hd. }
        destruct (String.eqb_spec (platform process) "linux") as [Hl|Hl]; mstep.
        { run_next r2. destruct r2 as [out2|e2]; mstep.
          all: eexists _, _; (split; [reflexivity|]); (split; [reflexivity|]);
            (split; [trace_eq|]); right;
            eexists out0, [_], [_]; (split; [reflexivity|]);
            (split; [right; eexists; reflexivity|]);
            right; right; eexists; (split; [reflexivity|]); right; exact Hl. }
        eexists _, _. split; [reflexivity|]. split; [reflexivity|].
        split; [trace_eq|]. right.
        eexists out0, [_], []. split; [reflexivity|].
        split; [right; eexists; reflexivity | left; reflexivity].
    + destruct (String.eqb_spec (platform process) "darwin") as [Hd|Hd]; mstep.
      { run_next r2. destruct r2 as [out2|e2]; mstep.
        all: eexists _, _; (split; [reflexivity|]); (split; [reflexivity|]);
          (split; [trace_eq|]); right;
          eexists out0, [_], [_]; (split; [reflexivity|]);
          (split; [right; eexists; reflexivity|]);
          right; right; eexists; (split; [reflexivity|]); left; exact Hd. }
      destruct (String.eqb_spec (platform process) "linux") as [Hl|Hl]; mstep.
      { run_next r2. destruct r2 as [out2|e2]; mstep.
        all: eexists _, _; (split; [reflexivity|]); (split; [reflexivity|]);
          (split; [trace_eq|]); right;
          eexists out0, [_], [_]; (split; [reflexivity|]);
          (split; [right; eexists; reflexivity|]);
          right; right; eexists; (split; [reflexivity|]); right; exact Hl. }
      eexists _, _. split; [reflexivity|]. split; [reflexivity|].
      split; [trace_eq|]. right.
      eexists out0, [_], []. split; [reflexivity|].
      split; [right; eexists; reflexivity | left; reflexivity].
  - destruct (bool_decide_reflect (is_Some (WSL_DISTRO_NAME process))) as [Henv|Henv]; mstep.
    + run_next r2. destruct r2 as [out2|e2]; mstep.
      all: eexists _, _; (split; [reflexivity|]); (split; [reflexivity|]);
        (split; [trace_eq|]); right;
        eexists out0, [], [_]; (split; [reflexivity|]);
        (split; [left; reflexivity|]);
        right; left; eexists; (split; [reflexivity|]);
        right; split; [reflexivity | exact Henv].
    + destruct (String.eqb_spec (platform process) "darwin") as [Hd|Hd]; mstep.
      { run_next r2. destruct r2 as [out2|e2]; mstep.
        all: eexists _, _; (split; [reflexivity|]); (split; [reflexivity|]);
          (split; [trace_eq|]); right;
          eexists out0, [], [_]; (split; [reflexivity|]);
          (split; [left; reflexivity|]);
          right; right; eexists; (split; [reflexivity|]); left; exact Hd. }
      destruct (String.eqb_spec (platform process) "linux") as [Hl|Hl]; mstep.
      { run_next r2. destruct r2 as [out2|e2]; mstep.
        all: eexists _, _; (split; [reflexivity|]); (split; [reflexivity|]);
          (split; [trace_eq|]); right;
          eexists out0, [], [_]; (split; [reflexivity|]);
          (split; [left; reflexivity|]);
          right; right; eexists; (split; [reflexivity|]); right; exact Hl. }
      eexists _, _. split; [reflexivity|]. split; [reflexivity|].
      split; [trace_eq|]. right.
      eexists out0, [], []. split; [reflexivity|].
      split; [left; reflexivity | left; reflexivity].
Qed.

End VscodeFacts.

Section WizardFacts.
Context `{host : Host}.

(** ** Removing a worktree, as the wizard sees it *)

(** [removeWorktree], with the state it leaves. *)
Lemma removeWorktree_run (w : World) (branchName : string) (force : bool) :
  removeWorktree branchName force w =
  if Fs.existsSync (barePath (this w)) (fs w)
  then
    let '(r, fs', remote') :=
      run (removeCommand (this w) branchName force) (fs w) (remote w) in
    (match r with
     | ExecOk _ => Ok tt
     | ExecFail message =>
         if negb force && JS.includes dirtyMarker message
         then Throw (dirtyMessage (this w) branchName)
         else Throw ("Failed to remove worktree: " +:+ JS.Error_toString message)
     end,
     {| this := this w; fs := fs'; remote := remote';
        trace := trace w ++ [(removeCommand (this w) branchName force, r)] |})
  else (Throw "Failed to remove worktree: Error: Repository not found.", w).
Proof.
  unfold removeWorktree, removeWorktree_try, try_catch, mbind, M_bind, mret, M_ret,
    getThis, existsSync, throw.
  destruct (Fs.existsSync (barePath (this w)) (fs w)); cbn [negb];
    [|destruct force; reflexivity].
  unfold execAsync.
  destruct (run _ (fs w) (remote w)) as [[[out|message] fs'] remote']; cbn [fst snd];
    [reflexivity|].
  rewrite includes_dirtyMarker_toString.
  destruct (negb force && JS.includes dirtyMarker message); reflexivity.
Qed.

(** The test of the wizard on the errors of [removeWorktree]: it finds
    the marker in the dirty-worktree error, and in a generic error when
    the message of the command holds it. *)
Lemma wizard_test_dirty (m : WorktreeManager) (branchName : string) :
  JS.includes "contains modified or untracked files"
    (JS.Error_toString (dirtyMessage m branchName)) = true.
Proof. reflexivity. Qed.

Lemma wizard_test_generic (message : string) :
  JS.includes "contains modified or untracked files"
    (JS.Error_toString ("Failed to remove worktree: " +:+ JS.Error_toString message))
  = JS.includes dirtyMarker message.
Proof.
  change (JS.Error_toString ("Failed to remove worktree: " +:+ JS.Error_toString message))
    with ("Error: Failed to remove worktree: " +:+ JS.Error_toString message).
  rewrite (includes_skip_prefix "c" "ontains modified or untracked files"
             "Error: Failed to remove worktree: ") by reflexivity.
  apply includes_dirtyMarker_toString.
Qed.

(** An answer that [confirm] takes for a yes. *)
Lemma confirm_true (question : string) (input rest : list string) :
  Menu.confirm question input = Menu.Fulfilled true rest ->
  exists answer read,
    input = read ++ rest /\ answer ∈ read /\
    (JSLib.toLowerCase (JS.trim answer) = "y" \/
     JSLib.toLowerCase (JS.trim answer) = "yes").
Proof.
  induction input as [|answer input IH]; [discriminate|].
  cbn [Menu.confirm].
  destruct (String.eqb_spec (JSLib.toLowerCase (JS.trim answer)) "y") as [Hy|_].
  { cbn [orb]. intros H. injection H as <-. exists answer, [answer].
    split; [reflexivity|]. split; [left | left; exact Hy]. }
  destruct (String.eqb_spec (JSLib.toLowerCase (JS.trim answer)) "yes") as [Hyes|_].
  { cbn [orb]. intros H. injection H as <-. exists answer, [answer].
    split; [reflexivity|]. split; [left | right; exact Hyes]. }
  cbn [orb].
  destruct (String.eqb (JSLib.toLowerCase (JS.trim answer)) "n"
            || String.eqb (JSLib.toLowerCase (JS.trim answer)) "no"); [discriminate|].
  intros H. destruct (IH H) as (a & read & -> & Hin & Ha).
  exists a, (answer :: read). split; [reflexivity|]. split; [right; exact Hin | exact Ha].
Qed.

(** The removal itself, once the user has confirmed it. *)
Lemma removal_attempt (manager : WorktreeManager) (branchName : string)
    (w : World) (input : list string) :
  let attempt :=
    W_try_catch
      (call manager (removeWorktree branchName false))
      (fun error =>
         if JS.includes "contains modified or untracked files" (JS.Error_toString error)
         then
           W_then (ask (fun _ => Menu.confirm "Force remove (discard changes)?"))
             (fun forceRemove =>
                if (forceRemove : bool)
                then call manager (removeWorktree branchName true)
                else W_throw "Operation cancelled")
         else W_throw error) in
  exists (w' : World) (evs : list (string * ExecResult)),
    (attempt w input = Stalled w' \/
     exists r rest, attempt w input = Returned r w' rest) /\
    trace w' = trace w ++ evs /\
    (evs = [] \/
     (exists r, evs = [(removeCommand manager branchName false, r)]) \/
     (exists message r,
         JS.includes dirtyMarker message = true /\
         evs = [(removeCommand manager branchName false, ExecFail message);
                (removeCommand manager branchName true, r)])).
Proof.
  intros attempt. subst attempt.
  unfold W_try_catch, call. rewrite removeWorktree_run. cbn [this fs remote trace].
  destruct (Fs.existsSync (barePath manager) (fs w)).
  2:{ change (JS.includes "contains modified or untracked files"
                (JS.Error_toString "Failed to remove worktree: Error: Repository not found."))
        with false. cbv iota. unfold W_throw.
      eexists _, []. split; [right; eexists _, _; reflexivity|].
      split; [cbn [trace]; rewrite app_nil_r; reflexivity | left; reflexivity]. }
  destruct (run (removeCommand manager branchName false) (fs w) (remote w))
    as [[[out|message] f1] rem1].
  { eexists _, _. split; [right; eexists _, _; reflexivity|].
    split; [reflexivity|]. right. left. eexists. reflexivity. }
  cbn [negb andb].
  destruct (JS.includes dirtyMarker message) eqn:Hdirty.
  2:{ rewrite wizard_test_generic, Hdirty. unfold W_throw.
      eexists _, _. split; [right; eexists _, _; reflexivity|].
      split; [reflexivity|]. right. left. eexists. reflexivity. }
  rewrite wizard_test_dirty. unfold W_then, ask, W_throw.
  destruct (Menu.confirm "Force remove (discard changes)?" input)
    as [[|] rest|e rest|].
  - rewrite removeWorktree_run. cbn [this fs remote trace].
    destruct (Fs.existsSync (barePath manager) f1).
    + destruct (run (removeCommand manager branchName true) f1 rem1)
        as [[r2 f2] rem2].
      eexists _, _. split; [right; eexists _, _; reflexivity|].
      split; [cbn [trace]; rewrite <- app_assoc; reflexivity|].
      right. right. exists message, r2. split; [exact Hdirty | reflexivity].
    + eexists _, _. split; [right; eexists _, _; reflexivity|].
      split; [reflexivity|]. right. left. eexists. reflexivity.
  - eexists _, _. split; [right; eexists _, _; reflexivity|].
    split; [reflexivity|]. right. left. eexists. reflexivity.
  - eexists _, _. split; [right; eexists _, _; reflexivity|].
    split; [reflexivity|]. right. left. eexists. reflexivity.
  - eexists _, _. split; [left; reflexivity|].
    split; [reflexivity|]. right. left. eexists. reflexivity.
Qed.

(** What is wrapped by [withErrorHandling] never throws. *)
Lemma withErrorHandling_cases {A : Type} (operation : W A) (w : World) (input : list string) :
  match operation w input with
  | Returned (Ok _) w' rest =>
      withErrorHandling operation w input = Returned (Ok true) w' rest
  | Returned (Throw error) w' rest =>
      withErrorHandling operation w input =
      Returned (Ok (negb (isOperationCancelled error))) w' rest
  | Stalled w' => withErrorHandling operation w input = Stalled w'
  end.
Proof.
  unfold withErrorHandling, W_try_catch, W_then, W_return.
  destruct (operation w input) as [[a|error] w' rest|w']; try reflexivity.
  destruct (isOperationCancelled error); reflexivity.
Qed.

(** X15.  The wizard removes a worktree with care.  [removeWorktreeWizard]
    never throws.  It runs at most two commands: the plain removal and,
    after it, the forced one.  Whatever it runs, it runs on a directory of
    [repositories] and on a directory of that workspace other than the
    bare repository, both there when the operation starts, and only after
    a line of the input that says yes.  The forced removal is run only
    when the plain one has failed with a message that holds the marker of
    modified or untracked files. *)
Theorem removeWorktreeWizard_forces_only_dirty
    (cwd : Path) (w : World) (input : list string) :
  exists (w' : World) (evs : list (string * ExecResult)),
    (removeWorktreeWizard cwd w input = Stalled w' \/
     exists (again : bool) (rest : list string),
       removeWorktreeWizard cwd w input = Returned (Ok again) w' rest) /\
    trace w' = trace w ++ evs /\
    (evs = [] \/
     exists repositoryName branchName answer,
       fs w !! (Path.join cwd "repositories" ++ [repositoryName]) = Some Dir /\
       fs w !! (Path.join (Path.join cwd "repositories") repositoryName ++ [branchName])
         = Some Dir /\
       branchName <> ".bare" /\
       answer ∈ input /\
       (JSLib.toLowerCase (JS.trim answer) = "y" \/
        JSLib.toLowerCase (JS.trim answer) = "yes") /\
       ((exists r,
            evs = [(removeCommand (Cli.getManager cwd repositoryName) branchName false, r)]) \/
        (exists message r,
            JS.includes dirtyMarker message = true /\
            evs = [(removeCommand (Cli.getManager cwd repositoryName) branchName false,
                    ExecFail message);
                   (removeCommand (Cli.getManager cwd repositoryName) branchName true, r)]))).
Proof.
  unfold removeWorktreeWizard.
  match goal with
  | |- context [withErrorHandling ?op] =>
      pose proof (withErrorHandling_cases op w input) as Hwrap;
      set (body := op) in *
  end.
  assert (Hbody :
    exists (w' : World) (evs : list (string * ExecResult)),
      (body w input = Stalled w' \/ exists r rest, body w input = Returned r w' rest) /\
      trace w' = trace w ++ evs /\
      (evs = [] \/
       exists repositoryName branchName answer,
         fs w !! (Path.join cwd "repositories" ++ [repositoryName]) = Some Dir /\
         fs w !! (Path.join (Path.join cwd "repositories") repositoryName ++ [branchName])
           = Some Dir /\
         branchName <> ".bare" /\
         answer ∈ input /\
         (JSLib.toLowerCase (JS.trim answer) = "y" \/
          JSLib.toLowerCase (JS.trim answer) = "yes") /\
         ((exists r,
              evs = [(removeCommand (Cli.getManager cwd repositoryName) branchName false, r)]) \/
          (exists message r,
              JS.includes dirtyMarker message = true /\
              evs = [(removeCommand (Cli.getManager cwd repositoryName) branchName false,
                      ExecFail message);
                     (removeCommand (Cli.getManager cwd repositoryName) branchName true, r)])))).
  { clear Hwrap. remember (body w input) as R eqn:HR. subst body.
    unfold removeWorktreeOperation in HR.
    assert (Hnone : forall w0 : World,
              w0 = w ->
              (exists rest r, R = Returned r w0 rest) \/ R = Stalled w0 ->
              exists (w' : World) (evs : list (string * ExecResult)),
                (R = Stalled w' \/ exists r rest, R = Returned r w' rest) /\
                trace w' = trace w ++ evs /\
                (evs = [] \/
                 exists repositoryName branchName answer,
                   fs w !! (Path.join cwd "repositories" ++ [repositoryName]) = Some Dir /\
                   fs w !! (Path.join (Path.join cwd "repositories") repositoryName
                            ++ [branchName]) = Some Dir /\
                   branchName <> ".bare" /\
                   answer ∈ input /\
                   (JSLib.toLowerCase (JS.trim answer) = "y" \/
                    JSLib.toLowerCase (JS.trim answer) = "yes") /\
                   ((exists r,
                        evs = [(removeCommand (Cli.getManager cwd repositoryName)
                                  branchName false, r)]) \/
                    (exists message r,
                        JS.includes dirtyMarker message = true /\
                        evs = [(removeCommand (Cli.getManager cwd repositoryName)
                                  branchName false, ExecFail message);
                               (removeCommand (Cli.getManager cwd repositoryName)
                                  branchName true, r)])))).
    { intros w0 -> HR0. exists w, []. split.
      - destruct HR0 as [(rest & r & ->) | ->]; [right; eauto | left; reflexivity].
      - split; [rewrite app_nil_r; reflexivity | left; reflexivity]. }
    unfold W_then at 1 in HR. unfold ask at 1 in HR.
    destruct (Menu.selectRepository cwd (fs w) input) as [repo rest1|e rest1|] eqn:Hrepo.
    2:{ apply (Hnone w eq_refl). left. eauto. }
    2:{ apply (Hnone w eq_refl). right. exact HR. }
    apply selectRepository_fulfilled in Hrepo as (Hrepo & _ & read1 & _ & Hin1).
    unfold W_then at 1 in HR. unfold ask at 1 in HR.
    destruct (Menu.selectWorktree cwd repo (fs w) rest1) as [branch rest2|e rest2|] eqn:Hwt.
    2:{ apply (Hnone w eq_refl). left. eauto. }
    2:{ apply (Hnone w eq_refl). right. exact HR. }
    apply selectWorktree_fulfilled in Hwt as (Hwt & Hbare & _ & read2 & _ & Hin2).
    unfold W_then at 1 in HR. unfold ask at 1 in HR.
    destruct (Menu.confirm "Are you sure?" rest2) as [[|] rest3|e rest3|] eqn:Hsure.
    2:{ cbn [negb] in HR. unfold W_throw in HR. apply (Hnone w eq_refl). left. eauto. }
    2:{ apply (Hnone w eq_refl). left. eauto. }
    2:{ apply (Hnone w eq_refl). right. exact HR. }
    apply confirm_true in Hsure as (answer & read3 & Hin3 & Hanswer & Hyes).
    cbn [negb] in HR. clear Hnone.
    destruct (removal_attempt (Cli.getManager cwd repo) branch w rest3)
      as (w' & evs & Hrun & Htrace & Hevs).
    cbv zeta in Hrun. rewrite <- HR in Hrun.
    exists w', evs. split; [exact Hrun|]. split; [exact Htrace|].
    destruct Hevs as [-> | Hevs]; [left; reflexivity|].
    right. exists repo, branch, answer.
    split; [exact Hrepo|]. split; [exact Hwt|]. split; [exact Hbare|].
    split; [|split; [exact Hyes | exact Hevs]].
    rewrite Hin1, Hin2, Hin3.
    apply elem_of_app. right. apply elem_of_app. right.
    apply elem_of_app. left. exact Hanswer. }
  destruct Hbody as (w' & evs & Hrun & Htrace & Hevs).
  exists w', evs. split; [|split; [exact Htrace | exact Hevs]].
  destruct Hrun as [Hst | (r & rest & Hret)].
  - rewrite Hst in Hwrap. left. exact Hwrap.
  - rewrite Hret in Hwrap. right. destruct r as [a|error]; eexists _, rest; exact Hwrap.
Qed.

(** ** The loop of the wizard *)

(** X16.  Without a [repositories] directory the selection of a repository
    fails before any line is read; the error is not a cancellation, so the
    operation returns true with the state and the input as they were, and
    the loop runs it again, for ever: whatever the number of iterations,
    the loop has not ended.  So it is for listing and for removing. *)
Theorem runWizardLoop_spins_without_repositories
    (cwd : Path) (w : World) (input : list string) (fuel : nat) :
  Fs.existsSync (Path.join cwd "repositories") (fs w) = false ->
  listWorktreesWizard cwd w input = Returned (Ok true) w input /\
  removeWorktreeWizard cwd w input = Returned (Ok true) w input /\
  runWizardLoop fuel (listWorktreesWizard cwd) w input = None /\
  runWizardLoop fuel (removeWorktreeWizard cwd) w input = None.
Proof.
  intros Hdir.
  assert (Hselect : Menu.selectRepository cwd (fs w) input =
            Menu.Rejected "No repositories found. Please clone a repository first." input).
  { unfold Menu.selectRepository. rewrite Hdir. reflexivity. }
  assert (Hlist : listWorktreesWizard cwd w input = Returned (Ok true) w input).
  { unfold listWorktreesWizard, listWorktreesOperation, withErrorHandling,
      W_try_catch, W_then, ask.
    rewrite Hselect. reflexivity. }
  assert (Hremove : removeWorktreeWizard cwd w input = Returned (Ok true) w input).
  { unfold removeWorktreeWizard, removeWorktreeOperation, withErrorHandling,
      W_try_catch, W_then, ask.
    rewrite Hselect. reflexivity. }
  split; [exact Hlist|]. split; [exact Hremove|].
  split; induction fuel as [|fuel IH]; try reflexivity;
    cbn [runWizardLoop]; rewrite ?Hlist, ?Hremove; exact IH.
Qed.

(** X17.  The loop around an operation wrapped by [withErrorHandling] never
    throws, and it ends in one way only: the operation has thrown an error
    whose text holds [Operation cancelled].  A success and any other error
    make it run the operation again.  Otherwise the loop waits for input
    that does not come. *)
Theorem runWizardLoop_ends_on_cancel {A : Type}
    (operation : W A) (fuel : nat) (w : World) (input : list string) (run : Run unit) :
  runWizardLoop fuel (withErrorHandling operation) w input = Some run ->
  (exists w0 input0 w',
      operation w0 input0 = Stalled w' /\ run = Stalled w') \/
  (exists w0 input0 error w' rest,
      operation w0 input0 = Returned (Throw error) w' rest /\
      JS.includes "Operation cancelled" (JS.Error_toString error) = true /\
      run = Returned (Ok tt) w' rest).
Proof.
  revert w input. induction fuel as [|fuel IH]; intros w input; [discriminate|].
  cbn [runWizardLoop].
  pose proof (withErrorHandling_cases operation w input) as Hwrap.
  destruct (operation w input) as [[a|error] w' rest|w'] eqn:Hop; rewrite Hwrap.
  - apply IH.
  - destruct (isOperationCancelled error) eqn:Hc; cbn [negb].
    + intros H. injection H as <-. right. exists w, input, error, w', rest.
      split; [exact Hop|]. split; [exact Hc | reflexivity].
    + apply IH.
  - intros H. injection H as <-. left. exists w, input, w'.
    split; [exact Hop | reflexivity].
Qed.

End WizardFacts.


(** * Further runs on the scripted host *)

Section MoreRuns.
Import Scripted Samples.

(** The scripted tool removes nothing. *)
Lemma runScript_keeps_some (command : string) (f : FS) (script : list Answer) (p : Path) :
  is_Some (f !! p) -> is_Some (snd (fst (runScript command f script)) !! p).
Proof. intros [x Hx]. exists x. apply runScript_keeps, Hx. Qed.

(** A configuration saved in a cloned workspace and read back. *)
Lemma save_then_load_witness :
  let w := world (dirsOf cloned) [] in
  let config := RepositoryConfig.make "develop" url in
  let w' := snd (save config w) in
  load w' = (Ok (Some config), w') /\
  getDefaultBranch w' =
    (Ok (if JS.truthy (RepositoryConfig.defaultBranch config)
         then Some (RepositoryConfig.defaultBranch config)
         else None), w') /\
  this w' = this w /\ remote w' = remote w /\ trace w' = trace w /\
  (forall p, p <> configPath (this w) -> fs w' !! p = fs w !! p).
Proof.
  intros w config w'.
  apply (save_then_load w w' config).
  - apply parse_stringify.
  - assert (E : fst (save config w) = Ok tt) by (vm_compute; reflexivity).
    subst w'. destruct (save config w) as [r x]. cbn [fst snd] in *. rewrite E. reflexivity.
Defined.

(** The operations in a home where nothing was cloned. *)
Lemma operations_need_repository_witness :
  let w := world (dirsOf emptyHome) [] in
  (forall branchName baseBranch pullLatest,
      createBranch branchName baseBranch pullLatest w =
      (Throw "Failed to create branch: Error: Repository not found. Please clone first.", w)) /\
  listWorktrees w =
    (Throw "Failed to list worktrees: Error: Repository not found. Please clone first.", w) /\
  (forall branchName force,
      removeWorktree branchName force w =
      (Throw "Failed to remove worktree: Error: Repository not found.", w) /\
      removeWorktree_message branchName force w =
      (Throw "Failed to remove worktree: Error: Repository not found.", w)) /\
  listRemoteBranches w =
    (Throw "Failed to list remote branches: Error: Repository not found. Please clone first.", w) /\
  (forall branchName,
      openRemoteBranch branchName w =
      (Throw "Failed to open remote branch: Error: Repository not found. Please clone first.", w)).
Proof.
  intros w. apply (operations_need_repository w). vm_compute. reflexivity.
Defined.

(** A branch created while the remote cannot be reached for the first
    fetch. *)
Lemma createBranch_fetch_failure_not_fatal_witness :
  let w := world (dirsOf cloned) fetchFailsScript in
  exists (base : string) (r0 r1 : ExecResult) (rest : list (string * ExecResult)),
    trace (snd (createBranch "feature" None true w)) =
      trace w ++ (fetchAll (this w), r0) :: (fetchBase (this w) base, r1) :: rest /\
    (fst (createBranch "feature" None true w) = Ok tt <->
     exists out1 out2,
       r1 = ExecOk out1 /\
       rest = [(addBranch (this w) "feature" base, ExecOk out2)]) /\
    (forall message,
        fst (createBranch "feature" None true w) = Throw message ->
        exists cause,
          message = "Failed to create branch: " +:+ JS.Error_toString cause /\
          (r1 = ExecFail cause /\ rest = [] \/
           exists out1,
             r1 = ExecOk out1 /\
             rest = [(addBranch (this w) "feature" base, ExecFail cause)])).
Proof.
  intros w. apply (createBranch_fetch_failure_not_fatal w "feature" None).
  - vm_compute. reflexivity.
  - vm_compute. reflexivity.
Defined.

(** That run: the first fetch fails, the branch is created all the same. *)
Example createBranch_after_failed_fetch :
  map snd (trace (snd (createBranch "feature" None true
                         (world (dirsOf cloned) fetchFailsScript))))
  = [ExecFail "fatal: unable to access the remote"; ExecOk ""; ExecOk ""]
  /\ fst (createBranch "feature" None true (world (dirsOf cloned) fetchFailsScript))
     = Ok tt.
Proof. vm_compute. split; reflexivity. Qed.

(** A clone that fails at its first command, and the clone tried again. *)
Lemma clone_failure_not_rolled_back_witness :
  let w := world (dirsOf emptyHome) cloneFailsScript in
  let w' := snd (clone url w) in
  Fs.existsSync (repositoryPath (this w)) (fs w') = true /\
  clone url w' =
  (Throw ("Failed to clone repository: Error: Repository directory already exists: "
          +:+ Path.render (repositoryPath (this w))), w').
Proof.
  intros w w'.
  assert (E : fst (clone url w) =
              Throw "Failed to clone repository: Error: fatal: repository not found")
    by (vm_compute; reflexivity).
  apply (clone_failure_not_rolled_back w w' url url
           "Failed to clone repository: Error: fatal: repository not found").
  - intros command f r p _. apply runScript_keeps_some.
  - subst w'. destruct (clone url w) as [r x]. cbn [fst snd] in *. rewrite E. reflexivity.
  - vm_compute. discriminate.
Defined.

(** A clone of a remote whose HEAD is [develop], and then a new branch. *)
Lemma clone_then_createBranch_witness :
  let w := world (dirsOf emptyHome) (cloneScript ++ branchScript) in
  let w1 := snd (clone url w) in
  exists (b out : string) (pre : list (string * ExecResult)) (r1 : ExecResult)
         (rest : list (string * ExecResult)),
    last (trace w1) = Some (addDefault (this w) b, ExecOk out) /\
    trace (snd (createBranch "feature" None false w1)) =
      trace w1 ++ pre ++ (fetchBase (this w) b, r1) :: rest /\
    pre = [] /\
    (rest = [] \/ exists r2, rest = [(addBranch (this w) "feature" b, r2)]) /\
    (fst (createBranch "feature" None false w1) = Ok tt ->
     exists out2, rest = [(addBranch (this w) "feature" b, ExecOk out2)]).
Proof.
  intros w w1.
  apply (clone_then_createBranch w w1 url "feature" false).
  - exact parse_stringify.
  - intros command f r data Hf. apply runScript_keeps, Hf.
  - assert (E : fst (clone url w) = Ok tt) by (vm_compute; reflexivity).
    subst w1. destruct (clone url w) as [r x]. cbn [fst snd] in *. rewrite E. reflexivity.
  - vm_compute. reflexivity.
  - vm_compute. reflexivity.
Defined.

(** The commands of that run: the new branch starts from [origin/develop]. *)
Example clone_then_branch_from_develop :
  map fst (trace (snd (createBranch "feature" None false
                         (snd (clone url (world (dirsOf emptyHome)
                                            (cloneScript ++ branchScript)))))))
  = [cloneBare manager url; setHead manager; symbolicRef manager;
     addDefault manager "develop";
     fetchBase manager "develop"; addBranch manager "feature" "develop"].
Proof. vm_compute. reflexivity. Qed.

(** A remote branch whose worktree cannot be created either way. *)
Lemma openRemoteBranch_errors_witness :
  let w := world (dirsOf cloned) bothFailScript in
  exists (cause : string) (evs : list (string * ExecResult)),
    trace (snd (openRemoteBranch "feature" w)) = trace w ++ evs /\
    "Failed to open remote branch: Error: fatal: 'feature' is already checked out" =
      "Failed to open remote branch: " +:+ JS.Error_toString cause /\
    ((cause = "Repository not found. Please clone first." /\ evs = []) \/
     evs = [(fetchHeads (this w), ExecFail cause)] \/
     (exists c out0,
         cause = "Failed to list remote branches: " +:+ JS.Error_toString c /\
         ((c = "Repository not found. Please clone first." /\
           evs = [(fetchHeads (this w), ExecOk out0)]) \/
          evs = [(fetchHeads (this w), ExecOk out0); (fetchPrune (this w), ExecFail c)] \/
          exists out1,
            evs = [(fetchHeads (this w), ExecOk out0); (fetchPrune (this w), ExecOk out1);
                   (lsRemote (this w), ExecFail c)])) \/
     (exists out0 out1 out2,
         cause = "Remote branch '" +:+ "feature"
                 +:+ "' not found. Please check the branch name." /\
         ("feature" ∉ RemoteHeads.parseRemoteHeads out2) /\
         evs = [(fetchHeads (this w), ExecOk out0); (fetchPrune (this w), ExecOk out1);
                (lsRemote (this w), ExecOk out2)]) \/
     (exists out0 out1 out2 first,
         "feature" ∈ RemoteHeads.parseRemoteHeads out2 /\
         evs = [(fetchHeads (this w), ExecOk out0); (fetchPrune (this w), ExecOk out1);
                (lsRemote (this w), ExecOk out2);
                (addTracking (this w) "feature", ExecFail first);
                (addExisting (this w) "feature", ExecFail cause)])).
Proof.
  intros w.
  apply (openRemoteBranch_errors w "feature"
           "Failed to open remote branch: Error: fatal: 'feature' is already checked out").
  vm_compute. reflexivity.
Defined.

(** The URL of the README, and the manager made for its name. *)
Lemma parseRepoUrl_names_a_directory_witness :
  "rawsql-ts" <> "" /\ Url.noSlash "rawsql-ts" = true /\
  (exists pre,
      "https://github.com/mk3008/rawsql-ts.git" = pre +:+ "/" +:+ "rawsql-ts" \/
      "https://github.com/mk3008/rawsql-ts.git" = pre +:+ "/" +:+ "rawsql-ts" +:+ ".git") /\
  ("rawsql-ts" <> "." -> "rawsql-ts" <> ".." ->
   repositoryPath (Cli.getManager cwd "rawsql-ts") = cwd ++ ["repositories"; "rawsql-ts"] /\
   barePath (Cli.getManager cwd "rawsql-ts") = cwd ++ ["repositories"; "rawsql-ts"; ".bare"] /\
   configPath (Cli.getManager cwd "rawsql-ts")
     = cwd ++ ["repositories"; "rawsql-ts"; ".worktree.json"] /\
   defaultBranch (Cli.getManager cwd "rawsql-ts") = "main").
Proof.
  apply (parseRepoUrl_names_a_directory "https://github.com/mk3008/rawsql-ts.git"
           "rawsql-ts" cwd).
  reflexivity.
Defined.

(** The dot names are names like any other for the parser; the workspace
    of the second one is the current directory itself. *)
Example parseRepoUrl_dot_names :
  Url.parseRepoUrl "https://example.com/group/.." = Ok ".." /\
  repositoryPath (Cli.getManager cwd "..") = cwd.
Proof. split; reflexivity. Qed.

(** A listing with CR LF line ends. *)
Lemma parseRemoteHeads_CRLF_drops_all_witness :
  RemoteHeads.parseRemoteHeads crlfListing = [].
Proof.
  apply (parseRemoteHeads_CRLF_drops_all crlfListing).
  unfold crlfListing.
  rewrite !split_app_nl.
  change (JS.split JS.LF (RemoteHeads.headLine "1a2b" "main" +:+ JSLib.CRs))
    with [RemoteHeads.headLine "1a2b" "main" +:+ JSLib.CRs].
  change (JS.split JS.LF (RemoteHeads.headLine "3c4d" "develop" +:+ JSLib.CRs))
    with [RemoteHeads.headLine "3c4d" "develop" +:+ JSLib.CRs].
  change (JS.split JS.LF "") with [""].
  cbn [app].
  constructor; [right; eexists; reflexivity|].
  constructor; [right; eexists; reflexivity|].
  constructor; [left; reflexivity|].
  constructor.
Defined.

(** The same listing with LF line ends gives its two branches. *)
Example parseRemoteHeads_LF_keeps :
  RemoteHeads.parseRemoteHeads
    (RemoteHeads.headLine "1a2b" "main" +:+ JS.nl +:+
     RemoteHeads.headLine "3c4d" "develop" +:+ JS.nl)
  = ["develop"; "main"].
Proof. vm_compute. reflexivity. Qed.

(** [parseInt] reads a prefix and knows the hexadecimal notation: these
    answers choose the second option. *)
Example showMenu_reads_a_prefix :
  let options := [Menu.asOption "main"; Menu.asOption "develop"] in
  Menu.showMenu "Select" options ["2nd"] = Menu.Fulfilled "develop" [] /\
  Menu.showMenu "Select" options ["0x2"] = Menu.Fulfilled "develop" [] /\
  Menu.showMenu "Select" options ["  +2.9 "] = Menu.Fulfilled "develop" [] /\
  Menu.showMenu "Select" options ["-0"] = Menu.Fulfilled "CANCEL" [] /\
  Menu.showMenu "Select" options ["3"; "two"; ""; "1"; "2"] = Menu.Fulfilled "main" ["2"].
Proof. vm_compute. repeat split; reflexivity. Qed.

(** The wizard in a home without a [repositories] directory. *)
Lemma runWizardLoop_spins_without_repositories_witness :
  let w := world (dirsOf emptyHome) [] in
  listWorktreesWizard cwd w ["1"] = Returned (Ok true) w ["1"] /\
  removeWorktreeWizard cwd w ["1"] = Returned (Ok true) w ["1"] /\
  runWizardLoop 1000 (listWorktreesWizard cwd) w ["1"] = None /\
  runWizardLoop 1000 (removeWorktreeWizard cwd) w ["1"] = None.
Proof.
  intros w. apply (runWizardLoop_spins_without_repositories cwd w ["1"] 1000).
  vm_compute. reflexivity.
Defined.

(** The listing loop left by the answer 0 to the menu of repositories. *)
Lemma runWizardLoop_ends_on_cancel_witness :
  let w := world (dirsOf cloned) [] in
  (exists w0 input0 w',
      listWorktreesOperation cwd w0 input0 = Stalled w' /\
      Returned (Ok tt) w [] = Stalled w') \/
  (exists w0 input0 error w' rest,
      listWorktreesOperation cwd w0 input0 = Returned (Throw error) w' rest /\
      JS.includes "Operation cancelled" (JS.Error_toString error) = true /\
      Returned (Ok tt) w [] = Returned (Ok tt) w' rest).
Proof.
  intros w.
  apply (runWizardLoop_ends_on_cancel (listWorktreesOperation cwd) 3 w ["0"]
           (Returned (Ok tt) w [])).
  vm_compute. reflexivity.
Defined.

(** The wizard removing a worktree with local changes: the user says yes,
    the plain removal fails on the changes, the user says yes again, and
    the removal is forced. *)
Example removeWorktreeWizard_forced_run :
  let w := world (dirsOf cloned)
             (dirtyScript ++ [(ExecOk "", [])]) in
  exists w',
    removeWorktreeWizard cwd w ["1"; "1"; "y"; "YES"; "0"]
    = Returned (Ok true) w' ["0"] /\
    map fst (trace w') =
    [removeCommand manager "main" false; removeCommand manager "main" true].
Proof. eexists. vm_compute. split; reflexivity. Qed.

End MoreRuns.
